(** * digitalSign: template-driven image pipeline and upload lifecycle

    A shallow embedding of
    - [src/services/imageProcessingService.js] ([ImageProcessingService]),
    - [src/services/templateService.js] ([TemplateService]),
    - [src/controllers/uploadController.js] ([UploadController.uploadSingle]),
    with the collaborators they call (sharp, Prisma, the file system and
    Cloudinary) modelled at their interface. *)

From Stdlib Require Import ZArith QArith Ascii String List Bool Lia Lqa.
From stdpp Require Import base option gmap strings pretty.
Import ListNotations.

Local Open Scope string_scope.

(** ** JavaScript values *)

(** A thrown [Error]; the code only ever reads [error.message]. *)
Record Error := mkError { message : string }.

(** Outcome of a call that may throw. *)
Inductive Res (A : Type) : Type :=
| Ok (a : A)
| Throw (e : Error).
Arguments Ok {A} a.
Arguments Throw {A} e.

(** The [{ success, data | error }] objects the services return. *)
Inductive ServiceResult (A : Type) : Type :=
| Success (data : A)
| Failure (error : string).
Arguments Success {A} data.
Arguments Failure {A} error.

(** Truthiness of a nullable number, as in [cropWidth && cropHeight] and
    [watermarkSize || ...]: [null] and [0] are falsy. *)
Definition truthyZ (v : option Z) : bool :=
  match v with Some z => negb (z =? 0)%Z | None => false end.

Definition truthyQ (v : option Q) : bool :=
  match v with Some q => negb (Qeq_bool q 0) | None => false end.

(** Truthiness of a nullable string: [null] and the empty string are falsy. *)
Definition truthyS (v : option string) : bool :=
  match v with Some s => negb (String.eqb s "") | None => false end.

(** [v !== null]. *)
Definition notNull {A} (v : option A) : bool :=
  match v with Some _ => true | None => false end.

(** [ToNumber]: a [null] entering arithmetic counts as [0]. *)
Definition numZ (v : option Z) : Z := default 0%Z v.

(** ** Persistent entities (prisma/migrations) *)

(** A row of table [templates].  A nullable column is an [option], [None]
    being SQL NULL, which Prisma hands over as [null]; INTEGER columns are
    [Z] and DOUBLE PRECISION columns are rationals.  Columns no modelled
    function reads here ([description], [resizeMode], [cropMode],
    [backgroundBlur], the timestamps) are left out. *)
Module Template.
Record t := mk {
    id : string;
    name : string;
    width : Z;
    height : Z;
    quality : Z;
    format : string;
    fit : string;
    cropX : option Z;
    cropY : option Z;
    cropWidth : option Z;
    cropHeight : option Z;
    brightness : option Q;
    contrast : option Q;
    saturation : option Q;
    hue : option Q;
    blur : option Q;
    sharpen : option Q;
    watermarkEnabled : bool;
    watermarkText : option string;
    watermarkPosition : option string;
    watermarkOpacity : option Q;
    watermarkSize : option Z;
    backgroundColor : option string;
    progressive : bool;
    optimizeScans : bool;
    stripMetadata : bool;
    isActive : bool;
    isDefault : bool;
    boxEnabled : bool;
    boxColor : option string;
    boxPadding : option Z;
    boxBorderWidth : option Z;
    boxBorderColor : option string;
    boxBorderRadius : option Z;
    boxShadowEnabled : bool;
    boxShadowBlur : option Z;
    boxShadowOffsetX : option Z;
    boxShadowOffsetY : option Z;
    boxShadowColor : option string
}.

(** [data: { isDefault: false }] *)
Definition clearDefault (x : t) : t :=
    mk (id x) (name x) (width x) (height x) (quality x) (format x) (fit x)
       (cropX x) (cropY x) (cropWidth x) (cropHeight x)
       (brightness x) (contrast x) (saturation x) (hue x) (blur x) (sharpen x)
       (watermarkEnabled x) (watermarkText x) (watermarkPosition x)
       (watermarkOpacity x) (watermarkSize x) (backgroundColor x)
       (progressive x) (optimizeScans x) (stripMetadata x)
       (isActive x) false
       (boxEnabled x) (boxColor x) (boxPadding x) (boxBorderWidth x)
       (boxBorderColor x) (boxBorderRadius x) (boxShadowEnabled x)
       (boxShadowBlur x) (boxShadowOffsetX x) (boxShadowOffsetY x)
       (boxShadowColor x).

(** [data: { isDefault: true, isActive: true }] *)
Definition makeDefault (x : t) : t :=
    mk (id x) (name x) (width x) (height x) (quality x) (format x) (fit x)
       (cropX x) (cropY x) (cropWidth x) (cropHeight x)
       (brightness x) (contrast x) (saturation x) (hue x) (blur x) (sharpen x)
       (watermarkEnabled x) (watermarkText x) (watermarkPosition x)
       (watermarkOpacity x) (watermarkSize x) (backgroundColor x)
       (progressive x) (optimizeScans x) (stripMetadata x)
       true true
       (boxEnabled x) (boxColor x) (boxPadding x) (boxBorderWidth x)
       (boxBorderColor x) (boxBorderRadius x) (boxShadowEnabled x)
       (boxShadowBlur x) (boxShadowOffsetX x) (boxShadowOffsetY x)
       (boxShadowColor x).

(** [data: { isActive }].  Prisma also rewrites [updatedAt] on every update;
    the timestamps are no fields of [t], so nothing proved about a row says
    anything about them. *)
Definition with_isActive (b : bool) (x : t) : t :=
    mk (id x) (name x) (width x) (height x) (quality x) (format x) (fit x)
       (cropX x) (cropY x) (cropWidth x) (cropHeight x)
       (brightness x) (contrast x) (saturation x) (hue x) (blur x) (sharpen x)
       (watermarkEnabled x) (watermarkText x) (watermarkPosition x)
       (watermarkOpacity x) (watermarkSize x) (backgroundColor x)
       (progressive x) (optimizeScans x) (stripMetadata x)
       b (isDefault x)
       (boxEnabled x) (boxColor x) (boxPadding x) (boxBorderWidth x)
       (boxBorderColor x) (boxBorderRadius x) (boxShadowEnabled x)
       (boxShadowBlur x) (boxShadowOffsetX x) (boxShadowOffsetY x)
       (boxShadowColor x).

(** [{ ...templateData, name: newName, isDefault: false, isActive: true }],
    as [duplicateTemplate] builds it from a row stripped of its [id], under
    the id the store gives the copy. *)
Definition duplicate (newId newName : string) (x : t) : t :=
    mk newId newName (width x) (height x) (quality x) (format x) (fit x)
       (cropX x) (cropY x) (cropWidth x) (cropHeight x)
       (brightness x) (contrast x) (saturation x) (hue x) (blur x) (sharpen x)
       (watermarkEnabled x) (watermarkText x) (watermarkPosition x)
       (watermarkOpacity x) (watermarkSize x) (backgroundColor x)
       (progressive x) (optimizeScans x) (stripMetadata x)
       true false
       (boxEnabled x) (boxColor x) (boxPadding x) (boxBorderWidth x)
       (boxBorderColor x) (boxBorderRadius x) (boxShadowEnabled x)
       (boxShadowBlur x) (boxShadowOffsetX x) (boxShadowOffsetY x)
       (boxShadowColor x).
End Template.

(** The four values the code writes into [uploads.status]. *)
Inductive Status := pending | processing | completed | failed.

#[global] Instance Status_eq_dec : EqDecision Status.
Proof. solve_decision. Defined.

(** A row of table [uploads] (without [processedUrl] and the timestamps,
    which [uploadSingle] never writes).  [fileSize] is the number the
    request carries; [Prisma.upload_create] refuses one that does not fit
    the 32-bit INTEGER column. *)
Module Upload.
Record t := mk {
    id : string;
    originalName : string;
    fileName : string;
    filePath : string;
    mimeType : string;
    fileSize : Z;
    processedPath : option string;
    cloudinaryId : option string;
    cloudinaryUrl : option string;
    originalWidth : option Z;
    originalHeight : option Z;
    processedWidth : option Z;
    processedHeight : option Z;
    templateId : option string;
    status : Status;
    errorMessage : option string
}.

(** [data: { status }] *)
Definition with_status (s : Status) (u : t) : t :=
  mk (id u) (originalName u) (fileName u) (filePath u) (mimeType u)
     (fileSize u) (processedPath u) (cloudinaryId u) (cloudinaryUrl u)
     (originalWidth u) (originalHeight u) (processedWidth u)
     (processedHeight u) (templateId u) s (errorMessage u).

(** [data: { processedPath, originalWidth, originalHeight, processedWidth,
    processedHeight }] *)
Definition with_processed (p : string) (ow oh pw ph : Z) (u : t) : t :=
  mk (id u) (originalName u) (fileName u) (filePath u) (mimeType u)
     (fileSize u) (Some p) (cloudinaryId u) (cloudinaryUrl u)
     (Some ow) (Some oh) (Some pw) (Some ph) (templateId u) (status u)
     (errorMessage u).

(** [data: { cloudinaryId, cloudinaryUrl, status: 'completed' }] *)
Definition with_cloudinary (cid curl : string) (u : t) : t :=
  mk (id u) (originalName u) (fileName u) (filePath u) (mimeType u)
     (fileSize u) (processedPath u) (Some cid) (Some curl)
     (originalWidth u) (originalHeight u) (processedWidth u)
     (processedHeight u) (templateId u) completed (errorMessage u).

(** [data: { status: 'failed', errorMessage }] *)
Definition with_failure (msg : string) (u : t) : t :=
  mk (id u) (originalName u) (fileName u) (filePath u) (mimeType u)
     (fileSize u) (processedPath u) (cloudinaryId u) (cloudinaryUrl u)
     (originalWidth u) (originalHeight u) (processedWidth u)
     (processedHeight u) (templateId u) failed (Some msg).
End Upload.

(** ** The sharp library, at its interface *)

(** What [metadata()] reports of an image. *)
Record Metadata := mkMetadata {
  m_width : Z;
  m_height : Z;
  m_format : string
}.

(** The bytes of a file or buffer: its image header, when it decodes as an
    image, and its length. *)
Record Blob := mkBlob {
  blob_meta : option Metadata;
  blob_size : Z
}.

Record Region := mkRegion {
  r_left : Z;
  r_top : Z;
  r_width : Z;
  r_height : Z
}.

Record ResizeOptions := mkResize {
  rs_width : Z;
  rs_height : Z;
  rs_fit : string;
  withoutEnlargement : bool;
  background : option string
}.

(** The [<feDropShadow>] filter of [createBoxSvg]. *)
Record ShadowFilter := mkShadow {
  dx : option Z;
  dy : option Z;
  stdDeviation : Q;
  flood_color : option string;
  flood_opacity : Q
}.

(** The document [createBoxSvg] writes, attribute by attribute (the model
    keeps the attributes instead of the markup text; [None] is a [null]
    interpolated into the markup). *)
Record BoxSvg := mkBoxSvg {
  svg_width : Z;
  svg_height : Z;
  rect_x : Z;
  rect_y : Z;
  rect_width : Z;
  rect_height : Z;
  fill : option string;
  stroke : option string;
  stroke_width : option Z;
  rx : option Z;
  ry : option Z;
  shadowFilter : option ShadowFilter
}.

(** The text overlay [applyWatermark] writes. *)
Record TextSvg := mkTextSvg {
  t_width : Z;
  t_height : Z;
  t_x : Q;
  t_y : Q;
  font_size : Q;
  fill_opacity : Q;
  text_anchor : string;
  dominant_baseline : string;
  t_text : string
}.

(** One entry of [composite([...])]. *)
Inductive Overlay :=
| OverlayImage (input : Blob) (left top : Z)
| OverlayText (input : TextSvg).

(** A chainable call on a sharp instance. *)
Inductive SharpOp :=
| OpExtract (r : Region)
| OpResize (o : ResizeOptions)
| OpModulate (brightness saturation hue : option Q)
| OpLinear (a b : Q)
| OpBlur (sigma : Q)
| OpSharpen (sigma : Q)
| OpComposite (images : list Overlay)
| OpWithMetadata
| OpJpeg (quality : Z) (progressive : bool) (optimizeScans : option bool)
         (mozjpeg : bool)
| OpPng (quality : Z) (progressive : bool) (compressionLevel : Z)
        (palette : bool)
| OpWebp (quality : Z) (effort : Z)
| OpAvif (quality : Z) (effort : Z).

(** What a sharp instance was constructed from. *)
Inductive Input :=
| FromPath (path : string)
| FromSvg (svg : BoxSvg).

(** A sharp instance: its input and the calls chained on it so far, oldest
    first.  Nothing is decoded or computed before [toFile] or [toBuffer]. *)
Record Image := mkImage {
  input : Input;
  ops : list SharpOp
}.

Definition sharp (path : string) : Image := mkImage (FromPath path) [].
Definition sharpSvg (svg : BoxSvg) : Image := mkImage (FromSvg svg) [].

(** The Cloudinary answer [CloudinaryService.uploadImage] passes on. *)
Record CloudData := mkCloudData {
  public_id : string;
  url : string
}.

(** ** The world the request handlers run in *)

(** The state a request runs in: the staging file system and the two
    tables, and, for the calls that leave the process or change a row, a
    log of each kind in the order they happen:
    - [written]: the [toFile] calls, with the instance they render;
    - [upload_log]: the state of an upload row after each create or update;
    - [stored]: the files handed to Cloudinary ([true] for a video). *)
Record World := mkWorld {
  fs : gmap string Blob;
  templates : gmap string Template.t;
  uploads : gmap string Upload.t;
  written : list (Image * string);
  upload_log : list Upload.t;
  stored : list (bool * string)
}.

Definition set_fs (f : gmap string Blob) (w : World) : World :=
  mkWorld f (templates w) (uploads w) (written w) (upload_log w) (stored w).
Definition set_templates (t : gmap string Template.t) (w : World) : World :=
  mkWorld (fs w) t (uploads w) (written w) (upload_log w) (stored w).
Definition set_uploads (u : gmap string Upload.t) (w : World) : World :=
  mkWorld (fs w) (templates w) u (written w) (upload_log w) (stored w).
Definition log_toFile (image : Image) (path : string) (w : World) : World :=
  mkWorld (fs w) (templates w) (uploads w) (written w ++ [(image, path)])
          (upload_log w) (stored w).
Definition log_upload (u : Upload.t) (w : World) : World :=
  mkWorld (fs w) (templates w) (uploads w) (written w)
          (upload_log w ++ [u]) (stored w).
Definition log_store (video : bool) (path : string) (w : World) : World :=
  mkWorld (fs w) (templates w) (uploads w) (written w) (upload_log w)
          (stored w ++ [(video, path)]).

(** What the model cannot compute: the decisions of sharp, of Cloudinary, of
    the id generator and of the operating system when a file is unlinked.
    Every theorem quantifies over them. *)
Record Env := mkEnv {
  (** parameter validation of a chainable call: [Some e] when it throws *)
  sharp_validate : SharpOp -> option Error;
  (** the bytes [toFile]/[toBuffer] produce, or the error they raise *)
  sharp_render : gmap string Blob -> Image -> Res Blob;
(** [cloudinary.uploader.upload], behind the service's own try/catch *)
  cloudinary_upload : bool -> string -> option Blob -> ServiceResult CloudData;
  (** the id Prisma gives a new upload row *)
  new_upload_id : gmap string Upload.t -> string;
(** [path.join(__dirname, '../../processed')] *)
  processedDir : string;
  (** whether [fs.unlink] of an existing file goes through; [false] when it
      throws (a file that is locked or not ours to remove) *)
  unlink_ok : gmap string Blob -> string -> bool
}.

(** ** A state and exception monad for [async] functions *)

Definition M (A : Type) : Type := World -> Res A * World.

Definition ret {A} (a : A) : M A := fun w => (Ok a, w).
Definition throw {A} (e : Error) : M A := fun w => (Throw e, w).

Definition bind {A B} (m : M A) (k : A -> M B) : M B :=
  fun w =>
    match m w with
    | (Ok a, w') => k a w'
    | (Throw e, w') => (Throw e, w')
    end.

(** [try { m } catch (error) { h error }] *)
Definition try_catch {A} (m : M A) (h : Error -> M A) : M A :=
  fun w =>
    match m w with
    | (Ok a, w') => (Ok a, w')
    | (Throw e, w') => h e w'
    end.

(** A synchronous call that may throw. *)
Definition lift {A} (r : Res A) : M A := fun w => (r, w).

Definition modify (f : World -> World) : M unit := fun w => (Ok tt, f w).

Declare Scope js_scope.
Delimit Scope js_scope with js.
Notation "x <- m ;; k" := (bind m (fun x => k))
  (at level 100, m at next level, right associativity) : js_scope.
Notation "m ;;; k" := (bind m (fun _ => k))
  (at level 100, right associativity) : js_scope.
Notation "'try' m 'catch' h" := (try_catch m h)
  (at level 100, m at next level, h at next level) : js_scope.
Local Open Scope js_scope.

(** ** ImageProcessingService (src/services/imageProcessingService.js) *)

(** [String.prototype.toLowerCase] on the ASCII letters. *)
Definition lower_ascii (c : Ascii.ascii) : Ascii.ascii :=
  let n := Ascii.nat_of_ascii c in
  if ((65 <=? n) && (n <=? 90))%nat then Ascii.ascii_of_nat (n + 32) else c.

Fixpoint toLowerCase (s : string) : string :=
  match s with
  | EmptyString => EmptyString
  | String c s' => String (lower_ascii c) (toLowerCase s')
  end.

(** The [data] of a successful [processImage]. *)
Record ProcessingData := mkProcessingData {
  pd_originalWidth : Z;
  pd_originalHeight : Z;
  pd_processedWidth : Z;
  pd_processedHeight : Z;
  pd_format : string;
  pd_size : Z
}.

(** The anchor [getWatermarkPosition] returns. *)
Record Position := mkPosition {
  pos_x : Q;
  pos_y : Q;
  anchor : string;
  baseline : string
}.

(** The options object handed to [createBoxSvg]. *)
Record BoxOptions := mkBoxOptions {
  bo_width : Z;
  bo_height : Z;
  bo_boxWidth : Z;
  bo_boxHeight : Z;
  bo_boxColor : option string;
  bo_boxBorderWidth : option Z;
  bo_boxBorderColor : option string;
  bo_boxBorderRadius : option Z;
  bo_boxShadowEnabled : bool;
  bo_boxShadowBlur : option Z;
  bo_boxShadowOffsetX : option Z;
  bo_boxShadowOffsetY : option Z;
  bo_boxShadowOpacity : Q;
  bo_boxShadowColor : option string;
  bo_shadowOffset : Z
}.

Module ImageProcessingService.
Section WithEnv.
Variable env : Env.

(** *** sharp's methods *)

(** A chainable method: it throws when sharp rejects its parameters and
    otherwise queues the operation on the instance. *)
Definition chain (image : Image) (op : SharpOp) : Res Image :=
  match sharp_validate env op with
  | Some e => Throw e
  | None => Ok (mkImage (input image) (ops image ++ [op]))
  end.

(** [image.metadata()]: read from the header of the input, whatever
    operations are queued. *)
Definition metadata (image : Image) : M Metadata :=
  fun w =>
    match input image with
    | FromPath p =>
        match fs w !! p with
        | Some b =>
            match blob_meta b with
            | Some m => (Ok m, w)
            | None =>
                (Throw (mkError "Input file contains unsupported image format"), w)
            end
        | None => (Throw (mkError "Input file is missing"), w)
        end
    | FromSvg s => (Ok (mkMetadata (svg_width s) (svg_height s) "svg"), w)
    end.

(** [image.toBuffer()] *)
Definition toBuffer (image : Image) : M Blob :=
  fun w => (sharp_render env (fs w) image, w).

(** [image.toFile(path)] *)
Definition toFile (image : Image) (path : string) : M unit :=
  fun w =>
    let w1 := log_toFile image path w in
    match sharp_render env (fs w) image with
    | Ok b => (Ok tt, set_fs (<[path := b]> (fs w1)) w1)
    | Throw e => (Throw e, w1)
    end.

(** [(await fs.stat(path)).size] *)
Definition stat_size (path : string) : M Z :=
  fun w =>
    match fs w !! path with
    | Some b => (Ok (blob_size b), w)
    | None => (Throw (mkError "ENOENT: no such file or directory"), w)
    end.

(** *** The service *)

(** [getSharpFit]: the five fit modes map to themselves, anything else to
    ['cover']. *)
Definition getSharpFit (templateFit : string) : string :=
  if String.eqb templateFit "cover" then "cover"
  else if String.eqb templateFit "contain" then "contain"
  else if String.eqb templateFit "fill" then "fill"
  else if String.eqb templateFit "inside" then "inside"
  else if String.eqb templateFit "outside" then "outside"
  else "cover".

(** [applyDimensions] *)
Definition applyDimensions (image : Image) (template : Template.t)
    (metadata : Metadata) : M Image :=
  image <-
    (match Template.cropX template, Template.cropY template with
     | Some cropX, Some cropY =>
         if truthyZ (Template.cropWidth template)
            && truthyZ (Template.cropHeight template)
         then lift (chain image
                      (OpExtract (mkRegion cropX cropY
                                    (numZ (Template.cropWidth template))
                                    (numZ (Template.cropHeight template)))))
         else ret image
     | _, _ => ret image
     end) ;;
  let resizeOptions :=
    mkResize (Template.width template) (Template.height template)
             (getSharpFit (Template.fit template)) false
             (if truthyS (Template.backgroundColor template)
              then Template.backgroundColor template else None) in
  lift (chain image (OpResize resizeOptions)).

(** [applyFilters] *)
Definition applyFilters (image : Image) (template : Template.t) : M Image :=
  let brightness := Template.brightness template in
  let contrast := Template.contrast template in
  let saturation := Template.saturation template in
  let hue := Template.hue template in
  let blur := Template.blur template in
  let sharpen := Template.sharpen template in
  let mo_brightness := (fun v => 1 + v / 100)%Q <$> brightness in
  let mo_saturation := (fun v => 1 + v / 100)%Q <$> saturation in
  let mo_hue := hue in
  image <-
    (if notNull mo_brightness || notNull mo_saturation || notNull mo_hue
     then lift (chain image (OpModulate mo_brightness mo_saturation mo_hue))
     else ret image) ;;
  image <-
    (match contrast with
     | Some contrast =>
         let a := (1 + contrast / 100)%Q in
         let b := (128 * (1 - a))%Q in
         lift (chain image (OpLinear a b))
     | None => ret image
     end) ;;
  image <-
    (match blur with
     | Some blur =>
         if Qlt_le_dec 0 blur then lift (chain image (OpBlur blur))
         else ret image
     | None => ret image
     end) ;;
  image <-
    (match sharpen with
     | Some sharpen =>
         if Qlt_le_dec 0 sharpen then lift (chain image (OpSharpen sharpen))
         else ret image
     | None => ret image
     end) ;;
  ret image.

(** [createBoxSvg] *)
Definition createBoxSvg (options : BoxOptions) : BoxSvg :=
  let boxX := bo_shadowOffset options in
  let boxY := bo_shadowOffset options in
  let shadow :=
    if bo_boxShadowEnabled options
    then Some (mkShadow (bo_boxShadowOffsetX options)
                        (bo_boxShadowOffsetY options)
                        (inject_Z (numZ (bo_boxShadowBlur options)) / 2)%Q
                        (bo_boxShadowColor options)
                        (bo_boxShadowOpacity options))
    else None in
  mkBoxSvg (bo_width options) (bo_height options) boxX boxY
           (bo_boxWidth options) (bo_boxHeight options)
           (bo_boxColor options) (bo_boxBorderColor options)
           (bo_boxBorderWidth options)
           (bo_boxBorderRadius options) (bo_boxBorderRadius options)
           shadow.

(** The [try] block of [applyBox].  The destructuring defaults of the
    source ([boxPadding = 20] and the like) replace [undefined] only; a
    Prisma row has [null] in an unset column, which the arithmetic below
    reads as [0].  [boxShadowOpacity] is no column of the table, so it
    always takes its default [0.3]. *)
Definition boxBody (image : Image) (template : Template.t) : M Image :=
  md <- metadata image ;;
  let width := m_width md in
  let height := m_height md in
  let boxColor := Template.boxColor template in
  let boxPadding := Template.boxPadding template in
  let boxBorderWidth := Template.boxBorderWidth template in
  let boxBorderColor := Template.boxBorderColor template in
  let boxBorderRadius := Template.boxBorderRadius template in
  let boxShadowEnabled := Template.boxShadowEnabled template in
  let boxShadowBlur := Template.boxShadowBlur template in
  let boxShadowOffsetX := Template.boxShadowOffsetX template in
  let boxShadowOffsetY := Template.boxShadowOffsetY template in
  let boxShadowOpacity := (3 # 10)%Q in
  let boxShadowColor := Template.boxShadowColor template in
  let totalPadding := (numZ boxPadding * 2)%Z in
  let totalBorder := (numZ boxBorderWidth * 2)%Z in
  let shadowOffset :=
    (if boxShadowEnabled
     then Z.max (Z.abs (numZ boxShadowOffsetX))
                (Z.abs (numZ boxShadowOffsetY)) + numZ boxShadowBlur
     else 0)%Z in
  let boxWidth := (width + totalPadding + totalBorder)%Z in
  let boxHeight := (height + totalPadding + totalBorder)%Z in
  let canvasWidth := (boxWidth + shadowOffset * 2)%Z in
  let canvasHeight := (boxHeight + shadowOffset * 2)%Z in
  imageBuffer <- toBuffer image ;;
  let boxSvg :=
    createBoxSvg
      (mkBoxOptions canvasWidth canvasHeight boxWidth boxHeight boxColor
         boxBorderWidth boxBorderColor boxBorderRadius boxShadowEnabled
         boxShadowBlur boxShadowOffsetX boxShadowOffsetY boxShadowOpacity
         boxShadowColor shadowOffset) in
  let imageLeft := (shadowOffset + numZ boxBorderWidth + numZ boxPadding)%Z in
  let imageTop := (shadowOffset + numZ boxBorderWidth + numZ boxPadding)%Z in
  result <- lift (chain (sharpSvg boxSvg)
                    (OpComposite [OverlayImage imageBuffer imageLeft imageTop])) ;;
  ret result.

(** [applyBox] *)
Definition applyBox (image : Image) (template : Template.t) : M Image :=
  if negb (Template.boxEnabled template) then ret image
  else try (boxBody image template) catch (fun error => ret image).

(** [getWatermarkPosition] *)
Definition getWatermarkPosition (position : string) (width height : Z)
    (fontSize : Q) : Position :=
  let margin := (fontSize * (5 # 10))%Q in
  let bottom_right :=
    mkPosition (inject_Z width - margin)%Q (inject_Z height - margin)%Q
               "end" "alphabetic" in
  if String.eqb position "top-left"
  then mkPosition margin (fontSize + margin)%Q "start" "hanging"
  else if String.eqb position "top-right"
  then mkPosition (inject_Z width - margin)%Q (fontSize + margin)%Q
                  "end" "hanging"
  else if String.eqb position "bottom-left"
  then mkPosition margin (inject_Z height - margin)%Q "start" "alphabetic"
  else if String.eqb position "bottom-right" then bottom_right
  else if String.eqb position "center"
  then mkPosition (inject_Z width / 2)%Q (inject_Z height / 2)%Q
                  "middle" "central"
  else bottom_right.

(** The [try] block of [applyWatermark]; its value is the [image] the
    function returns when the block completes. *)
Definition watermarkBody (image : Image) (template : Template.t) : M Image :=
  let watermarkText := default "" (Template.watermarkText template) in
  let watermarkPosition := Template.watermarkPosition template in
  let watermarkOpacity := Template.watermarkOpacity template in
  let watermarkSize := Template.watermarkSize template in
  md <- metadata image ;;
  let width := m_width md in
  let height := m_height md in
  let fontSize :=
    (if truthyZ watermarkSize then inject_Z (numZ watermarkSize)
     else inject_Z (Z.max width height) * (5 # 100))%Q in
  let opacity :=
    (if truthyQ watermarkOpacity then default 0 watermarkOpacity
     else 5 # 10)%Q in
  let position :=
    getWatermarkPosition
      (if truthyS watermarkPosition then default "" watermarkPosition
       else "bottom-right")
      width height fontSize in
  let svgText :=
    mkTextSvg width height (pos_x position) (pos_y position) fontSize
              opacity (anchor position) (baseline position)
              watermarkText in
  lift (chain image (OpComposite [OverlayText svgText])).

(** [applyWatermark] *)
Definition applyWatermark (image : Image) (template : Template.t) : M Image :=
  if negb (Template.watermarkEnabled template)
     || negb (truthyS (Template.watermarkText template))
  then ret image
  else try (watermarkBody image template) catch (fun error => ret image).

(** [applyOutputOptions] *)
Definition applyOutputOptions (image : Image) (template : Template.t)
    : M Image :=
  let format := Template.format template in
  let quality := Template.quality template in
  let progressive := Template.progressive template in
  let optimizeScans := Template.optimizeScans template in
  image <-
    (if Template.stripMetadata template
     then lift (chain image OpWithMetadata) else ret image) ;;
  let f := toLowerCase format in
  if String.eqb f "jpeg" || String.eqb f "jpg"
  then lift (chain image (OpJpeg quality progressive (Some optimizeScans) true))
  else if String.eqb f "png"
  then lift (chain image (OpPng quality progressive 9 true))
  else if String.eqb f "webp"
  then lift (chain image (OpWebp quality 6))
  else if String.eqb f "avif"
  then lift (chain image (OpAvif quality 4))
  else lift (chain image (OpJpeg quality progressive None false)).

(** [processImage].  Of the five stage calls of the source, the last four
    are commented out; the body below is the code that runs. *)
Definition processImage (inputPath : string) (template : Template.t)
    (outputPath : string) : M (ServiceResult ProcessingData) :=
  try (
    let image := sharp inputPath in
    md <- metadata image ;;
    image <- applyDimensions image template md ;;
    toFile image outputPath ;;;
    processedMetadata <- metadata (sharp outputPath) ;;
    size <- stat_size outputPath ;;
    ret (Success
           (mkProcessingData (m_width md) (m_height md)
              (m_width processedMetadata) (m_height processedMetadata)
              (m_format processedMetadata) size))
  ) catch (fun error => ret (Failure (message error))).

(** The orchestration the specification describes, and the one the
    commented-out lines of [processImage] spell: Geometry, Tone, Frame,
    Watermark, Encode.  Kept apart from [processImage] to compare the two. *)
Definition fiveStages (image : Image) (template : Template.t)
    (md : Metadata) : M Image :=
  image <- applyDimensions image template md ;;
  image <- applyFilters image template ;;
  image <- applyBox image template ;;
  image <- applyWatermark image template ;;
  image <- applyOutputOptions image template ;;
  ret image.

(** [getSupportedFormats] *)
Definition getSupportedFormats : list string :=
  ["jpeg"; "jpg"; "png"; "webp"; "avif"; "tiff"; "gif"].


End WithEnv.
End ImageProcessingService.

(** ** The persistent store (Prisma over the tables of prisma/migrations)

    The store is the pair of maps [templates] and [uploads] of the world,
    keyed by primary key.  An operation throws for the reasons the data
    gives (a missing row, a broken constraint); connection failures are
    outside the model. *)
Module Prisma.

(** [prisma.template.findUnique({ where: { id } })] *)
Definition template_findUnique (id : string) : M (option Template.t) :=
  fun w => (Ok (templates w !! id), w).

(** [prisma.template.updateMany({ where: { isDefault: true },
    data: { isDefault: false } })] *)
Definition template_updateMany_clearDefault : M unit :=
  modify (fun w =>
    set_templates
      ((fun x => if Template.isDefault x then Template.clearDefault x else x)
         <$> templates w) w).

(** [prisma.template.update({ where: { id }, data })] *)
Definition template_update (id : string) (data : Template.t -> Template.t)
    : M Template.t :=
  fun w =>
    match templates w !! id with
    | Some x => (Ok (data x), set_templates (<[id := data x]> (templates w)) w)
    | None => (Throw (mkError "Record to update not found."), w)
    end.

(** [prisma.upload.count({ where: { templateId: id } })] *)
Definition upload_count (id : string) : M nat :=
  fun w =>
    (Ok (size (filter (fun ku => Upload.templateId ku.2 = Some id) (uploads w))),
     w).

(** [data: { templateId: null }], the foreign key's ON DELETE SET NULL *)
Definition detach (id : string) (u : Upload.t) : Upload.t :=
  if decide (Upload.templateId u = Some id)
  then Upload.mk (Upload.id u) (Upload.originalName u) (Upload.fileName u)
         (Upload.filePath u) (Upload.mimeType u) (Upload.fileSize u)
         (Upload.processedPath u) (Upload.cloudinaryId u)
         (Upload.cloudinaryUrl u) (Upload.originalWidth u)
         (Upload.originalHeight u) (Upload.processedWidth u)
         (Upload.processedHeight u) None (Upload.status u)
         (Upload.errorMessage u)
  else u.

(** [prisma.template.delete({ where: { id } })] *)
Definition template_delete (id : string) : M unit :=
  fun w =>
    match templates w !! id with
    | Some _ =>
        (Ok tt,
         set_uploads (detach id <$> uploads w)
           (set_templates (delete id (templates w)) w))
    | None => (Throw (mkError "Record to delete does not exist."), w)
    end.

(** The values an INTEGER column (Prisma's [Int]) holds: 32 bits, signed. *)
Definition fitsInt (z : Z) : bool :=
  (-2147483648 <=? z)%Z && (z <=? 2147483647)%Z.

(** [prisma.upload.create({ data })]: [fileSize] must fit its INTEGER
    column, and the row gets a new id and must keep the primary key unique
    and the foreign key [uploads_templateId_fkey].  (The other INTEGER
    columns are written by [upload_update] from the dimensions libvips
    reports, which are 32-bit integers themselves.) *)
Definition upload_create (env : Env) (data : string -> Upload.t)
    : M Upload.t :=
  fun w =>
    let id := new_upload_id env (uploads w) in
    let u := data id in
    if negb (fitsInt (Upload.fileSize u))
    then (Throw (mkError "Unable to fit integer value into an INT4 (32-bit signed integer)."), w)
    else
    match uploads w !! id with
    | Some _ => (Throw (mkError "Unique constraint failed on the fields: (`id`)"), w)
    | None =>
        match Upload.templateId u with
        | Some tid =>
            match templates w !! tid with
            | Some _ => (Ok u, log_upload u (set_uploads (<[id := u]> (uploads w)) w))
            | None =>
                (Throw (mkError "Foreign key constraint failed on the field: `uploads_templateId_fkey`"), w)
            end
        | None => (Ok u, log_upload u (set_uploads (<[id := u]> (uploads w)) w))
        end
    end.

(** [prisma.upload.update({ where: { id }, data })] *)
Definition upload_update (id : string) (data : Upload.t -> Upload.t)
    : M Upload.t :=
  fun w =>
    match uploads w !! id with
    | Some u =>
        (Ok (data u),
         log_upload (data u) (set_uploads (<[id := data u]> (uploads w)) w))
    | None => (Throw (mkError "Record to update not found."), w)
    end.

(** The row a query without ordering returns among those that satisfy [P]:
    the first one the table yields, if any. *)
Definition find_row {A} (P : A -> Prop) `{!forall x, Decision (P x)}
    (m : gmap string A) : option A :=
  snd <$> head (map_to_list (filter (fun kx => P kx.2) m)).

(** [prisma.template.findUnique({ where: { name } })] *)
Definition template_findUnique_name (name : string) : M (option Template.t) :=
  fun w => (Ok (find_row (fun x => Template.name x = name) (templates w)), w).

(** [prisma.template.findFirst({ where: { isDefault: true, isActive: true } })] *)
Definition template_findFirst_default : M (option Template.t) :=
  fun w =>
    (Ok (find_row (fun x => Template.isDefault x = true
                            /\ Template.isActive x = true) (templates w)), w).

(** Whether a row of the table has the name [name]. *)
Definition name_taken (name : string) (m : gmap string Template.t) : bool :=
  bool_decide (map_Exists (fun _ x => Template.name x = name) m).

(** [prisma.template.create({ data })]: the row gets the id [newId] picks and
    must keep the primary key and the index [templates_name_key] unique. *)
Definition template_create (newId : gmap string Template.t -> string)
    (data : string -> Template.t) : M Template.t :=
  fun w =>
    let id := newId (templates w) in
    let x := data id in
    match templates w !! id with
    | Some _ =>
        (Throw (mkError "Unique constraint failed on the fields: (`id`)"), w)
    | None =>
        if name_taken (Template.name x) (templates w)
        then (Throw (mkError "Unique constraint failed on the fields: (`name`)"), w)
        else (Ok x, set_templates (<[id := x]> (templates w)) w)
    end.

End Prisma.

(** ** TemplateService (src/services/templateService.js) *)
Module TemplateService.

(** [getTemplateById] *)
Definition getTemplateById (id : string) : M (ServiceResult Template.t) :=
  try (
    template <- Prisma.template_findUnique id ;;
    match template with
    | None => ret (Failure "Template not found")
    | Some template => ret (Success template)
    end
  ) catch (fun error => ret (Failure (message error))).

(** [deleteTemplate] *)
Definition deleteTemplate (id : string) : M (ServiceResult string) :=
  try (
    uploadsCount <- Prisma.upload_count id ;;
    if (0 <? uploadsCount)%nat
    then ret (Failure ("Cannot delete template. It has "
                       +:+ pretty uploadsCount +:+ " associated uploads."))
    else (Prisma.template_delete id ;;;
          ret (Success "Template deleted successfully"))
  ) catch (fun error => ret (Failure (message error))).

(** [setDefaultTemplate] *)
Definition setDefaultTemplate (id : string) : M (ServiceResult Template.t) :=
  try (
    Prisma.template_updateMany_clearDefault ;;;
    template <- Prisma.template_update id Template.makeDefault ;;
    ret (Success template)
  ) catch (fun error => ret (Failure (message error))).

(** [getTemplateByName] *)
Definition getTemplateByName (name : string) : M (ServiceResult Template.t) :=
  try (
    template <- Prisma.template_findUnique_name name ;;
    match template with
    | None => ret (Failure "Template not found")
    | Some template => ret (Success template)
    end
  ) catch (fun error => ret (Failure (message error))).

(** [getDefaultTemplate] *)
Definition getDefaultTemplate : M (ServiceResult Template.t) :=
  try (
    template <- Prisma.template_findFirst_default ;;
    match template with
    | None => ret (Failure "No default template found")
    | Some template => ret (Success template)
    end
  ) catch (fun error => ret (Failure (message error))).

(** [toggleTemplateStatus] *)
Definition toggleTemplateStatus (id : string)
    : M (ServiceResult Template.t) :=
  try (
    currentTemplate <- Prisma.template_findUnique id ;;
    match currentTemplate with
    | None => ret (Failure "Template not found")
    | Some currentTemplate =>
        template <-
          Prisma.template_update id
            (Template.with_isActive (negb (Template.isActive currentTemplate))) ;;
        ret (Success template)
    end
  ) catch (fun error => ret (Failure (message error))).

Section WithIds.
(** The id Prisma gives a new template row. *)
Variable new_template_id : gmap string Template.t -> string.

(** [createTemplate]; [templateData] is the validated body, a row but for
    its id. *)
Definition createTemplate (templateData : string -> Template.t)
    : M (ServiceResult Template.t) :=
  try (
    template <- Prisma.template_create new_template_id templateData ;;
    ret (Success template)
  ) catch (fun error => ret (Failure (message error))).

(** [duplicateTemplate] *)
Definition duplicateTemplate (id newName : string)
    : M (ServiceResult Template.t) :=
  try (
    originalTemplate <- Prisma.template_findUnique id ;;
    match originalTemplate with
    | None => ret (Failure "Original template not found")
    | Some originalTemplate =>
        duplicatedTemplate <-
          Prisma.template_create new_template_id
            (fun newId => Template.duplicate newId newName originalTemplate) ;;
        ret (Success duplicatedTemplate)
    end
  ) catch (fun error => ret (Failure (message error))).

End WithIds.

End TemplateService.

(** ** FileUtils (src/utils/helpers.js) *)
Module FileUtils.

(** [deleteFile]: unlink the file when it exists.  It never throws: when
    [fsUnlink] does, the [catch] block answers [false] and the file is
    still there. *)
Definition deleteFile (env : Env) (filePath : string) : M bool :=
  fun w =>
    match fs w !! filePath with
    | Some _ =>
        if unlink_ok env (fs w) filePath
        then (Ok true, set_fs (delete filePath (fs w)) w)
        else (Ok false, w)
    | None => (Ok false, w)
    end.

(** [ensureDirectoryExists]: never throws (directories are not part of the
    modelled file system). *)
Definition ensureDirectoryExists (dirPath : string) : M bool := ret true.

End FileUtils.

(** [req.file], as multer leaves it. *)
Module MulterFile.
Record t := mk {
  originalname : string;
  filename : string;
  path : string;
  mimetype : string;
  size : Z
}.
End MulterFile.

(** ** CloudinaryService (src/services/cloudinaryService.js) *)
Module CloudinaryService.

(** [uploadImage]: the call is wrapped in the service's own try/catch, so
    the caller gets a result object either way. *)
Definition uploadImage (env : Env) (filePath : string)
    : M (ServiceResult CloudData) :=
  fun w =>
    (Ok (cloudinary_upload env false filePath (fs w !! filePath)),
     log_store false filePath w).

(** [uploadVideo] *)
Definition uploadVideo (env : Env) (filePath : string)
    : M (ServiceResult CloudData) :=
  fun w =>
    (Ok (cloudinary_upload env true filePath (fs w !! filePath)),
     log_store true filePath w).

(** What [uploadMultiple] of the service returns: the array of results,
    or the failure object of its [catch] block. *)
Inductive MultiResult :=
| ResultArray (results : list (ServiceResult CloudData))
| ResultFailure (error : string).

(** The [files.map(...)] of [uploadMultiple]: one upload per file, started
    in the order of the array, a video through [uploadVideo]. *)
Fixpoint uploadEach (env : Env) (files : list MulterFile.t)
    : M (list (ServiceResult CloudData)) :=
  match files with
  | [] => ret []
  | file :: rest =>
      result <-
        (if String.prefix "video/" (MulterFile.mimetype file)
         then uploadVideo env (MulterFile.path file)
         else uploadImage env (MulterFile.path file)) ;;
      results <- uploadEach env rest ;;
      ret (result :: results)
  end.

(** [uploadMultiple] *)
Definition uploadMultiple (env : Env) (files : list MulterFile.t)
    : M MultiResult :=
  try (
    results <- uploadEach env files ;;
    ret (ResultArray results)
  ) catch (fun error => ret (ResultFailure (message error))).

End CloudinaryService.

(** ** UploadController.uploadSingle (src/controllers/uploadController.js) *)

(** The request: the staged file and [req.body.templateId].  The other body
    fields ([folder], [quality], [width], [height], [crop]) only travel to
    Cloudinary as upload options. *)
Record Request := mkRequest {
  file : option MulterFile.t;
  body_templateId : option string
}.

(** The response sent through [ResponseUtils]. *)
Inductive Response :=
| RespSuccess (statusCode : Z) (upload : Upload.t)
              (processing : option ProcessingData) (message : string)
| RespError (statusCode : Z) (error : string) (details : option string).

(** The request of [uploadMultiple]: [req.files], [None] when multer set
    none. *)
Record MultiRequest := mkMultiRequest {
  files : option (list MulterFile.t)
}.

(** The response of [uploadMultiple]: the successful uploads, each with the
    file its [originalFile] entry is built from, the failed ones with their
    error and original name, and the summary. *)
Inductive MultiResponse :=
| MultiSuccess (statusCode : Z)
               (successful : list (CloudData * MulterFile.t))
               (failed : list (string * string))
               (total nSuccessful nFailed : nat) (message : string)
| MultiError (statusCode : Z) (error : string) (details : option string).

Module UploadController.
Section WithEnv.
Variable env : Env.

(** [m] run to its outcome, a throw included, for the caller to inspect. *)
Definition attempt {A} (m : M A) : M (Res A) :=
  fun w => let '(r, w') := m w in (Ok r, w').

(** The [catch] block of [uploadSingle]; [uploadRecord] is the local
    variable of that name, [None] while it is still [null]. *)
Definition onError (file : MulterFile.t) (uploadRecord : option Upload.t)
    (error : Error) : M Response :=
  (match uploadRecord with
   | Some uploadRecord =>
       try (Prisma.upload_update (Upload.id uploadRecord)
              (Upload.with_failure (message error)) ;;; ret tt)
       catch (fun _ => ret tt)
   | None => ret tt
   end) ;;;
  (if negb (String.eqb (MulterFile.path file) "")
   then FileUtils.deleteFile env (MulterFile.path file) ;;; ret tt
   else ret tt) ;;;
  ret (RespError 500 "Upload failed" (Some (message error))).

(** [uploadSingle], "Get template if provided": the [template] local. *)
Definition lookupTemplate (templateId : option string)
    : M (option Template.t) :=
  if truthyS templateId
  then
    templateResult <- TemplateService.getTemplateById (default "" templateId) ;;
    match templateResult with
    | Failure error => throw (mkError ("Template not found: " +:+ error))
    | Success data => ret (Some data)
    end
  else ret None.

(** [uploadSingle], "Process image with Sharp if template is provided": the
    locals [processedImagePath] and [imageMetadata], [null] when the block
    is skipped. *)
Definition processWithTemplate (file : MulterFile.t) (uploadRecord : Upload.t)
    (template : option Template.t)
    : M (option string * option ProcessingData) :=
  match template with
  | Some template =>
      if String.prefix "image/" (MulterFile.mimetype file)
      then
        let processedDir := processedDir env in
        FileUtils.ensureDirectoryExists processedDir ;;;
        let ext :=
          if String.eqb (Template.format template) "jpeg" then "jpg"
          else Template.format template in
        let processedImagePath :=
          processedDir +:+ "/processed-" +:+ Upload.id uploadRecord
                       +:+ "." +:+ ext in
        Prisma.upload_update (Upload.id uploadRecord)
          (Upload.with_status processing) ;;;
        processingResult <-
          ImageProcessingService.processImage env (MulterFile.path file)
            template processedImagePath ;;
        match processingResult with
        | Failure error =>
            throw (mkError ("Image processing failed: " +:+ error))
        | Success imageMetadata =>
            Prisma.upload_update (Upload.id uploadRecord)
              (Upload.with_processed processedImagePath
                 (pd_originalWidth imageMetadata)
                 (pd_originalHeight imageMetadata)
                 (pd_processedWidth imageMetadata)
                 (pd_processedHeight imageMetadata)) ;;;
            ret (Some processedImagePath, Some imageMetadata)
        end
      else ret (None, None)
  | None => ret (None, None)
  end.

(** [uploadSingle], from "Upload to Cloudinary" to the success response.
    The response data put together after the last update (the variant URLs,
    [templateUsed], the formatted file size) is computed without a call that
    can fail and is not part of [Response]. *)
Definition storeAndComplete (file : MulterFile.t) (uploadRecord : Upload.t)
    (processedImagePath : option string)
    (imageMetadata : option ProcessingData) : M Response :=
  let uploadPath := default (MulterFile.path file) processedImagePath in
  let isVideo := String.prefix "video/" (MulterFile.mimetype file) in
  cloudinaryResult <-
    (if isVideo then CloudinaryService.uploadVideo env uploadPath
     else CloudinaryService.uploadImage env uploadPath) ;;
  FileUtils.deleteFile env (MulterFile.path file) ;;;
  (match processedImagePath with
   | Some p => FileUtils.deleteFile env p ;;; ret tt
   | None => ret tt
   end) ;;;
  match cloudinaryResult with
  | Failure error => throw (mkError ("Cloudinary upload failed: " +:+ error))
  | Success data =>
      finalUpload <-
        Prisma.upload_update (Upload.id uploadRecord)
          (Upload.with_cloudinary (public_id data) (url data)) ;;
      ret (RespSuccess 201 finalUpload imageMetadata
             "File uploaded and processed successfully")
  end.

(** The [try] block of [uploadSingle] from the point where [uploadRecord]
    is assigned: the three parts above, in the order of the source. *)
Definition afterCreate (file : MulterFile.t) (templateId : option string)
    (uploadRecord : Upload.t) : M Response :=
  template <- lookupTemplate templateId ;;
  processed <- processWithTemplate file uploadRecord template ;;
  storeAndComplete file uploadRecord (fst processed) (snd processed).

(** [uploadSingle].  The source has one [try] around the whole body and a
    [catch] that reads the local [uploadRecord]; that variable is [null]
    when the throw comes from [prisma.upload.create] and the created row
    afterwards, which is the case split below.  A throw inside the [catch]
    block leaves the function. *)
Definition uploadSingle (req : Request) : M Response :=
  match file req with
  | None => ret (RespError 400 "No file uploaded" None)
  | Some file =>
      let templateId := body_templateId req in
      created <-
        attempt
          (Prisma.upload_create env
             (fun id =>
                Upload.mk id (MulterFile.originalname file) (MulterFile.filename file) (MulterFile.path file)
                  (MulterFile.mimetype file) (MulterFile.size file) None None None None None None
                  None (if truthyS templateId then templateId else None)
                  pending None)) ;;
      match created with
      | Throw error => onError file None error
      | Ok uploadRecord =>
          try (afterCreate file templateId uploadRecord)
          catch (onError file (Some uploadRecord))
      end
  end.

(** [for (const file of req.files) await FileUtils.deleteFile(file.path)] *)
Fixpoint deleteEach (files : list MulterFile.t) : M unit :=
  match files with
  | [] => ret tt
  | file :: rest =>
      FileUtils.deleteFile env (MulterFile.path file) ;;; deleteEach rest
  end.

(** [uploadMultiple].  A result is matched with [req.files] at its own index
    ([uploadResults.indexOf(result)]). *)
Definition uploadMultiple (req : MultiRequest) : M MultiResponse :=
  try (
    match files req with
    | None | Some [] => ret (MultiError 400 "No files uploaded" None)
    | Some reqFiles =>
        uploadResults <- CloudinaryService.uploadMultiple env reqFiles ;;
        deleteEach reqFiles ;;;
        match uploadResults with
        | CloudinaryService.ResultFailure _ =>
            throw (mkError "uploadResults.filter is not a function")
        | CloudinaryService.ResultArray uploadResults =>
            let indexed := zip uploadResults reqFiles in
            let successful :=
              omap (fun rf => match fst rf with
                              | Success data => Some (data, snd rf)
                              | Failure _ => None
                              end) indexed in
            let failed :=
              omap (fun rf => match fst rf with
                              | Success _ => None
                              | Failure error =>
                                  Some (error, MulterFile.originalname (snd rf))
                              end) indexed in
            let message :=
              if (length failed =? 0)%nat
              then "All files uploaded successfully"
              else pretty (length successful)
                   +:+ " files uploaded successfully, "
                   +:+ pretty (length failed) +:+ " failed" in
            ret (MultiSuccess 201 successful failed (length reqFiles)
                   (length successful) (length failed) message)
        end
    end
  ) catch (fun error =>
    (match files req with
     | Some reqFiles => deleteEach reqFiles
     | None => ret tt
     end) ;;;
    ret (MultiError 500 "Upload failed" (Some (message error)))).

End WithEnv.
End UploadController.

(** ** The file checks of the routes (src/middlewares/validation.js) *)
Module Validation.

(** What a middleware does with the request: pass it on, or answer. *)
Inductive Verdict :=
| Next
| Reject (statusCode : Z) (error : string).

Definition allowedTypes : list string :=
  ["image/jpeg"; "image/jpg"; "image/png"; "image/gif"; "image/webp";
   "video/mp4"; "video/avi"; "video/mov"].

(** [allowedTypes.includes(mimetype)] *)
Definition includes (l : list string) (x : string) : bool :=
  existsb (String.eqb x) l.

Section WithLimit.
(** The number [process.env.MAX_FILE_SIZE || 5242880] stands for, and that
    number divided by 1024 twice as the messages print it. *)
Variable maxSize : Z.
Variable maxSizeMB : string.

(** [req.file || (req.files && req.files[0])]; [None] is [undefined]. *)
Definition firstFile (file : option MulterFile.t)
    (files : option (list MulterFile.t)) : option MulterFile.t :=
  match file with
  | Some file => Some file
  | None =>
      match files with
      | Some (first :: _) => Some first
      | Some [] | None => None
      end
  end.

(** [validateFileUpload], given [req.file] and [req.files].  The middleware
    has no try/catch: reading [file.size] of [undefined] throws. *)
Definition validateFileUpload (file : option MulterFile.t)
    (files : option (list MulterFile.t)) : Res Verdict :=
  match file, files with
  | None, None => Ok (Reject 400 "No file uploaded")
  | _, _ =>
      match firstFile file files with
      | None =>
          Throw (mkError
                   "Cannot read properties of undefined (reading 'size')")
      | Some file =>
          if (maxSize <? MulterFile.size file)%Z
          then Ok (Reject 400 ("File size too large. Maximum size is "
                               +:+ maxSizeMB +:+ "MB"))
          else if negb (includes allowedTypes (MulterFile.mimetype file))
          then Ok (Reject 400 "Invalid file type. Only images (JPEG, PNG, GIF, WebP) and videos (MP4, AVI, MOV) are allowed")
          else Ok Next
      end
  end.

(** The [for] loop of [validateMultipleFiles]. *)
Fixpoint validateEach (files : list MulterFile.t) : Verdict :=
  match files with
  | [] => Next
  | file :: rest =>
      if (maxSize <? MulterFile.size file)%Z
      then Reject 400 ("File " +:+ MulterFile.originalname file
                       +:+ " is too large. Maximum size is "
                       +:+ maxSizeMB +:+ "MB")
      else if negb (includes allowedTypes (MulterFile.mimetype file))
      then Reject 400 ("File " +:+ MulterFile.originalname file
                       +:+ " has invalid type. Only images and videos are allowed")
      else validateEach rest
  end.

(** [validateMultipleFiles] *)
Definition validateMultipleFiles (files : option (list MulterFile.t))
    : Verdict :=
  match files with
  | None | Some [] => Reject 400 "No files uploaded"
  | Some files =>
      let maxFiles := 10%nat in
      if (maxFiles <? length files)%nat
      then Reject 400 ("Too many files. Maximum " +:+ pretty maxFiles
                       +:+ " files allowed")
      else validateEach files
  end.

End WithLimit.
End Validation.

(** ** ResponseUtils.paginated and ValidationUtils.sanitizeHtml
    (src/utils/helpers.js) *)

(** [Math.ceil(a / b)] on integers, for a divisor that is not 0. *)
Definition ceilDiv (a b : Z) : Z := (- ((- a) / b))%Z.

(** The [pagination] argument of [paginated]. *)
Record Pagination := mkPagination {
  page : Z;
  limit : Z;
  total : Z
}.

(** The [pagination] object of the body [paginated] sends. *)
Record PageInfo := mkPageInfo {
  currentPage : Z;
  totalPages : Z;
  totalItems : Z;
  itemsPerPage : Z;
  hasNextPage : bool;
  hasPrevPage : bool
}.

(** [ResponseUtils.paginated], the pagination part of the body. *)
Definition paginated (pagination : Pagination) : PageInfo :=
  mkPageInfo (page pagination)
    (ceilDiv (total pagination) (limit pagination))
    (total pagination) (limit pagination)
    (page pagination <? ceilDiv (total pagination) (limit pagination))%Z
    (1 <? page pagination)%Z.

(** [str.replace(/c/g, r)] for a single ASCII character [c]; the string is
    read as its UTF-8 bytes, none of which beyond ASCII equals [c]. *)
Fixpoint replaceAll (c : Ascii.ascii) (r : string) (str : string) : string :=
  match str with
  | EmptyString => EmptyString
  | String a rest =>
      if Ascii.eqb a c then r +:+ replaceAll c r rest
      else String a (replaceAll c r rest)
  end.

(** [ValidationUtils.sanitizeHtml]: five replacements, in this order. *)
Definition sanitizeHtml (str : string) : string :=
  replaceAll "/"%char "&#x2F;"
    (replaceAll "'"%char "&#x27;"
       (replaceAll (Ascii.ascii_of_nat 34) "&quot;"
          (replaceAll ">"%char "&gt;" (replaceAll "<"%char "&lt;" str)))).

(** Whether character [c] occurs in [str]. *)
Fixpoint occurs (c : Ascii.ascii) (str : string) : bool :=
  match str with
  | EmptyString => false
  | String a rest => Ascii.eqb a c || occurs c rest
  end.

(** ** Sample data *)

(** The seed template 'Social Media Square' (prisma/seed.js), under a given
    primary key and default flag. *)
Definition socialSquare (id : string) (isDefault : bool) : Template.t :=
  Template.mk id "Social Media Square" 1080 1080 85 "jpeg" "cover"
    None None None None None None None None None None
    false None None None None None true true true true isDefault
    false None None None None None false None None None None.

Definition emptyWorld : World := mkWorld ∅ ∅ ∅ [] [] [].

(** Two templates, the first of them the default. *)
Definition twoTemplates : World :=
  set_templates
    (<["t1" := socialSquare "t1" true]> (<["t2" := socialSquare "t2" false]> ∅))
    emptyWorld.

(** An upload row that used template [tid]. *)
Definition uploadOf (id tid : string) : Upload.t :=
  Upload.mk id "cat.jpg" "cat-1.jpg" "uploads/cat-1.jpg" "image/jpeg" 2048
    None None None None None None None (Some tid) completed None.

(** [twoTemplates] with two uploads made through template ["t2"]. *)
Definition usedTemplate : World :=
  set_uploads
    (<["u1" := uploadOf "u1" "t2"]> (<["u2" := uploadOf "u2" "t2"]> ∅))
    twoTemplates.

(** *** A sample environment *)

(** Whether region [r] leaves an image of the size [md] reports. *)
Definition exceedsBounds (md : Metadata) (r : Region) : bool :=
  (m_width md <? r_left r + r_width r)%Z
  || (m_height md <? r_top r + r_height r)%Z.

(** Size of the picture a chain of operations yields in [sampleEnv]. *)
Definition sampleOutput (md : Metadata) (l : list SharpOp) : Metadata :=
  fold_left
    (fun m op =>
       match op with
       | OpExtract r => mkMetadata (r_width r) (r_height r) (m_format m)
       | OpResize o => mkMetadata (rs_width o) (rs_height o) (m_format m)
       | _ => m
       end) l md.

Definition sampleRender (files : gmap string Blob) (image : Image) : Res Blob :=
  match input image with
  | FromSvg svg =>
      Ok (mkBlob (Some (mkMetadata (svg_width svg) (svg_height svg) "png")) 4096)
  | FromPath p =>
      match files !! p with
      | None => Throw (mkError "Input file is missing")
      | Some b =>
          match blob_meta b with
          | None => Throw (mkError "Input file contains unsupported image format")
          | Some md =>
              match ops image with
              | OpExtract r :: _ =>
                  if exceedsBounds md r
                  then Throw (mkError "extract_area: bad extract area")
                  else Ok (mkBlob (Some (sampleOutput md (ops image))) 4096)
              | _ => Ok (mkBlob (Some (sampleOutput md (ops image))) 4096)
              end
          end
      end
  end.

(** An environment in which sharp accepts every parameter and renders to the
    requested size, Cloudinary answers [cloud], the next upload id is
    ["up1"], and every unlink goes through. *)
Definition sampleEnv (cloud : ServiceResult CloudData) : Env :=
  mkEnv (fun _ => None) sampleRender (fun _ _ _ => cloud) (fun _ => "up1")
        "processed" (fun _ _ => true).

Definition cloudOk : ServiceResult CloudData :=
  Success (mkCloudData "uploads/cat" "https://res.cloudinary.com/demo/uploads/cat.jpg").

(** An environment whose sharp cannot render anything. *)
Definition brokenSharp : Env :=
  mkEnv (fun _ => None) (fun _ _ => Throw (mkError "VipsJpeg: premature end"))
        (fun _ _ _ => cloudOk) (fun _ => "up1") "processed" (fun _ _ => true).

(** *** Sample templates and requests *)

(** A template with a manual crop of 5000x5000 at (100, 100). *)
Definition cropTemplate : Template.t :=
  Template.mk "t3" "Crop" 400 400 85 "jpeg" "cover"
    (Some 100%Z) (Some 100%Z) (Some 5000%Z) (Some 5000%Z)
    None None None None None None
    false None None None None None true true true true false
    false None None None None None false None None None None.

(** A template that asks something of every stage: contrast, a frame with
    shadow, a watermark and PNG output. *)
Definition fullTemplate : Template.t :=
  Template.mk "t4" "Full" 500 500 90 "png" "cover"
    None None None None
    None (Some (20 # 1)%Q) None None None None
    true (Some "digitalSign") (Some "center") None None None true true true
    true false
    true (Some "#ffffff") (Some 20%Z) (Some 0%Z) (Some "#000000") (Some 0%Z)
    true (Some 10%Z) (Some 5%Z) (Some 5%Z) (Some "#000000").


(** A template whose watermark asks for opacity 0 and leaves the size out. *)
Definition ghostTemplate : Template.t :=
  Template.mk "t6" "Ghost" 400 400 85 "jpeg" "cover"
    None None None None None None None None None None
    true (Some "digitalSign") (Some "top-left") (Some 0%Q) None
    None true true true true false
    false None None None None None false None None None None.

(** A staged 800x600 JPEG and the templates above. *)
Definition stagedWorld : World :=
  mkWorld
    (<["uploads/cat-1.jpg" := mkBlob (Some (mkMetadata 800 600 "jpeg")) 2048]> ∅)
    (<["t2" := socialSquare "t2" false]>
       (<["t3" := cropTemplate]> (<["t4" := fullTemplate]> ∅)))
    ∅ [] [] [].

(** A 500x500 picture on disk, as the Frame stage may receive it. *)
Definition squareWorld : World :=
  set_fs (<["processed/p.png" := mkBlob (Some (mkMetadata 500 500 "png")) 4096]> ∅)
         emptyWorld.

Definition catFile : MulterFile.t :=
  MulterFile.mk "cat.jpg" "cat-1.jpg" "uploads/cat-1.jpg" "image/jpeg" 2048.

(** [squareWorld]'s picture framed by [fullTemplate]: padding 20, no border,
    shadow blur 10 at offset (5, 5). *)
Definition framedSquare : Image :=
  mkImage
    (FromSvg
       (mkBoxSvg 570 570 15 15 540 540 (Some "#ffffff") (Some "#000000")
          (Some 0%Z) (Some 0%Z) (Some 0%Z)
          (Some (mkShadow (Some 5%Z) (Some 5%Z) (10 # 2)%Q (Some "#000000")
                   (3 # 10)%Q))))
    [OpComposite
       [OverlayImage (mkBlob (Some (mkMetadata 500 500 "png")) 4096) 35 35]].

(** What [processImage] hands to [toFile] for [fullTemplate]. *)
Definition resizedOnly : Image :=
  mkImage (FromPath "uploads/cat-1.jpg")
          [OpResize (mkResize 500 500 "cover" false None)].

(** The row of an upload through template ["t2"] in [stagedWorld], once its
    processed dimensions are written. *)
Definition processedRow : Upload.t :=
  Upload.mk "up1" "cat.jpg" "cat-1.jpg" "uploads/cat-1.jpg" "image/jpeg" 2048
    (Some "processed/processed-up1.jpg") None None
    (Some 800%Z) (Some 600%Z) (Some 1080%Z) (Some 1080%Z) (Some "t2")
    processing None.

(** An upload of [catFile] without a template, and with template [tid]. *)
Definition plainRequest : Request := mkRequest (Some catFile) None.
Definition templateRequest (tid : string) : Request :=
  mkRequest (Some catFile) (Some tid).

(** ** The properties, in the specification's words *)







(** Frame stage: [shadowMargin = max(|offsetX|, |offsetY|) + shadowBlur] with
    a shadow, [0] without. *)
Definition shadowMargin (t : Template.t) : Z :=
  if Template.boxShadowEnabled t
  then (Z.max (Z.abs (numZ (Template.boxShadowOffsetX t)))
              (Z.abs (numZ (Template.boxShadowOffsetY t)))
        + numZ (Template.boxShadowBlur t))%Z
  else 0%Z.

(** Frame stage: a side [s] of the image grows to
    [s + 2*padding + 2*borderWidth + 2*shadowMargin]. *)
Definition canvasSide (s : Z) (t : Template.t) : Z :=
  (s + 2 * numZ (Template.boxPadding t) + 2 * numZ (Template.boxBorderWidth t)
   + 2 * shadowMargin t)%Z.

(** The row states one run of [uploadSingle] writes, oldest first. *)
Definition run_log (env : Env) (req : Request) (w : World) : list Upload.t :=
  drop (length (upload_log w))
       (upload_log (snd (UploadController.uploadSingle env req w))).

Definition status_trace (env : Env) (req : Request) (w : World)
    : list Status :=
  map Upload.status (run_log env req w).

(** The transitions the specification's state machine lists. *)
Definition claimed_step (a b : Status) : bool :=
  match a, b with
  | pending, processing | pending, failed
  | processing, completed | processing, failed => true
  | _, _ => false
  end.

(** The transitions of the code: those, and [pending] to [completed] for an
    upload that is not processed. *)
Definition designed_step (a b : Status) : bool :=
  match a, b with
  | pending, completed => true
  | _, _ => claimed_step a b
  end.

(** Every change of status along [l] is a [step]. *)
Fixpoint follows (step : Status -> Status -> bool) (l : list Status) : bool :=
  match l with
  | a :: (b :: _) as tl => (bool_decide (a = b) || step a b) && follows step tl
  | _ => true
  end.

Definition starts_pending (l : list Status) : bool :=
  match l with
  | [] => true
  | a :: _ => bool_decide (a = pending)
  end.

(** Storage identifier, storage URL and processed dimensions are all there
    or all missing. *)
Definition storedTogether (u : Upload.t) : bool :=
  bool_decide (is_Some (Upload.cloudinaryId u) <-> is_Some (Upload.cloudinaryUrl u))
  && bool_decide (is_Some (Upload.cloudinaryId u) <-> is_Some (Upload.processedWidth u))
  && bool_decide (is_Some (Upload.cloudinaryId u) <-> is_Some (Upload.processedHeight u)).


(** ** Reading the queued operations *)

(** The quality an encoder operation carries. *)
Definition encoder_quality (op : SharpOp) : option Z :=
  match op with
  | OpJpeg q _ _ _ | OpPng q _ _ _ | OpWebp q _ | OpAvif q _ => Some q
  | _ => None
  end.

Definition is_jpeg (op : SharpOp) : bool :=
  match op with OpJpeg _ _ _ _ => true | _ => false end.

(** The five anchors a template may name ([watermarkPosition] of the
    validation schema). *)
Definition watermarkPositions : list string :=
  ["top-left"; "top-right"; "bottom-left"; "bottom-right"; "center"].

(** ** Invariants of the store *)

(** "At most one template is the default": two default rows have the same
    key. *)
Definition at_most_one_default (m : gmap string Template.t) : Prop :=
  forall (k1 k2 : string) (x1 x2 : Template.t),
    m !! k1 = Some x1 -> m !! k2 = Some x2 ->
    Template.isDefault x1 = true -> Template.isDefault x2 = true -> k1 = k2.

(** The number of uploads that reference template [id], as
    [prisma.upload.count] computes it. *)
Definition uploads_of (id : string) (w : World) : nat :=
  size (filter (fun ku => Upload.templateId ku.2 = Some id) (uploads w)).

(** An id generator for templates that always answers [id]. *)
Definition nextId (id : string) : gmap string Template.t -> string :=
  fun _ => id.

(** ** What a step leaves alone *)

(** The two tables, the log of upload rows and the log of storage calls are
    the same in [w'] as in [w]. *)
Definition same_db (w w' : World) : Prop :=
  templates w' = templates w /\ uploads w' = uploads w
  /\ upload_log w' = upload_log w /\ stored w' = stored w.

(** What [processWithTemplate] has written for row [u0] when it ends with
    [r]: [l] are the row states logged, [u] is the row as it stands. *)
Definition processed_shape (u0 : Upload.t)
    (r : Res (option string * option ProcessingData))
    (l : list Upload.t) (u : Upload.t) : Prop :=
  let u1 := Upload.with_status processing u0 in
  match r with
  | Ok (None, _) => l = [] /\ u = u0
  | Ok (Some p, _) =>
      is_Some (Upload.templateId u0)
      /\ exists a b c d, l = [u1; Upload.with_processed p a b c d u1]
                         /\ u = Upload.with_processed p a b c d u1
  | Throw _ => l = [u1] /\ u = u1
  end.

(** The row states one run may log for a row created as [u0]: failure or
    completion straight from [pending], or [processing] first and then
    failure, or the processed dimensions and then failure or completion. *)
Definition run_shape (u0 : Upload.t) (l : list Upload.t) : Prop :=
  let u1 := Upload.with_status processing u0 in
  (exists m, l = [u0; Upload.with_failure m u0])
  \/ (exists cid curl, l = [u0; Upload.with_cloudinary cid curl u0])
  \/ (exists m, l = [u0; u1; Upload.with_failure m u1])
  \/ (exists p a b c d m,
        let u2 := Upload.with_processed p a b c d u1 in
        is_Some (Upload.templateId u0)
        /\ l = [u0; u1; u2; Upload.with_failure m u2])
  \/ (exists p a b c d cid curl,
        let u2 := Upload.with_processed p a b c d u1 in
        is_Some (Upload.templateId u0)
        /\ l = [u0; u1; u2; Upload.with_cloudinary cid curl u2]).

(** A row as [prisma.upload.create] of [uploadSingle] makes it. *)
Definition fresh_row (u0 : Upload.t) : Prop :=
  Upload.status u0 = pending
  /\ Upload.processedPath u0 = None
  /\ Upload.cloudinaryId u0 = None /\ Upload.cloudinaryUrl u0 = None
  /\ Upload.originalWidth u0 = None /\ Upload.originalHeight u0 = None
  /\ Upload.processedWidth u0 = None /\ Upload.processedHeight u0 = None
  /\ Upload.errorMessage u0 = None.

(** *** Several files at once *)

(** The storage call [uploadMultiple] makes for a file: whether it goes
    through [uploadVideo], and the path handed over. *)
Definition storageCall (file : MulterFile.t) : bool * string :=
  (String.prefix "video/" (MulterFile.mimetype file), MulterFile.path file).

(** What Cloudinary answers for a file while the disk is [disk]. *)
Definition storageResult (env : Env) (disk : gmap string Blob)
    (file : MulterFile.t) : ServiceResult CloudData :=
  cloudinary_upload env (String.prefix "video/" (MulterFile.mimetype file))
    (MulterFile.path file) (disk !! MulterFile.path file).

(** A file the checks of the upload routes let through. *)
Definition acceptable (maxSize : Z) (file : MulterFile.t) : Prop :=
  (MulterFile.size file <= maxSize)%Z
  /\ In (MulterFile.mimetype file) Validation.allowedTypes.

(** A clip staged next to [catFile], and a Cloudinary that takes pictures
    and refuses videos. *)
Definition clipFile : MulterFile.t :=
  MulterFile.mk "clip.mp4" "clip-2.mp4" "uploads/clip-2.mp4" "video/mp4" 4096.

Definition picturesOnly : Env :=
  mkEnv (fun _ => None) sampleRender
        (fun video _ _ =>
           if video then Failure "Unsupported video format" else cloudOk)
        (fun _ => "up1") "processed" (fun _ _ => true).

(** ** Notions the statements below use *)

(** Unlinking [p] goes through, whatever else is on the disk. *)
Definition can_unlink (env : Env) (p : string) : Prop :=
  forall disk, unlink_ok env disk p = true.

(** A request [uploadSingle] runs the Pipeline Orchestrator for: its
    template id is not empty and is a row of the table, and its file is an
    image. *)
Definition processed_request (req : Request) (w : World) : Prop :=
  exists f tid t,
    file req = Some f /\ body_templateId req = Some tid /\ tid <> ""
    /\ templates w !! tid = Some t
    /\ String.prefix "image/" (MulterFile.mimetype f) = true.



(** [processImage] with its four commented-out calls put back: the run of
    five stages the specification describes. *)
Definition processImageDesigned (env : Env) (inputPath : string)
    (template : Template.t) (outputPath : string)
    : M (ServiceResult ProcessingData) :=
  try (
    let image := sharp inputPath in
    md <- ImageProcessingService.metadata image ;;
    image <- ImageProcessingService.fiveStages env image template md ;;
    ImageProcessingService.toFile env image outputPath ;;;
    processedMetadata <- ImageProcessingService.metadata (sharp outputPath) ;;
    size <- ImageProcessingService.stat_size outputPath ;;
    ret (Success
           (mkProcessingData (m_width md) (m_height md)
              (m_width processedMetadata) (m_height processedMetadata)
              (m_format processedMetadata) size))
  ) catch (fun error => ret (Failure (message error))).

(** *** A frame around a resized picture *)

(** What [applyBox] returns for [resizedOnly] and [fullTemplate] in
    [sampleEnv]: the 500x500 buffer at (35, 35) on a canvas of 870x670. *)
Definition framedResized : Image :=
  mkImage
    (FromSvg
       (mkBoxSvg 870 670 15 15 840 640 (Some "#ffffff") (Some "#000000")
          (Some 0%Z) (Some 0%Z) (Some 0%Z)
          (Some (mkShadow (Some 5%Z) (Some 5%Z) (10 # 2)%Q (Some "#000000")
                   (3 # 10)%Q))))
    [OpComposite
       [OverlayImage (mkBlob (Some (mkMetadata 500 500 "jpeg")) 4096) 35 35]].

(** *** A watermark that is not well-formed XML *)

(** The text of an SVG overlay is interpolated into the markup as it is; it
    parses as XML only without a bare [&] or [<]. *)
Definition wellFormedText (text : string) : bool :=
  negb (occurs "&"%char text) && negb (occurs "<"%char text).

Definition renders (op : SharpOp) : bool :=
  match op with
  | OpComposite images =>
      forallb (fun o => match o with
                        | OverlayText svg => wellFormedText (t_text svg)
                        | OverlayImage _ _ _ => true
                        end) images
  | _ => true
  end.

(** [sampleEnv], with a sharp that fails to render an overlay whose markup
    does not parse. *)
Definition strictSvg : Env :=
  mkEnv (fun _ => None)
        (fun files image =>
           if forallb renders (ops image) then sampleRender files image
           else Throw (mkError "Input buffer has corrupt header: XML parse error"))
        (fun _ _ _ => cloudOk) (fun _ => "up1") "processed" (fun _ _ => true).

(** A template that resizes to 400x400 and stamps the text [Tom & Jerry]. *)
Definition ampersandTemplate : Template.t :=
  Template.mk "t7" "Ampersand" 400 400 85 "jpeg" "cover"
    None None None None None None None None None None
    true (Some "Tom & Jerry") (Some "center") None None
    None true true true true false
    false None None None None None false None None None None.

(** [sampleEnv cloudOk] on a disk where no file can be unlinked. *)
Definition lockedDisk : Env :=
  mkEnv (fun _ => None) sampleRender (fun _ _ _ => cloudOk) (fun _ => "up1")
        "processed" (fun _ _ => false).

(** ** Reasoning about the monad *)

Ltac unfold_M :=
  unfold bind, try_catch, ret, throw, lift, modify in *.

(** ** TemplateService *)

Lemma clearDefault_isDefault (x : Template.t) :
  Template.isDefault (Template.clearDefault x) = false.
Proof. reflexivity. Qed.

Lemma makeDefault_flags (x : Template.t) :
  Template.isDefault (Template.makeDefault x) = true
  /\ Template.isActive (Template.makeDefault x) = true.
Proof. split; reflexivity. Qed.

(** After the first step of [setDefaultTemplate] no row is the default. *)
Lemma updateMany_clears_all (w : World) (k : string) (x : Template.t) :
  templates (snd (Prisma.template_updateMany_clearDefault w)) !! k = Some x ->
  Template.isDefault x = false.
Proof.
  unfold Prisma.template_updateMany_clearDefault, modify; simpl.
  rewrite lookup_fmap.
  destruct (templates w !! k) as [y|] eqn:Hy; simpl; [|discriminate].
  intros [= <-].
  destruct (Template.isDefault y) eqn:Hd; [reflexivity | exact Hd].
Qed.

(** C9. A successful [setDefaultTemplate id] has first cleared [isDefault] on
    every row that had it and then set [isDefault] and [isActive] on row
    [id]: in the store it leaves, the row under key [id] is the returned
    one, it is default and active, and a row is default exactly when its
    key is [id]. *)
Theorem setDefaultTemplate_exactly_one_default
    (id : string) (w w' : World) (t : Template.t) :
  TemplateService.setDefaultTemplate id w = (Ok (Success t), w') ->
  templates w'
    = <[id := t]>
        ((fun x => if Template.isDefault x then Template.clearDefault x else x)
           <$> templates w)
  /\ templates w' !! id = Some t
  /\ Template.isDefault t = true
  /\ Template.isActive t = true
  /\ forall (k : string) (x : Template.t),
       templates w' !! k = Some x -> (Template.isDefault x = true <-> k = id).
Proof.
  unfold TemplateService.setDefaultTemplate, Prisma.template_update.
  unfold_M. unfold Prisma.template_updateMany_clearDefault, modify.
  cbn [templates set_templates].
  destruct (((fun x => if Template.isDefault x then Template.clearDefault x else x)
               <$> templates w) !! id) as [y|] eqn:Hy.
  2: { intros [=]. }
  intros [= <- <-]. cbn [templates set_templates].
  split; [reflexivity|].
  split; [apply lookup_insert_eq|].
  split; [reflexivity|]. split; [reflexivity|].
  intros k x Hk.
  destruct (decide (k = id)) as [->|Hne].
  - rewrite lookup_insert_eq in Hk. injection Hk as <-. split; auto.
  - rewrite lookup_insert_ne in Hk by congruence.
    assert (Template.isDefault x = false) as Hx.
    { apply (updateMany_clears_all w k). exact Hk. }
    rewrite Hx. split; [discriminate | intros; contradiction].
Qed.

(** The store of [twoTemplates] has ["t1"] as default; making ["t2"] the
    default succeeds and leaves ["t2"] as the only default. *)
Lemma setDefaultTemplate_exactly_one_default_witness :
  let w' := snd (TemplateService.setDefaultTemplate "t2" twoTemplates) in
  let t := Template.makeDefault (socialSquare "t2" false) in
  templates w' !! "t2" = Some t
  /\ (Template.isDefault <$> templates w' !! "t1") = Some false
  /\ forall (k : string) (x : Template.t),
       templates w' !! k = Some x -> (Template.isDefault x = true <-> k = "t2").
Proof.
  pose proof (setDefaultTemplate_exactly_one_default "t2" twoTemplates
                (snd (TemplateService.setDefaultTemplate "t2" twoTemplates))
                (Template.makeDefault (socialSquare "t2" false))
                eq_refl) as (_ & H1 & _ & _ & H2).
  split; [exact H1|]. split; [reflexivity | exact H2].
Defined.

(** C10. When [n > 0] uploads reference template [id], [deleteTemplate id]
    answers with a failure that names [n] and leaves the store, the template
    included, as it was. *)
Theorem deleteTemplate_refuses_used_template (id : string) (w : World) :
  let n := size (filter (fun ku => Upload.templateId ku.2 = Some id) (uploads w)) in
  (0 < n)%nat ->
  TemplateService.deleteTemplate id w
  = (Ok (Failure ("Cannot delete template. It has " +:+ pretty n
                  +:+ " associated uploads.")), w).
Proof.
  intros n Hn.
  unfold TemplateService.deleteTemplate, Prisma.upload_count. unfold_M.
  fold n. destruct (Nat.ltb_spec 0 n) as [_|Hle]; [reflexivity | lia].
Qed.

(** Template ["t2"] of [usedTemplate] has two uploads: it stays. *)
Lemma deleteTemplate_refuses_used_template_witness :
  TemplateService.deleteTemplate "t2" usedTemplate
  = (Ok (Failure "Cannot delete template. It has 2 associated uploads."),
     usedTemplate)
  /\ is_Some (templates usedTemplate !! "t2").
Proof.
  split.
  - apply (deleteTemplate_refuses_used_template "t2" usedTemplate).
    vm_compute. lia.
  - eexists. reflexivity.
Defined.

(** With no upload referencing it, an existing template is deleted. *)
Lemma deleteTemplate_proceeds_when_unused (id : string) (w : World) :
  size (filter (fun ku => Upload.templateId ku.2 = Some id) (uploads w)) = 0%nat ->
  is_Some (templates w !! id) ->
  exists w',
    TemplateService.deleteTemplate id w
    = (Ok (Success "Template deleted successfully"), w')
    /\ templates w' = delete id (templates w).
Proof.
  intros Hn [x Hx].
  unfold TemplateService.deleteTemplate, Prisma.upload_count,
    Prisma.template_delete. unfold_M.
  rewrite Hn. simpl. rewrite Hx. eexists. split; reflexivity.
Qed.

(** ** ImageProcessingService *)

Section ImageProcessing.
Import ImageProcessingService.

(** [applyDimensions] leaves the world alone and queues a resize, after an
    extract when the template has a manual crop. *)
Lemma applyDimensions_spec (env : Env) (image : Image) (t : Template.t)
    (md : Metadata) (w : World) :
  exists r, applyDimensions env image t md w = (r, w)
    /\ forall image', r = Ok image' ->
         input image' = input image
         /\ ((exists o, ops image' = (ops image ++ [OpResize o])%list)
             \/ (exists r o,
                   ops image' = (ops image ++ [OpExtract r; OpResize o])%list)).
Proof.
  unfold applyDimensions, chain. unfold_M.
  destruct (Template.cropX t), (Template.cropY t);
    try destruct (truthyZ (Template.cropWidth t) && truthyZ (Template.cropHeight t));
    repeat match goal with
      | |- context [sharp_validate env ?op] => destruct (sharp_validate env op)
      end; simpl;
    eexists; (split; [reflexivity|]); intros image' H; simplify_eq; simpl;
    rewrite <- ?app_assoc; simpl; eauto.
Qed.

Ltac fail_case :=
  unfold ret; simpl; eexists _, _; split; [reflexivity | exact I].

(** C8. [processImage] never throws: whatever sharp and the file system do,
    it returns a result object.  A success carries the dimensions of the
    input file, and the dimensions, format and byte size of the file now at
    [outputPath]; anything else is a failure with the error's message. *)
Theorem processImage_never_throws (env : Env) (inputPath : string)
    (template : Template.t) (outputPath : string) (w : World) :
  exists r w',
    processImage env inputPath template outputPath w = (Ok r, w')
    /\ match r with
       | Success d =>
           exists b_in m_in b_out m_out,
             fs w !! inputPath = Some b_in /\ blob_meta b_in = Some m_in
             /\ fs w' !! outputPath = Some b_out /\ blob_meta b_out = Some m_out
             /\ d = mkProcessingData (m_width m_in) (m_height m_in)
                      (m_width m_out) (m_height m_out) (m_format m_out)
                      (blob_size b_out)
       | Failure _ => True
       end.
Proof.
  unfold processImage.
  unfold try_catch at 1. unfold bind at 1. unfold metadata at 1. simpl.
  destruct (fs w !! inputPath) as [b_in|] eqn:Hin; [|fail_case].
  destruct (blob_meta b_in) as [m_in|] eqn:Hmin; [|fail_case].
  unfold bind at 1.
  destruct (applyDimensions_spec env (sharp inputPath) template m_in w)
    as (r & -> & _).
  destruct r as [image|e]; [|fail_case].
  unfold bind at 1. unfold toFile.
  destruct (sharp_render env (fs w) image) as [b_out|e]; [|fail_case].
  unfold bind at 1, metadata at 1. simpl. rewrite lookup_insert_eq.
  destruct (blob_meta b_out) as [m_out|] eqn:Hmout; [|fail_case].
  unfold bind at 1, stat_size. simpl. rewrite lookup_insert_eq.
  unfold ret. eexists _, _. split; [reflexivity|]. simpl.
  rewrite lookup_insert_eq. eauto 10.
Qed.

(** [processImage] touches neither table nor the logs of rows and of
    storage calls. *)
Lemma processImage_frame (env : Env) (i : string) (t : Template.t) (o : string)
    (w : World) :
  exists r w', processImage env i t o w = (Ok r, w') /\ same_db w w'.
Proof.
  unfold processImage, same_db.
  unfold try_catch at 1. unfold bind at 1. unfold metadata at 1. simpl.
  destruct (fs w !! i) as [b_in|]; [|unfold ret; eauto 10].
  destruct (blob_meta b_in) as [m_in|]; [|unfold ret; eauto 10].
  unfold bind at 1.
  destruct (applyDimensions_spec env (sharp i) t m_in w) as (r & -> & _).
  destruct r as [image|e]; [|unfold ret; eauto 10].
  unfold bind at 1. unfold toFile.
  destruct (sharp_render env (fs w) image) as [b_out|e];
    [|unfold ret; simpl; eauto 10].
  unfold bind at 1, metadata at 1. simpl. rewrite lookup_insert_eq.
  destruct (blob_meta b_out) as [m_out|]; [|unfold ret; simpl; eauto 10].
  unfold bind at 1, stat_size. simpl. rewrite lookup_insert_eq.
  unfold ret. eexists _, _. split; [reflexivity|]. simpl. auto.
Qed.



Lemma metadata_world (image : Image) (w w' : World) (r : Res Metadata) :
  metadata image w = (r, w') -> w' = w.
Proof.
  unfold metadata.
  destruct (input image); simpl;
    repeat match goal with
      | |- context [fs w !! ?p] => destruct (fs w !! p)
      | |- context [blob_meta ?b] => destruct (blob_meta b)
      end; intros H; simplify_eq; reflexivity.
Qed.

Lemma boxBody_world (env : Env) (image : Image) (t : Template.t) (w w' : World)
    (r : Res Image) :
  boxBody env image t w = (r, w') -> w' = w.
Proof.
  unfold boxBody, toBuffer, chain. unfold_M.
  destruct (metadata image w) as [[md|e] w1] eqn:Hmd;
    apply metadata_world in Hmd; subst w1;
    repeat match goal with
      | |- context [sharp_render env ?f ?i] => destruct (sharp_render env f i)
      | |- context [sharp_validate env ?op] => destruct (sharp_validate env op)
      end; simpl; intros H; simplify_eq; reflexivity.
Qed.

Lemma watermarkBody_world (env : Env) (image : Image) (t : Template.t)
    (w w' : World) (r : Res Image) :
  watermarkBody env image t w = (r, w') -> w' = w.
Proof.
  unfold watermarkBody, chain. unfold_M.
  destruct (metadata image w) as [[md|e] w1] eqn:Hmd;
    apply metadata_world in Hmd; subst w1;
    repeat match goal with
      | |- context [sharp_validate env ?op] => destruct (sharp_validate env op)
      end; simpl; intros H; simplify_eq; reflexivity.
Qed.

(** What the two [catch] blocks do give: whatever throws inside the [try]
    block of [applyBox] or of [applyWatermark], the stage returns the image
    it was given, unchanged, and the world as it was; neither stage ever
    throws. *)
Theorem decoration_failures_degrade (env : Env) (image : Image)
    (t : Template.t) (w : World) :
  (forall e w', boxBody env image t w = (Throw e, w') ->
     applyBox env image t w = (Ok image, w'))
  /\ (forall e w', watermarkBody env image t w = (Throw e, w') ->
     applyWatermark env image t w = (Ok image, w'))
  /\ (exists r, applyBox env image t w = (Ok r, w))
  /\ (exists r, applyWatermark env image t w = (Ok r, w)).
Proof.
  repeat split.
  - intros e w' H. pose proof (boxBody_world _ _ _ _ _ _ H) as ->.
    unfold applyBox, try_catch, ret.
    destruct (negb (Template.boxEnabled t)); [reflexivity|]. now rewrite H.
  - intros e w' H. pose proof (watermarkBody_world _ _ _ _ _ _ H) as ->.
    unfold applyWatermark, try_catch, ret.
    destruct (negb (Template.watermarkEnabled t)
              || negb (truthyS (Template.watermarkText t))); [reflexivity|].
    now rewrite H.
  - unfold applyBox, try_catch, ret.
    destruct (negb (Template.boxEnabled t)); [eauto|].
    destruct (boxBody env image t w) as [[r|e] w'] eqn:H;
      pose proof (boxBody_world _ _ _ _ _ _ H) as ->; eauto.
  - unfold applyWatermark, try_catch, ret.
    destruct (negb (Template.watermarkEnabled t)
              || negb (truthyS (Template.watermarkText t))); [eauto|].
    destruct (watermarkBody env image t w) as [[r|e] w'] eqn:H;
      pose proof (watermarkBody_world _ _ _ _ _ _ H) as ->; eauto.
Qed.

(** With a sharp that cannot render, the frame is dropped; with the input
    file missing, so is the watermark: the stages hand back their input. *)
Lemma decoration_failures_degrade_witness :
  applyBox brokenSharp (sharp "processed/p.png") fullTemplate squareWorld
  = (Ok (sharp "processed/p.png"), squareWorld)
  /\ applyWatermark (sampleEnv cloudOk) (sharp "missing.png") fullTemplate
       emptyWorld
     = (Ok (sharp "missing.png"), emptyWorld).
Proof.
  split.
  - apply (proj1 (decoration_failures_degrade brokenSharp
                    (sharp "processed/p.png") fullTemplate squareWorld)
             (mkError "VipsJpeg: premature end")).
    reflexivity.
  - apply (proj1 (proj2 (decoration_failures_degrade (sampleEnv cloudOk)
                           (sharp "missing.png") fullTemplate emptyWorld))
             (mkError "Input file is missing")).
    reflexivity.
Defined.

(** With the frame enabled and its [try] block completing, [applyBox]
    returns an instance built on a canvas of
    [w + 2 padding + 2 borderWidth + 2 shadowMargin] by
    [h + 2 padding + 2 borderWidth + 2 shadowMargin], where [w] and [h] are
    the dimensions [metadata()] reports of the image it was given and
    [shadowMargin] is [max(|offsetX|, |offsetY|) + shadowBlur] with a shadow
    and [0] without; the image is composited at
    [shadowMargin + borderWidth + padding] from the left and the top. *)
Theorem applyBox_canvas (env : Env) (image : Image) (t : Template.t)
    (w w' : World) (result : Image) :
  Template.boxEnabled t = true ->
  boxBody env image t w = (Ok result, w') ->
  applyBox env image t w = (Ok result, w')
  /\ exists md svg buf,
       metadata image w = (Ok md, w)
       /\ input result = FromSvg svg
       /\ svg_width svg = canvasSide (m_width md) t
       /\ svg_height svg = canvasSide (m_height md) t
       /\ ops result
          = [OpComposite
               [OverlayImage buf
                  (shadowMargin t + numZ (Template.boxBorderWidth t)
                   + numZ (Template.boxPadding t))%Z
                  (shadowMargin t + numZ (Template.boxBorderWidth t)
                   + numZ (Template.boxPadding t))%Z]].
Proof.
  intros Hen Hbody. split.
  { unfold applyBox, try_catch. rewrite Hen. simpl. now rewrite Hbody. }
  revert Hbody.
  unfold boxBody, toBuffer, chain. unfold_M.
  destruct (metadata image w) as [[md|e] w1] eqn:Hmd; [|intros [=]].
  pose proof (metadata_world _ _ _ _ Hmd) as ->.
  destruct (sharp_render env (fs w) image) as [buf|e]; [|intros [=]].
  match goal with
  | |- context [sharp_validate env ?op] => destruct (sharp_validate env op)
  end; [intros [=]|].
  intros [= <- <-]. exists md. eexists. exists buf.
  split; [reflexivity|]. split; [reflexivity|].
  unfold canvasSide, shadowMargin, createBoxSvg; simpl.
  repeat split; try lia.
Qed.

(** A 500x500 image framed with padding 20, border 0, shadow blur 10 and
    offsets 5 and 5 comes out on a 570x570 canvas. *)
Lemma applyBox_canvas_witness :
  applyBox (sampleEnv cloudOk) (sharp "processed/p.png") fullTemplate squareWorld
  = (Ok framedSquare, squareWorld)
  /\ canvasSide 500 fullTemplate = 570%Z
  /\ exists svg, input framedSquare = FromSvg svg
                 /\ svg_width svg = 570%Z /\ svg_height svg = 570%Z.
Proof.
  destruct (applyBox_canvas (sampleEnv cloudOk) (sharp "processed/p.png")
              fullTemplate squareWorld squareWorld framedSquare
              eq_refl eq_refl) as (Hrun & _).
  split; [exact Hrun|]. split; [reflexivity|].
  eexists. repeat split.
Defined.

(** Whatever the template asks, the only instance [processImage] renders to
    a file has a resize queued, after an extract when the template has a
    manual crop, and nothing else. *)
Lemma processImage_writes_geometry (env : Env) (i : string) (t : Template.t)
    (o : string) (w : World) :
  exists r w',
    processImage env i t o w = (r, w')
    /\ (written w' = written w
        \/ exists image,
             written w' = (written w ++ [(image, o)])%list
             /\ input image = FromPath i
             /\ ((exists rs, ops image = [OpResize rs])
                 \/ (exists r rs, ops image = [OpExtract r; OpResize rs]))).
Proof.
  unfold processImage.
  unfold try_catch at 1. unfold bind at 1. unfold metadata at 1. simpl.
  destruct (fs w !! i) as [b_in|]; [|unfold ret; eauto].
  destruct (blob_meta b_in) as [m_in|]; [|unfold ret; eauto].
  unfold bind at 1.
  destruct (applyDimensions_spec env (sharp i) t m_in w) as (r & -> & Hr).
  destruct r as [image|e]; [|unfold ret; eauto].
  destruct (Hr image eq_refl) as (Hin & Hops). simpl in Hin, Hops.
  unfold bind at 1. unfold toFile.
  destruct (sharp_render env (fs w) image) as [b_out|e];
    [|unfold ret; simpl; eauto 10].
  unfold bind at 1, metadata at 1. simpl. rewrite lookup_insert_eq.
  destruct (blob_meta b_out) as [m_out|]; [|unfold ret; simpl; eauto 10].
  unfold bind at 1, stat_size. simpl. rewrite lookup_insert_eq.
  unfold ret. eexists _, _. split; [reflexivity|]. simpl. eauto 10.
Qed.

(** C1. On [fullTemplate], which asks for contrast, a frame, a watermark and
    PNG options, [processImage] renders to the output file the instance with
    the Geometry stage's resize alone; the Tone stage would have queued the
    contrast on it, and the five stages in order end on a framed,
    watermarked instance with the PNG options queued last. *)
Theorem processImage_runs_geometry_only :
  let env := sampleEnv cloudOk in
  written (snd (processImage env "uploads/cat-1.jpg" fullTemplate
                  "processed/out.png" stagedWorld))
  = [(resizedOnly, "processed/out.png")]
  /\ fst (applyFilters env resizedOnly fullTemplate stagedWorld)
     = Ok (mkImage (input resizedOnly)
             (ops resizedOnly
              ++ [OpLinear (1 + (20 # 1) / 100)%Q
                           (128 * (1 - (1 + (20 # 1) / 100)))%Q])%list)
  /\ exists five,
       fst (fiveStages env (sharp "uploads/cat-1.jpg") fullTemplate
              (mkMetadata 800 600 "jpeg") stagedWorld) = Ok five
       /\ five <> resizedOnly
       /\ length (ops five) = 4%nat
       /\ last (ops five) = Some (OpPng 90 true 9 true).
Proof.
  split; [reflexivity|]. split; [reflexivity|].
  eexists. split; [vm_compute; reflexivity|].
  split; [discriminate|]. split; reflexivity.
Qed.

(** C5. The canvas of [applyBox] follows the size [metadata()] reports,
    which is the size in the header of the file the instance was opened
    from, and not the size of the image the stage frames.  For the staged
    800x600 file with the resize to 500x500 queued, the instance the
    Geometry stage hands on, the stage renders a 500x500 buffer and puts it
    on a canvas of 870x670, where the formula of the specification gives
    570x570 for a 500x500 image. *)
Theorem applyBox_canvas_ignores_resize :
  let env := sampleEnv cloudOk in
  fst (applyDimensions env (sharp "uploads/cat-1.jpg") fullTemplate
         (mkMetadata 800 600 "jpeg") stagedWorld) = Ok resizedOnly
  /\ fst (toBuffer env resizedOnly stagedWorld)
     = Ok (mkBlob (Some (mkMetadata 500 500 "jpeg")) 4096)
  /\ applyBox env resizedOnly fullTemplate stagedWorld
     = (Ok framedResized, stagedWorld)
  /\ (exists svg, input framedResized = FromSvg svg
                  /\ svg_width svg = 870%Z /\ svg_height svg = 670%Z)
  /\ canvasSide 500 fullTemplate = 570%Z
  /\ canvasSide 800 fullTemplate = 870%Z
  /\ canvasSide 600 fullTemplate = 670%Z.
Proof.
  cbv zeta. split; [reflexivity|]. split; [reflexivity|].
  split; [reflexivity|]. split; [eexists; repeat split|].
  repeat split.
Qed.

(** C7. A rendering error of a decoration escapes the stage that made it.
    [applyWatermark] queues its overlay and returns; sharp renders the
    overlay in [toFile], outside the [try] block of the stage.  With the
    watermark text [Tom & Jerry], which the stage writes into the markup
    as it is, the stage hands back a decorated instance; rendering it
    fails where the undecorated image renders; so the run of five stages
    ends in a failure result, the one [uploadSingle] marks the upload
    failed for, while [processImage] as it stands, without the stage,
    succeeds.  What [applyWatermark] returns does not depend on sharp's
    renderer at all. *)
Theorem decoration_error_escapes_stage :
  let env := strictSvg in
  let plain := sharp "uploads/cat-1.jpg" in
  exists decorated e d,
    (forall env1 env2 image t w,
       sharp_validate env1 = sharp_validate env2 ->
       applyWatermark env1 image t w = applyWatermark env2 image t w)
    /\ applyWatermark env plain ampersandTemplate stagedWorld
       = (Ok decorated, stagedWorld)
    /\ decorated <> plain
    /\ fst (toFile env decorated "processed/out.jpg" stagedWorld) = Throw e
    /\ fst (toFile env plain "processed/out.jpg" stagedWorld) = Ok tt
    /\ fst (processImageDesigned env "uploads/cat-1.jpg" ampersandTemplate
              "processed/out.jpg" stagedWorld)
       = Ok (Failure (message e))
    /\ fst (processImage env "uploads/cat-1.jpg" ampersandTemplate
              "processed/out.jpg" stagedWorld)
       = Ok (Success d).
Proof.
  cbv zeta. eexists _, _, _.
  split.
  { intros env1 env2 image t w Hv.
    unfold applyWatermark, watermarkBody, chain. rewrite Hv. reflexivity. }
  split; [vm_compute; reflexivity|].
  split; [discriminate|].
  split; [vm_compute; reflexivity|].
  split; [vm_compute; reflexivity|].
  split; vm_compute; reflexivity.
Qed.

End ImageProcessing.

(** ** UploadController *)

Section UploadLifecycle.
Import UploadController.

Ltac use_frame H :=
  let Ht := fresh "Ht" in let Hu := fresh "Hu" in
  let Hl := fresh "Hl" in let Hs := fresh "Hs" in
  destruct H as (Ht & Hu & Hl & Hs); simpl in Ht, Hu, Hl, Hs.

Lemma upload_update_hit (id : string) (f : Upload.t -> Upload.t) (w : World)
    (u : Upload.t) :
  uploads w !! id = Some u ->
  Prisma.upload_update id f w
  = (Ok (f u), log_upload (f u) (set_uploads (<[id := f u]> (uploads w)) w)).
Proof. intros H. unfold Prisma.upload_update. now rewrite H. Qed.

Lemma deleteFile_frame (env : Env) (p : string) (w : World) :
  exists b w', FileUtils.deleteFile env p w = (Ok b, w') /\ same_db w w'.
Proof.
  unfold FileUtils.deleteFile, same_db.
  destruct (fs w !! p); [destruct (unlink_ok env (fs w) p)|];
    eexists _, _; (split; [reflexivity|]); simpl; auto.
Qed.

(** [lookupTemplate] only reads; it finds a template only for a truthy id
    that is a key of the table. *)
Lemma lookupTemplate_spec (tid : option string) (w : World) :
  exists r, lookupTemplate tid w = (r, w)
    /\ forall t, r = Ok (Some t) ->
         truthyS tid = true /\ templates w !! default "" tid = Some t.
Proof.
  unfold lookupTemplate, TemplateService.getTemplateById,
    Prisma.template_findUnique. unfold_M.
  destruct (truthyS tid).
  - destruct (templates w !! default "" tid) eqn:Ht; eexists;
      (split; [reflexivity|]); intros t' H; simplify_eq; auto.
  - eexists. split; [reflexivity|]. intros t' H. discriminate.
Qed.

(** The rows [processWithTemplate] writes. *)
Lemma processWithTemplate_log (env : Env) (file : MulterFile.t)
    (u0 : Upload.t) (ot : option Template.t) (w : World) :
  uploads w !! Upload.id u0 = Some u0 ->
  (is_Some ot -> is_Some (Upload.templateId u0)) ->
  exists r w' l u,
    processWithTemplate env file u0 ot w = (r, w')
    /\ upload_log w' = (upload_log w ++ l)%list
    /\ uploads w' !! Upload.id u0 = Some u
    /\ stored w' = stored w
    /\ processed_shape u0 r l u.
Proof.
  intros Hu0 Htid. unfold processWithTemplate.
  destruct ot as [t|].
  2: { eexists _, _, [], u0. split; [reflexivity|]. rewrite app_nil_r.
       unfold processed_shape. auto. }
  destruct (String.prefix "image/" (MulterFile.mimetype file)).
  2: { eexists _, _, [], u0. split; [reflexivity|]. rewrite app_nil_r.
       unfold processed_shape. auto. }
  unfold FileUtils.ensureDirectoryExists.
  unfold bind at 1. unfold ret at 1.
  unfold bind at 1. rewrite (upload_update_hit _ _ _ _ Hu0).
  unfold bind at 1.
  match goal with
  | |- context [ImageProcessingService.processImage ?e ?i ?t ?o ?w] =>
      destruct (processImage_frame e i t o w)
        as (r & w1 & -> & Hdb)
  end.
  use_frame Hdb.
  destruct r as [d|msg].
  - unfold bind at 1.
    erewrite upload_update_hit by (rewrite Hu; apply lookup_insert_eq).
    unfold ret. eexists _, _, _, _. split; [reflexivity|]. simpl.
    rewrite Hl, Hs, lookup_insert_eq, <- app_assoc. simpl.
    repeat split; eauto 10.
  - unfold throw. eexists _, _, _, _. split; [reflexivity|].
    rewrite Hl, Hs, Hu, lookup_insert_eq.
    unfold processed_shape. auto.
Qed.

(** The rows [storeAndComplete] writes for a row that stands at [u]: none
    when it throws, the completed row when it returns. *)
Lemma storeAndComplete_log (env : Env) (file : MulterFile.t) (u0 u : Upload.t)
    (p : option string) (d : option ProcessingData) (w : World) :
  uploads w !! Upload.id u0 = Some u ->
  exists r w',
    storeAndComplete env file u0 p d w = (r, w')
    /\ match r with
       | Ok _ =>
           exists cid curl,
             upload_log w' = (upload_log w ++ [Upload.with_cloudinary cid curl u])%list
             /\ uploads w' !! Upload.id u0 = Some (Upload.with_cloudinary cid curl u)
       | Throw _ =>
           upload_log w' = upload_log w /\ uploads w' !! Upload.id u0 = Some u
       end.
Proof.
  intros Hu0. unfold storeAndComplete.
  unfold bind at 1.
  assert (exists c w1,
    (if String.prefix "video/" (MulterFile.mimetype file)
     then CloudinaryService.uploadVideo env (default (MulterFile.path file) p)
     else CloudinaryService.uploadImage env (default (MulterFile.path file) p)) w
    = (Ok c, w1)
    /\ uploads w1 = uploads w /\ upload_log w1 = upload_log w)
    as (c & w1 & -> & Hu1 & Hl1).
  { destruct (String.prefix "video/" (MulterFile.mimetype file));
      unfold CloudinaryService.uploadVideo, CloudinaryService.uploadImage;
      eexists _, _; split; [reflexivity| |reflexivity|]; simpl; auto. }
  unfold bind at 1.
  destruct (deleteFile_frame env (MulterFile.path file) w1) as (b1 & w2 & -> & Hdb2).
  use_frame Hdb2.
  unfold bind at 1.
  assert (exists w3,
    match p with
    | Some p0 => FileUtils.deleteFile env p0;;; ret ()
    | None => ret ()
    end w2 = (Ok tt, w3)
    /\ uploads w3 = uploads w2 /\ upload_log w3 = upload_log w2)
    as (w3 & -> & Hu3 & Hl3).
  { destruct p as [p0|]; [|eexists; split; [reflexivity|auto]].
    unfold bind.
    destruct (deleteFile_frame env p0 w2) as (b & w3 & -> & Hdb3).
    use_frame Hdb3. unfold ret. eauto. }
  destruct c as [data|msg].
  - unfold bind at 1.
    erewrite upload_update_hit
      by (rewrite Hu3, Hu, Hu1; exact Hu0).
    unfold ret. eexists _, _. split; [reflexivity|].
    exists (public_id data), (url data). simpl.
    rewrite Hl3, Hl, Hl1, lookup_insert_eq. auto.
  - unfold throw. eexists _, _. split; [reflexivity|].
    rewrite Hl3, Hl, Hl1, Hu3, Hu, Hu1. auto.
Qed.

(** The [catch] block marks the row it is given as failed, whatever state
    the row is in, and answers 500. *)
Lemma onError_log (env : Env) (file : MulterFile.t) (u0 u : Upload.t)
    (e : Error) (w : World) :
  uploads w !! Upload.id u0 = Some u ->
  exists w',
    onError env file (Some u0) e w
    = (Ok (RespError 500 "Upload failed" (Some (message e))), w')
    /\ upload_log w' = (upload_log w ++ [Upload.with_failure (message e) u])%list
    /\ uploads w' !! Upload.id u0 = Some (Upload.with_failure (message e) u)
    /\ stored w' = stored w.
Proof.
  intros Hu. unfold onError.
  unfold bind at 1. unfold try_catch, bind at 1.
  rewrite (upload_update_hit _ _ _ _ Hu). unfold ret at 1.
  unfold bind at 1.
  destruct (negb (MulterFile.path file =? "")).
  - unfold bind at 1.
    match goal with
    | |- context [FileUtils.deleteFile env ?p ?w] =>
        destruct (deleteFile_frame env p w) as (b & w2 & -> & Hdb)
    end.
    use_frame Hdb. unfold ret. eexists. split; [reflexivity|].
    rewrite Hl, Hu0, Hs, lookup_insert_eq. auto.
  - unfold ret. eexists. split; [reflexivity|]. simpl.
    rewrite lookup_insert_eq. auto.
Qed.

(** Without a row the [catch] block writes none. *)
Lemma onError_none (env : Env) (file : MulterFile.t) (e : Error)
    (w : World) :
  exists w',
    onError env file None e w
    = (Ok (RespError 500 "Upload failed" (Some (message e))), w')
    /\ same_db w w'.
Proof.
  unfold onError. unfold bind at 1. unfold ret at 1. unfold bind at 1.
  destruct (negb (MulterFile.path file =? "")).
  - unfold bind at 1.
    destruct (deleteFile_frame env (MulterFile.path file) w) as (b & w2 & -> & Hdb).
    unfold ret. eauto.
  - unfold ret. eexists. split; [reflexivity|]. unfold same_db. auto.
Qed.

(** The rows the [try] block writes after the row [u0] was created. *)
Lemma afterCreate_log (env : Env) (file : MulterFile.t) (tid : option string)
    (u0 : Upload.t) (w : World) :
  uploads w !! Upload.id u0 = Some u0 ->
  (truthyS tid = true -> is_Some (Upload.templateId u0)) ->
  let u1 := Upload.with_status processing u0 in
  exists r w' l u,
    afterCreate env file tid u0 w = (r, w')
    /\ upload_log w' = (upload_log w ++ l)%list
    /\ uploads w' !! Upload.id u0 = Some u
    /\ match r with
       | Ok _ =>
           (exists cid curl, l = [Upload.with_cloudinary cid curl u0])
           \/ (exists p a b c d cid curl,
                 is_Some (Upload.templateId u0)
                 /\ l = [u1; Upload.with_processed p a b c d u1;
                         Upload.with_cloudinary cid curl
                           (Upload.with_processed p a b c d u1)])
       | Throw _ =>
           (l = [] /\ u = u0)
           \/ (l = [u1] /\ u = u1)
           \/ (exists p a b c d,
                 is_Some (Upload.templateId u0)
                 /\ l = [u1; Upload.with_processed p a b c d u1]
                 /\ u = Upload.with_processed p a b c d u1)
       end.
Proof.
  intros Hu0 Htid. cbv zeta. unfold afterCreate.
  unfold bind at 1.
  destruct (lookupTemplate_spec tid w) as (rt & -> & Hrt).
  destruct rt as [ot|e].
  2: { eexists _, _, [], u0. split; [reflexivity|]. rewrite app_nil_r. auto. }
  unfold bind at 1.
  destruct (processWithTemplate_log env file u0 ot w Hu0)
    as (rp & w1 & l1 & u & -> & Hl1 & Hu1 & _ & Hshape).
  { intros [t ->]. apply Htid. apply (Hrt t eq_refl). }
  destruct rp as [[p d]|e].
  2: { unfold processed_shape in Hshape. destruct Hshape as (-> & ->).
       eexists _, _, _, _. split; [reflexivity|].
       split; [exact Hl1|]. split; [exact Hu1|]. auto. }
  simpl fst. simpl snd.
  destruct (storeAndComplete_log env file u0 u p d w1 Hu1)
    as (rs & w2 & -> & Hs).
  unfold processed_shape in Hshape. cbv zeta in Hshape.
  destruct rs as [resp|e].
  - destruct Hs as (cid & curl & Hl2 & Hu2).
    eexists _, _, _, _. split; [reflexivity|].
    rewrite Hl2, Hl1, <- app_assoc. split; [reflexivity|].
    split; [exact Hu2|].
    destruct p as [p|].
    + destruct Hshape as (Ht & a & b & c & d' & -> & ->).
      right. exists p, a, b, c, d', cid, curl. auto.
    + destruct Hshape as (-> & ->). left. eauto.
  - destruct Hs as (Hl2 & Hu2).
    eexists _, _, l1, u. split; [reflexivity|].
    rewrite Hl2, Hl1. split; [reflexivity|]. split; [exact Hu2|].
    destruct p as [p|].
    + destruct Hshape as (Ht & a & b & c & d' & -> & ->).
      right. right. exists p, a, b, c, d'. auto.
    + destruct Hshape as (-> & ->). auto.
Qed.

(** The rows one run of [uploadSingle] writes: none, or a fresh pending row
    followed by one of the five continuations of [run_shape]. *)
Lemma uploadSingle_log (env : Env) (req : Request) (w : World) :
  exists r w',
    uploadSingle env req w = (r, w')
    /\ (upload_log w' = upload_log w
        \/ exists u0 l,
             fresh_row u0
             /\ upload_log w' = (upload_log w ++ l)%list
             /\ run_shape u0 l).
Proof.
  unfold uploadSingle.
  destruct (file req) as [f|]; [|unfold ret; eauto].
  unfold bind at 1, attempt.
  set (mk0 := fun id : string =>
    Upload.mk id (MulterFile.originalname f) (MulterFile.filename f)
      (MulterFile.path f) (MulterFile.mimetype f) (MulterFile.size f)
      None None None None None None None
      (if truthyS (body_templateId req) then body_templateId req else None)
      pending None).
  assert (forall id, fresh_row (mk0 id)) as Hfresh.
  { intros id. unfold fresh_row, mk0. simpl. tauto. }
  assert (forall id, truthyS (body_templateId req) = true ->
                     is_Some (Upload.templateId (mk0 id))) as Htid.
  { intros id Ht. unfold mk0. simpl. rewrite Ht.
    destruct (body_templateId req); [eauto | discriminate]. }
  assert (forall id, Upload.id (mk0 id) = id) as Hid by reflexivity.
  destruct (Prisma.upload_create env mk0 w) as [[u0|e] w1] eqn:Hc.
  2: { assert (w1 = w) as ->.
       { revert Hc. unfold Prisma.upload_create.
         repeat match goal with
           | |- context [match ?x with _ => _ end] => destruct x
           end; intros H; simplify_eq; reflexivity. }
       destruct (onError_none env f e w) as (w2 & -> & Hdb).
       eexists _, _. split; [reflexivity|]. left. apply Hdb. }
  assert (u0 = mk0 (Upload.id u0)
          /\ uploads w1 !! Upload.id u0 = Some u0
          /\ upload_log w1 = (upload_log w ++ [u0])%list) as (Hu0 & Hl0 & Hlog0).
  { revert Hc. unfold Prisma.upload_create.
    repeat match goal with
      | |- context [match ?x with _ => _ end] => destruct x
      end; intros H; simplify_eq; simpl; rewrite ?Hid, lookup_insert_eq; auto. }
  assert (truthyS (body_templateId req) = true ->
          is_Some (Upload.templateId u0)) as Htid0.
  { rewrite Hu0. apply Htid. }
  destruct (afterCreate_log env f (body_templateId req) u0 w1 Hl0 Htid0)
    as (r & w2 & l & u & Hrun & Hl & Hu & Hshape).
  unfold try_catch. rewrite Hrun.
  assert (fresh_row u0) as Hf0 by (rewrite Hu0; apply Hfresh).
  destruct r as [resp|e].
  - eexists _, _. split; [reflexivity|]. right. exists u0, (u0 :: l).
    split; [exact Hf0|]. rewrite Hl, Hlog0, <- app_assoc.
    split; [reflexivity|]. unfold run_shape.
    destruct Hshape as [(cid & curl & ->)|(p & a & b & c & d & cid & curl & Ht & ->)].
    + right. left. eauto.
    + right. right. right. right. exists p, a, b, c, d, cid, curl. auto.
  - destruct (onError_log env f u0 u e w2 Hu) as (w3 & -> & Hl3 & _ & _).
    eexists _, _. split; [reflexivity|]. right.
    exists u0, (u0 :: l ++ [Upload.with_failure (message e) u])%list.
    split; [exact Hf0|]. rewrite Hl3, Hl, Hlog0, <- !app_assoc.
    split; [reflexivity|]. unfold run_shape.
    destruct Hshape as [(-> & ->)|[(-> & ->)|(p & a & b & c & d & Ht & -> & ->)]].
    + left. eauto.
    + right. right. left. eauto.
    + right. right. right. left. exists p, a, b, c, d, (message e). auto.
Qed.

Lemma run_log_shape (env : Env) (req : Request) (w : World) :
  run_log env req w = []
  \/ exists u0, fresh_row u0 /\ run_shape u0 (run_log env req w).
Proof.
  unfold run_log.
  destruct (uploadSingle_log env req w) as (r & w' & -> & [Hl|(u0 & l & Hf & Hl & Hs)]);
    simpl; rewrite Hl.
  - left. apply drop_all.
  - right. exists u0. rewrite drop_app_length. auto.
Qed.

(** C2, as stated, fails: an upload without a template goes from [pending]
    straight to [completed]. *)
Lemma upload_status_transitions_counterexample :
  ~ (forall env req w,
       starts_pending (status_trace env req w) = true
       /\ follows claimed_step (status_trace env req w) = true).
Proof.
  intros H.
  destruct (H (sampleEnv cloudOk) plainRequest stagedWorld) as [_ Hf].
  vm_compute in Hf. discriminate.
Qed.

Example plain_upload_trace :
  status_trace (sampleEnv cloudOk) plainRequest stagedWorld
  = [pending; completed].
Proof. reflexivity. Qed.

Example template_upload_trace :
  status_trace (sampleEnv cloudOk) (templateRequest "t2") stagedWorld
  = [pending; processing; processing; completed].
Proof. reflexivity. Qed.

Ltac no_some :=
  match goal with
  | H : is_Some None |- _ => destruct H as [? H]; discriminate H
  end.

(** C3, as the code has it.  In every row state one run writes: the storage
    identifier and the storage URL are there exactly when the status is
    [completed]; a [failed] row has neither and has an error message; the
    error message is there exactly when the status is [failed]; the
    processed width and height are there together, and only on a row with a
    template that has left [pending]. *)
Theorem upload_row_fields (env : Env) (req : Request) (w : World)
    (u : Upload.t) :
  In u (run_log env req w) ->
  (is_Some (Upload.cloudinaryId u) <-> Upload.status u = completed)
  /\ (is_Some (Upload.cloudinaryUrl u) <-> Upload.status u = completed)
  /\ (Upload.status u = failed ->
      Upload.cloudinaryId u = None /\ Upload.cloudinaryUrl u = None
      /\ is_Some (Upload.errorMessage u))
  /\ (is_Some (Upload.errorMessage u) <-> Upload.status u = failed)
  /\ (is_Some (Upload.processedWidth u) <-> is_Some (Upload.processedHeight u))
  /\ (is_Some (Upload.processedWidth u) ->
      is_Some (Upload.templateId u) /\ Upload.status u <> pending).
Proof.
  destruct (run_log_shape env req w) as [->|(u0 & Hf & Hs)]; [intros []|].
  destruct Hf as (Hst & Hpp & Hci & Hcu & How & Hoh & Hpw & Hph & Hem).
  unfold run_shape in Hs. cbv zeta in Hs.
  destruct Hs as [(m & ->)|[(cid & curl & ->)|[(m & ->)|
    [(p & a & b & c & d & m & Ht & ->)|(p & a & b & c & d & cid & curl & Ht & ->)]]]];
    simpl; intros Hin;
    repeat match goal with
      | H : _ \/ _ |- _ => destruct H as [<-|H]
      | H : False |- _ => destruct H
      end;
    simpl; rewrite ?Hst, ?Hci, ?Hcu, ?Hpw, ?Hph, ?Hem;
    repeat split; intros; try no_some; try discriminate; eauto.
Qed.

(** C3, as stated, fails: with a template the processed dimensions are
    written while the row is still [processing], before any storage
    identifier. *)
Lemma upload_row_fields_counterexample :
  ~ (forall env req w u, In u (run_log env req w) -> storedTogether u = true).
Proof.
  intros H.
  specialize (H (sampleEnv cloudOk) (templateRequest "t2") stagedWorld
                processedRow).
  assert (storedTogether processedRow = false) as Hf by reflexivity.
  rewrite H in Hf; [discriminate|].
  right. right. left. reflexivity.
Qed.

(** [processedRow] is the third row state of an upload through ["t2"]; it
    has the dimensions, no storage identifier and no error message. *)
Lemma upload_row_fields_witness :
  In processedRow
     (run_log (sampleEnv cloudOk) (templateRequest "t2") stagedWorld)
  /\ (is_Some (Upload.cloudinaryId processedRow)
      <-> Upload.status processedRow = completed)
  /\ (is_Some (Upload.processedWidth processedRow) ->
      is_Some (Upload.templateId processedRow)
      /\ Upload.status processedRow <> pending).
Proof.
  assert (In processedRow
            (run_log (sampleEnv cloudOk) (templateRequest "t2") stagedWorld))
    as Hin by (right; right; left; reflexivity).
  split; [exact Hin|].
  destruct (upload_row_fields (sampleEnv cloudOk) (templateRequest "t2")
              stagedWorld processedRow Hin) as (H1 & _ & _ & _ & _ & H6).
  split; [exact H1 | exact H6].
Defined.






End UploadLifecycle.

(** * Further properties of the code *)

(** ** TemplateService: lookups, defaults, copies *)

Section TemplateStore.
Import TemplateService.

Lemma find_row_Some {A} (P : A -> Prop) `{!forall x, Decision (P x)}
    (m : gmap string A) (x : A) :
  Prisma.find_row P m = Some x -> exists k, m !! k = Some x /\ P x.
Proof.
  unfold Prisma.find_row.
  destruct (map_to_list (filter (fun kx => P kx.2) m)) as [|[k y] l] eqn:E;
    simpl; intros Heq; simplify_eq.
  assert ((k, x) ∈ map_to_list (filter (fun kx : string * A => P kx.2) m)) as Hin
    by (rewrite E; left).
  apply elem_of_map_to_list, map_lookup_filter_Some in Hin.
  exists k. exact Hin.
Qed.

Lemma find_row_None {A} (P : A -> Prop) `{!forall x, Decision (P x)}
    (m : gmap string A) :
  Prisma.find_row P m = None <-> forall k x, m !! k = Some x -> ~ P x.
Proof.
  unfold Prisma.find_row. split.
  - intros Hn k x Hk HP.
    destruct (map_to_list (filter (fun kx => P kx.2) m)) as [|[k' y] l] eqn:E;
      [|discriminate].
    apply map_to_list_empty_iff in E.
    assert (filter (fun kx : string * A => P kx.2) m !! k = Some x) as Hf
      by (apply map_lookup_filter_Some; auto).
    rewrite E, lookup_empty in Hf. discriminate.
  - intros Hn.
    destruct (map_to_list (filter (fun kx => P kx.2) m)) as [|[k y] l] eqn:E;
      [reflexivity|].
    assert ((k, y) ∈ map_to_list (filter (fun kx : string * A => P kx.2) m)) as Hin
      by (rewrite E; left).
    apply elem_of_map_to_list, map_lookup_filter_Some in Hin.
    destruct Hin as [Hk HP]. destruct (Hn k y Hk HP).
Qed.

Lemma find_row_unique {A} (P : A -> Prop) `{!forall x, Decision (P x)}
    (m : gmap string A) (k : string) (x : A) :
  m !! k = Some x -> P x ->
  (forall k' x', m !! k' = Some x' -> P x' -> k' = k) ->
  Prisma.find_row P m = Some x.
Proof.
  intros Hk HP Huniq.
  destruct (Prisma.find_row P m) as [y|] eqn:E.
  - apply find_row_Some in E. destruct E as (k' & Hk' & HP').
    rewrite (Huniq k' y Hk' HP') in Hk'. congruence.
  - destruct (proj1 (find_row_None P m) E k x Hk HP).
Qed.

(** What [setDefaultTemplate] does to the store, in one equation. *)
Lemma setDefaultTemplate_outcome (id : string) (w : World) :
  let cleared :=
    (fun x => if Template.isDefault x then Template.clearDefault x else x)
      <$> templates w in
  setDefaultTemplate id w
  = match cleared !! id with
    | Some y =>
        (Ok (Success (Template.makeDefault y)),
         set_templates (<[id := Template.makeDefault y]> cleared) w)
    | None =>
        (Ok (Failure "Record to update not found."), set_templates cleared w)
    end.
Proof.
  unfold setDefaultTemplate, Prisma.template_update,
    Prisma.template_updateMany_clearDefault. unfold_M.
  cbn [templates set_templates].
  destruct (((fun x => if Template.isDefault x then Template.clearDefault x else x)
               <$> templates w) !! id); reflexivity.
Qed.

Lemma cleared_not_default (m : gmap string Template.t) (k : string)
    (x : Template.t) :
  ((fun x => if Template.isDefault x then Template.clearDefault x else x)
     <$> m) !! k = Some x ->
  Template.isDefault x = false.
Proof.
  rewrite lookup_fmap.
  destruct (m !! k) as [y|]; simpl; [|discriminate].
  intros [= <-]. destruct (Template.isDefault y) eqn:Hd; [reflexivity | exact Hd].
Qed.

(** X1. A successful [setDefaultTemplate id] composes with
    [getDefaultTemplate]: the next [getDefaultTemplate] succeeds and returns
    the very row the call returned. *)
Theorem setDefault_then_getDefault (id : string) (w w' : World)
    (t : Template.t) :
  setDefaultTemplate id w = (Ok (Success t), w') ->
  getDefaultTemplate w' = (Ok (Success t), w').
Proof.
  rewrite setDefaultTemplate_outcome. cbv zeta.
  destruct (((fun x => if Template.isDefault x then Template.clearDefault x else x)
               <$> templates w) !! id) as [y|] eqn:Hy; [|intros [=]].
  intros [= <- <-].
  unfold getDefaultTemplate, Prisma.template_findFirst_default. unfold_M.
  cbn [templates set_templates].
  erewrite (find_row_unique _ _ id (Template.makeDefault y)); [reflexivity| | |].
  - apply lookup_insert_eq.
  - split; reflexivity.
  - intros k' x' Hk' [Hd _].
    destruct (decide (k' = id)) as [|Hne]; [assumption|].
    rewrite lookup_insert_ne in Hk' by congruence.
    apply cleared_not_default in Hk'. congruence.
Qed.

Lemma setDefault_then_getDefault_witness :
  getDefaultTemplate (snd (setDefaultTemplate "t2" twoTemplates))
  = (Ok (Success (Template.makeDefault (socialSquare "t2" false))),
     snd (setDefaultTemplate "t2" twoTemplates)).
Proof.
  apply (setDefault_then_getDefault "t2" twoTemplates). reflexivity.
Defined.

(** X2. [setDefaultTemplate] is not atomic: for an id that is no row it
    fails, but only after clearing the flag everywhere, so the store is left
    without any default and [getDefaultTemplate] finds none. *)
Theorem setDefault_unknown_id_clears_default (id : string) (w : World) :
  templates w !! id = None ->
  exists w',
    setDefaultTemplate id w
    = (Ok (Failure "Record to update not found."), w')
    /\ (forall k x, templates w' !! k = Some x -> Template.isDefault x = false)
    /\ getDefaultTemplate w'
       = (Ok (Failure "No default template found"), w').
Proof.
  intros Hid. rewrite setDefaultTemplate_outcome. cbv zeta.
  rewrite lookup_fmap, Hid. simpl.
  eexists. split; [reflexivity|]. cbn [templates set_templates].
  split; [intros k x; apply cleared_not_default|].
  unfold getDefaultTemplate, Prisma.template_findFirst_default. unfold_M.
  cbn [templates set_templates].
  rewrite (proj2 (find_row_None _ _)); [reflexivity|].
  intros k x Hk [Hd _]. apply cleared_not_default in Hk. congruence.
Qed.

(** [twoTemplates] has the default ["t1"]; asking for the unknown ["zz"]
    loses it. *)
Lemma setDefault_unknown_id_clears_default_witness :
  getDefaultTemplate twoTemplates
  = (Ok (Success (socialSquare "t1" true)), twoTemplates)
  /\ exists w',
       setDefaultTemplate "zz" twoTemplates
       = (Ok (Failure "Record to update not found."), w')
       /\ (forall k x, templates w' !! k = Some x -> Template.isDefault x = false)
       /\ getDefaultTemplate w'
          = (Ok (Failure "No default template found"), w').
Proof.
  split; [reflexivity|].
  apply (setDefault_unknown_id_clears_default "zz" twoTemplates). reflexivity.
Defined.

(** What [toggleTemplateStatus] does, in one equation. *)
Lemma toggleTemplateStatus_outcome (id : string) (w : World) :
  toggleTemplateStatus id w
  = match templates w !! id with
    | Some c =>
        let t := Template.with_isActive (negb (Template.isActive c)) c in
        (Ok (Success t), set_templates (<[id := t]> (templates w)) w)
    | None => (Ok (Failure "Template not found"), w)
    end.
Proof.
  unfold toggleTemplateStatus, Prisma.template_findUnique,
    Prisma.template_update. unfold_M.
  destruct (templates w !! id) as [c|] eqn:Hc; [|reflexivity].
  rewrite Hc. reflexivity.
Qed.

(** X3. [toggleTemplateStatus] answers 'Template not found' for an id that
    is no row and changes nothing; on a row it flips [isActive], keeps the
    row's id, name and [isDefault], and touches no other row and no upload;
    a second toggle puts [isActive] back.  (Prisma rewrites the row's
    [updatedAt] on each of the two updates, so the row as a whole is not
    what it was; the statement is about the columns named.) *)
Theorem toggleTemplateStatus_involution (id : string) (w : World) :
  (templates w !! id = None ->
   toggleTemplateStatus id w = (Ok (Failure "Template not found"), w))
  /\ (forall t, templates w !! id = Some t ->
      exists t1 t2 w1 w2,
        toggleTemplateStatus id w = (Ok (Success t1), w1)
        /\ templates w1 !! id = Some t1
        /\ Template.isActive t1 = negb (Template.isActive t)
        /\ Template.isDefault t1 = Template.isDefault t
        /\ Template.name t1 = Template.name t
        /\ Template.id t1 = Template.id t
        /\ (forall k, k <> id -> templates w1 !! k = templates w !! k)
        /\ uploads w1 = uploads w
        /\ toggleTemplateStatus id w1 = (Ok (Success t2), w2)
        /\ templates w2 !! id = Some t2
        /\ Template.isActive t2 = Template.isActive t
        /\ Template.isDefault t2 = Template.isDefault t
        /\ (forall k, k <> id -> templates w2 !! k = templates w !! k)
        /\ uploads w2 = uploads w).
Proof.
  split.
  - intros Hid. rewrite toggleTemplateStatus_outcome, Hid. reflexivity.
  - intros t Ht. rewrite toggleTemplateStatus_outcome, Ht. cbv zeta.
    eexists _, _, _, _. split; [reflexivity|].
    cbn [templates uploads set_templates].
    split; [apply lookup_insert_eq|].
    split; [reflexivity|]. split; [reflexivity|]. split; [reflexivity|].
    split; [reflexivity|].
    split; [intros k Hk; apply lookup_insert_ne; congruence|].
    split; [reflexivity|].
    rewrite toggleTemplateStatus_outcome. cbn [templates set_templates].
    rewrite lookup_insert_eq. cbv zeta.
    split; [reflexivity|]. cbn [templates uploads set_templates].
    split; [apply lookup_insert_eq|].
    split; [cbn [Template.isActive Template.with_isActive];
            apply negb_involutive|].
    split; [reflexivity|].
    split; [|reflexivity].
    intros k Hk. rewrite !lookup_insert_ne by congruence. reflexivity.
Qed.

Lemma toggleTemplateStatus_involution_witness :
  toggleTemplateStatus "zz" twoTemplates
  = (Ok (Failure "Template not found"), twoTemplates)
  /\ exists t1 t2 w1 w2,
       toggleTemplateStatus "t2" twoTemplates = (Ok (Success t1), w1)
       /\ Template.isActive t1 = false
       /\ (forall k, k <> "t2" -> templates w1 !! k = templates twoTemplates !! k)
       /\ toggleTemplateStatus "t2" w1 = (Ok (Success t2), w2)
       /\ Template.isActive t2 = true
       /\ (forall k, k <> "t2" -> templates w2 !! k = templates twoTemplates !! k).
Proof.
  destruct (toggleTemplateStatus_involution "t2" twoTemplates) as [_ H2].
  destruct (toggleTemplateStatus_involution "zz" twoTemplates) as [H1 _].
  split; [apply H1; reflexivity|].
  destruct (H2 (socialSquare "t2" false) eq_refl)
    as (t1 & t2 & w1 & w2 & Ha & _ & Hb & _ & _ & _ & Hc & _ & Hd & _ & He
        & _ & Hf & _).
  exists t1, t2, w1, w2. auto 10.
Defined.

(** X4. Deactivating the default template through [toggleTemplateStatus]
    keeps its [isDefault] flag but hides it: when it was the only default,
    [getDefaultTemplate] found it before and finds no default afterwards. *)
Theorem toggle_hides_default (id : string) (w : World) (t : Template.t) :
  templates w !! id = Some t ->
  Template.isDefault t = true -> Template.isActive t = true ->
  (forall k x, templates w !! k = Some x -> Template.isDefault x = true -> k = id) ->
  getDefaultTemplate w = (Ok (Success t), w)
  /\ exists t1 w1,
       toggleTemplateStatus id w = (Ok (Success t1), w1)
       /\ templates w1 !! id = Some t1
       /\ Template.isDefault t1 = true /\ Template.isActive t1 = false
       /\ getDefaultTemplate w1 = (Ok (Failure "No default template found"), w1).
Proof.
  intros Ht Hd Ha Honly. split.
  - unfold getDefaultTemplate, Prisma.template_findFirst_default. unfold_M.
    erewrite (find_row_unique _ _ id t); [reflexivity|exact Ht|auto|].
    intros k' x' Hk' [Hd' _]. eauto.
  - rewrite toggleTemplateStatus_outcome, Ht. cbv zeta.
    eexists _, _. split; [reflexivity|]. cbn [templates set_templates].
    split; [apply lookup_insert_eq|].
    split; [exact Hd|]. split; [simpl; rewrite Ha; reflexivity|].
    unfold getDefaultTemplate, Prisma.template_findFirst_default. unfold_M.
    cbn [templates set_templates].
    rewrite (proj2 (find_row_None _ _)); [reflexivity|].
    intros k x Hk [Hdx Hax].
    destruct (decide (k = id)) as [->|Hne].
    + rewrite lookup_insert_eq in Hk. injection Hk as <-.
      simpl in Hax. rewrite Ha in Hax. discriminate.
    + rewrite lookup_insert_ne in Hk by congruence.
      apply Hne. eauto.
Qed.

Lemma toggle_hides_default_witness :
  getDefaultTemplate twoTemplates
  = (Ok (Success (socialSquare "t1" true)), twoTemplates)
  /\ exists t1 w1,
       toggleTemplateStatus "t1" twoTemplates = (Ok (Success t1), w1)
       /\ templates w1 !! "t1" = Some t1
       /\ Template.isDefault t1 = true /\ Template.isActive t1 = false
       /\ getDefaultTemplate w1 = (Ok (Failure "No default template found"), w1).
Proof.
  apply (toggle_hides_default "t1" twoTemplates (socialSquare "t1" true));
    try reflexivity.
  intros k x Hk Hd.
  destruct (decide (k = "t1")) as [|Hne]; [assumption|].
  unfold twoTemplates in Hk. cbn [templates set_templates emptyWorld] in Hk.
  rewrite lookup_insert_ne in Hk by congruence.
  destruct (decide (k = "t2")) as [->|Hne2].
  - rewrite lookup_insert_eq in Hk. injection Hk as <-. discriminate Hd.
  - rewrite lookup_insert_ne, lookup_empty in Hk by congruence. discriminate.
Defined.

Lemma name_taken_false (n : string) (m : gmap string Template.t) :
  Prisma.name_taken n m = false <->
  forall k x, m !! k = Some x -> Template.name x <> n.
Proof.
  unfold Prisma.name_taken. rewrite bool_decide_eq_false, map_Exists_lookup.
  split.
  - intros Hn k x Hk Hx. apply Hn. eauto.
  - intros Hn (k & x & Hk & Hx). exact (Hn k x Hk Hx).
Qed.

(** X5. [duplicateTemplate]: an unknown original gives 'Original template
    not found' and a taken name gives a failure, both without any change;
    otherwise the copy is stored under a new id with the new name, active
    and never the default, with the original's settings, and the original
    row stays as it was. *)
Theorem duplicateTemplate_copy (newId : gmap string Template.t -> string)
    (id newName : string) (w : World) :
  (templates w !! id = None ->
   duplicateTemplate newId id newName w
   = (Ok (Failure "Original template not found"), w))
  /\ (forall t, templates w !! id = Some t ->
      templates w !! newId (templates w) = None ->
      Prisma.name_taken newName (templates w) = true ->
      duplicateTemplate newId id newName w
      = (Ok (Failure "Unique constraint failed on the fields: (`name`)"), w))
  /\ (forall t, templates w !! id = Some t ->
      templates w !! newId (templates w) = None ->
      Prisma.name_taken newName (templates w) = false ->
      let d := Template.duplicate (newId (templates w)) newName t in
      exists w',
        duplicateTemplate newId id newName w = (Ok (Success d), w')
        /\ templates w' = <[newId (templates w) := d]> (templates w)
        /\ templates w' !! id = Some t
        /\ Template.isDefault d = false /\ Template.isActive d = true
        /\ Template.name d = newName).
Proof.
  unfold duplicateTemplate, Prisma.template_findUnique, Prisma.template_create.
  unfold_M. split; [|split].
  - intros ->. reflexivity.
  - intros t -> -> Htaken. cbn [Template.name Template.duplicate].
    rewrite Htaken. reflexivity.
  - intros t Ht Hfresh Hfree. rewrite Ht, Hfresh.
    cbn [Template.name Template.duplicate]. rewrite Hfree.
    eexists. split; [reflexivity|]. cbn [templates set_templates].
    split; [reflexivity|].
    split.
    { rewrite lookup_insert_ne; [exact Ht|]. intros Heq.
      rewrite Heq in Hfresh. congruence. }
    repeat split; reflexivity.
Qed.

(** Copying the default ["t1"] of [twoTemplates] as ["Square copy"] under
    the new id ["t9"]. *)
Lemma duplicateTemplate_copy_witness :
  exists w',
    duplicateTemplate (nextId "t9") "t1" "Square copy" twoTemplates
    = (Ok (Success (Template.duplicate "t9" "Square copy"
                      (socialSquare "t1" true))), w')
    /\ templates w' !! "t1" = Some (socialSquare "t1" true)
    /\ (Template.isDefault <$> templates w' !! "t9") = Some false.
Proof.
  destruct (duplicateTemplate_copy (nextId "t9") "t1" "Square copy" twoTemplates)
    as (_ & _ & H).
  destruct (H (socialSquare "t1" true) eq_refl eq_refl eq_refl)
    as (w' & Hrun & Hm & Horig & _).
  exists w'. split; [exact Hrun|]. split; [exact Horig|].
  rewrite Hm. reflexivity.
Defined.

(** X6. [createTemplate] and the two lookups round-trip: a row created
    under a free id with a free name is returned by [getTemplateById] of its
    id and by [getTemplateByName] of its name, and the other rows are as
    before; with a taken name nothing is created. *)
Theorem createTemplate_round_trip (newId : gmap string Template.t -> string)
    (data : string -> Template.t) (w : World) :
  let id := newId (templates w) in
  let x := data id in
  templates w !! id = None ->
  (Prisma.name_taken (Template.name x) (templates w) = true ->
   createTemplate newId data w
   = (Ok (Failure "Unique constraint failed on the fields: (`name`)"), w))
  /\ (Prisma.name_taken (Template.name x) (templates w) = false ->
      exists w',
        createTemplate newId data w = (Ok (Success x), w')
        /\ getTemplateById id w' = (Ok (Success x), w')
        /\ getTemplateByName (Template.name x) w' = (Ok (Success x), w')
        /\ forall k, k <> id -> templates w' !! k = templates w !! k).
Proof.
  intros id x Hfresh.
  unfold createTemplate, Prisma.template_create. unfold_M.
  fold id. fold x. rewrite Hfresh. split.
  - intros ->. reflexivity.
  - intros Hfree. rewrite Hfree. eexists. split; [reflexivity|].
    unfold getTemplateById, getTemplateByName, Prisma.template_findUnique,
      Prisma.template_findUnique_name. unfold_M.
    cbn [templates set_templates]. rewrite lookup_insert_eq.
    split; [reflexivity|]. split.
    + erewrite (find_row_unique _ _ id x); [reflexivity| |reflexivity|].
      * apply lookup_insert_eq.
      * intros k' x' Hk' Hn.
        destruct (decide (k' = id)) as [|Hne]; [assumption|].
        rewrite lookup_insert_ne in Hk' by congruence.
        destruct (proj1 (name_taken_false _ _) Hfree k' x' Hk' Hn).
    + intros k Hk. apply lookup_insert_ne. congruence.
Qed.

Lemma createTemplate_round_trip_witness :
  exists w',
    createTemplate (nextId "t3") (fun _ => cropTemplate) twoTemplates
    = (Ok (Success cropTemplate), w')
    /\ getTemplateById "t3" w' = (Ok (Success cropTemplate), w')
    /\ getTemplateByName "Crop" w' = (Ok (Success cropTemplate), w')
    /\ forall k, k <> "t3" -> templates w' !! k = templates twoTemplates !! k.
Proof.
  apply (createTemplate_round_trip (nextId "t3") (fun _ => cropTemplate)
           twoTemplates eq_refl).
  reflexivity.
Defined.

Lemma no_uploads_detach (id : string) (w : World) :
  uploads_of id w = 0%nat -> Prisma.detach id <$> uploads w = uploads w.
Proof.
  unfold uploads_of. intros Hn. apply map_size_empty_inv in Hn.
  apply map_eq. intros k. rewrite lookup_fmap.
  destruct (uploads w !! k) as [u|] eqn:Hu; [|reflexivity]. simpl. f_equal.
  unfold Prisma.detach. destruct (decide (Upload.templateId u = Some id)) as [Ht|];
    [|reflexivity].
  assert (filter (fun ku : string * Upload.t => Upload.templateId ku.2 = Some id)
            (uploads w) !! k = Some u) as Hf
    by (apply map_lookup_filter_Some; auto).
  rewrite Hn, lookup_empty in Hf. discriminate.
Qed.

(** X7. [deleteTemplate] of a template no upload references: for an id that
    is no row it fails and changes nothing; for a row it succeeds, removes
    that row only, leaves the uploads as they were, and [getTemplateById]
    of the id then answers 'Template not found'. *)
Theorem deleteTemplate_removes_row (id : string) (w : World) :
  uploads_of id w = 0%nat ->
  (templates w !! id = None ->
   deleteTemplate id w = (Ok (Failure "Record to delete does not exist."), w))
  /\ (is_Some (templates w !! id) ->
      exists w',
        deleteTemplate id w = (Ok (Success "Template deleted successfully"), w')
        /\ templates w' = delete id (templates w)
        /\ uploads w' = uploads w
        /\ getTemplateById id w' = (Ok (Failure "Template not found"), w')).
Proof.
  intros Hn.
  unfold deleteTemplate, Prisma.upload_count, Prisma.template_delete. unfold_M.
  fold (uploads_of id w). rewrite Hn. simpl. split.
  - intros ->. reflexivity.
  - intros [x ->]. eexists. split; [reflexivity|].
    cbn [templates uploads set_templates set_uploads].
    split; [reflexivity|]. split; [apply no_uploads_detach; exact Hn|].
    unfold getTemplateById, Prisma.template_findUnique. unfold_M.
    cbn [templates set_templates set_uploads]. rewrite lookup_delete_eq.
    reflexivity.
Qed.

(** Template ["t1"] of [usedTemplate] has no uploads and goes; the uploads
    made through ["t2"] stay. *)
Lemma deleteTemplate_removes_row_witness :
  exists w',
    deleteTemplate "t1" usedTemplate
    = (Ok (Success "Template deleted successfully"), w')
    /\ templates w' = delete "t1" (templates usedTemplate)
    /\ uploads w' = uploads usedTemplate
    /\ getTemplateById "t1" w' = (Ok (Failure "Template not found"), w').
Proof.
  destruct (deleteTemplate_removes_row "t1" usedTemplate eq_refl) as [_ H].
  apply H. eexists. reflexivity.
Defined.

Lemma at_most_one_default_insert_plain (m : gmap string Template.t)
    (k : string) (x : Template.t) :
  at_most_one_default m -> Template.isDefault x = false ->
  at_most_one_default (<[k := x]> m).
Proof.
  intros Hm Hx k1 k2 x1 x2 H1 H2 Hd1 Hd2.
  destruct (decide (k1 = k)) as [->|Hn1].
  { rewrite lookup_insert_eq in H1. injection H1 as <-. congruence. }
  destruct (decide (k2 = k)) as [->|Hn2].
  { rewrite lookup_insert_eq in H2. injection H2 as <-. congruence. }
  rewrite lookup_insert_ne in H1, H2 by congruence. eauto.
Qed.

(** X8. "At most one default template" is kept by the mutators that do not
    take a caller's row: [setDefaultTemplate] establishes it whatever the
    table looked like and whether it succeeds or not, and
    [toggleTemplateStatus], [deleteTemplate] and [duplicateTemplate]
    preserve it. *)
Theorem at_most_one_default_kept (newId : gmap string Template.t -> string)
    (id newName : string) (w : World) :
  at_most_one_default (templates (snd (setDefaultTemplate id w)))
  /\ (at_most_one_default (templates w) ->
      at_most_one_default (templates (snd (toggleTemplateStatus id w)))
      /\ at_most_one_default (templates (snd (deleteTemplate id w)))
      /\ at_most_one_default
           (templates (snd (duplicateTemplate newId id newName w)))).
Proof.
  split.
  - rewrite setDefaultTemplate_outcome. cbv zeta.
    assert (at_most_one_default
              ((fun x => if Template.isDefault x then Template.clearDefault x else x)
                 <$> templates w)) as Hclr.
    { intros k1 k2 x1 x2 H1 _ Hd1 _. apply cleared_not_default in H1. congruence. }
    destruct (((fun x => if Template.isDefault x then Template.clearDefault x else x)
                 <$> templates w) !! id) as [y|] eqn:Hy;
      cbn [snd templates set_templates]; [|exact Hclr].
    intros k1 k2 x1 x2 H1 H2 Hd1 Hd2.
    destruct (decide (k1 = id)) as [->|Hn1]; destruct (decide (k2 = id)) as [->|Hn2];
      try reflexivity.
    + rewrite lookup_insert_ne in H2 by congruence.
      apply cleared_not_default in H2. congruence.
    + rewrite lookup_insert_ne in H1 by congruence.
      apply cleared_not_default in H1. congruence.
    + rewrite lookup_insert_ne in H1 by congruence.
      apply cleared_not_default in H1. congruence.
  - intros Hm. split; [|split].
    + rewrite toggleTemplateStatus_outcome.
      destruct (templates w !! id) as [c|] eqn:Hc; cbn [snd templates set_templates];
        [|exact Hm].
      intros k1 k2 x1 x2 H1 H2 Hd1 Hd2.
      assert (forall k x, <[id := Template.with_isActive (negb (Template.isActive c)) c]>
                            (templates w) !! k = Some x ->
                          Template.isDefault x = true ->
                          exists x', templates w !! k = Some x'
                                     /\ Template.isDefault x' = true) as Hback.
      { intros k x Hk Hd. destruct (decide (k = id)) as [->|Hne].
        - rewrite lookup_insert_eq in Hk. injection Hk as <-. eauto.
        - rewrite lookup_insert_ne in Hk by congruence. eauto. }
      destruct (Hback k1 x1 H1 Hd1) as (y1 & Hy1 & Hdy1).
      destruct (Hback k2 x2 H2 Hd2) as (y2 & Hy2 & Hdy2).
      exact (Hm k1 k2 y1 y2 Hy1 Hy2 Hdy1 Hdy2).
    + unfold deleteTemplate, Prisma.upload_count, Prisma.template_delete. unfold_M.
      destruct (0 <? _)%nat; cbn [snd]; [exact Hm|].
      destruct (templates w !! id); cbn [snd templates set_templates set_uploads];
        [|exact Hm].
      intros k1 k2 x1 x2 H1 H2.
      apply lookup_delete_Some in H1, H2. destruct H1 as [_ H1], H2 as [_ H2].
      exact (Hm k1 k2 x1 x2 H1 H2).
    + unfold duplicateTemplate, Prisma.template_findUnique,
        Prisma.template_create. unfold_M.
      destruct (templates w !! id) as [t|]; cbn [snd]; [|exact Hm].
      destruct (templates w !! newId (templates w)); cbn [snd]; [exact Hm|].
      destruct (Prisma.name_taken _ _); cbn [snd templates set_templates];
        [exact Hm|].
      apply at_most_one_default_insert_plain; [exact Hm | reflexivity].
Qed.

Lemma at_most_one_default_kept_witness :
  at_most_one_default
    (templates (snd (toggleTemplateStatus "t1" twoTemplates)))
  /\ at_most_one_default (templates (snd (deleteTemplate "t1" twoTemplates)))
  /\ at_most_one_default
       (templates
          (snd (duplicateTemplate (fun _ => "t9") "t1" "Copy" twoTemplates))).
Proof.
  apply (at_most_one_default_kept (fun _ => "t9") "t1" "Copy" twoTemplates).
  intros k1 k2 x1 x2 H1 H2 Hd1 Hd2. simpl in H1, H2.
  assert (forall k x,
            (<["t1" := socialSquare "t1" true]>
               (<["t2" := socialSquare "t2" false]> ∅) : gmap string Template.t)
              !! k = Some x ->
            Template.isDefault x = true -> k = "t1") as Hone.
  { intros k x Hk Hd.
    destruct (decide (k = "t1")) as [->|Hn1]; [reflexivity|].
    rewrite lookup_insert_ne in Hk by congruence.
    destruct (decide (k = "t2")) as [->|Hn2].
    - rewrite lookup_insert_eq in Hk. injection Hk as <-. discriminate.
    - rewrite lookup_insert_ne in Hk by congruence.
      rewrite lookup_empty in Hk. discriminate. }
  rewrite (Hone k1 x1 H1 Hd1), (Hone k2 x2 H2 Hd2). reflexivity.
Defined.

End TemplateStore.

(** ** ImageProcessingService: the stages one by one *)

Section Stages.
Import ImageProcessingService.


(** X10. [applyOutputOptions], when sharp accepts the parameters, queues
    the encoder last (after [withMetadata] when [stripMetadata] is set) with
    the template's quality; the encoder is PNG, WebP or AVIF exactly when
    the format reads so in lower case, and JPEG for everything else, the
    formats 'tiff' and 'gif' of [getSupportedFormats] included. *)
Theorem applyOutputOptions_encoder (env : Env) (image : Image)
    (t : Template.t) (w : World) :
  (forall op, sharp_validate env op = None) ->
  exists e,
    applyOutputOptions env image t w
    = (Ok (mkImage (input image)
             (ops image
              ++ (if Template.stripMetadata t then [OpWithMetadata] else [])
              ++ [e])%list), w)
    /\ encoder_quality e = Some (Template.quality t)
    /\ (is_jpeg e = false
        <-> In (toLowerCase (Template.format t)) ["png"; "webp"; "avif"])
    /\ (In (Template.format t) getSupportedFormats ->
        In (Template.format t) ["tiff"; "gif"] ->
        e = OpJpeg (Template.quality t) (Template.progressive t) None false).
Proof.
  intros Hv. unfold applyOutputOptions, chain. unfold_M.
  destruct image as [src l]. cbn [input ops].
  assert (forall f : string, In f ["tiff"; "gif"] ->
            toLowerCase f = f /\ (f =? "jpeg") = false /\ (f =? "jpg") = false
            /\ (f =? "png") = false /\ (f =? "webp") = false
            /\ (f =? "avif") = false) as Hother.
  { intros f [<-|[<-|[]]]; repeat split; reflexivity. }
  destruct (Template.stripMetadata t); rewrite ?Hv; cbn [ops input];
    (destruct (toLowerCase (Template.format t) =? "jpeg") eqn:E1;
     [|destruct (toLowerCase (Template.format t) =? "jpg") eqn:E2;
       [|destruct (toLowerCase (Template.format t) =? "png") eqn:E3;
         [|destruct (toLowerCase (Template.format t) =? "webp") eqn:E4;
           [|destruct (toLowerCase (Template.format t) =? "avif") eqn:E5]]]]);
    cbn [orb]; rewrite ?Hv; eexists;
    (split; [rewrite <- ?app_assoc; reflexivity|]);
    (split; [reflexivity|]);
    rewrite ?String.eqb_eq, ?String.eqb_neq in *;
    (split; [split; [intros Hj; try discriminate Hj; simpl; auto
                    |intros [Hf|[Hf|[Hf|[]]]]; try reflexivity; congruence]
            |intros _ Hin; destruct (Hother _ Hin) as (Hl & H1 & H2 & H3 & H4 & H5);
             rewrite ?String.eqb_neq in *; try reflexivity; congruence]).
Qed.

Lemma applyOutputOptions_encoder_witness :
  exists e,
    applyOutputOptions (sampleEnv cloudOk) (sharp "in.jpg") fullTemplate emptyWorld
    = (Ok (mkImage (FromPath "in.jpg") [OpWithMetadata; e]), emptyWorld)
    /\ encoder_quality e = Some 90%Z
    /\ is_jpeg e = false.
Proof.
  destruct (applyOutputOptions_encoder (sampleEnv cloudOk) (sharp "in.jpg")
              fullTemplate emptyWorld (fun _ => eq_refl))
    as (e & Hrun & Hq & Hj & _).
  exists e. split; [exact Hrun|]. split; [exact Hq|].
  apply Hj. left. reflexivity.
Defined.

(** X11. [applyWatermark] hands the image back untouched, without reading
    it, when the watermark is disabled or its text is [null] or empty.
    When its [try] block completes, exactly one text overlay is queued: it
    covers the image as [metadata()] reports it and carries the template's
    text; an opacity that is [null] or 0 becomes 0.5 and a size that is
    [null] or 0 becomes 5% of the longer side, so an opacity of 0 cannot be
    asked for. *)
Theorem applyWatermark_overlay (env : Env) (image : Image) (t : Template.t)
    (w : World) :
  (Template.watermarkEnabled t = false
   \/ Template.watermarkText t = None \/ Template.watermarkText t = Some "" ->
   applyWatermark env image t w = (Ok image, w))
  /\ (forall result w', watermarkBody env image t w = (Ok result, w') ->
      exists md svg,
        metadata image w = (Ok md, w)
        /\ input result = input image
        /\ ops result = (ops image ++ [OpComposite [OverlayText svg]])%list
        /\ t_width svg = m_width md /\ t_height svg = m_height md
        /\ t_text svg = default "" (Template.watermarkText t)
        /\ (forall q, Template.watermarkOpacity t = Some q -> ~ q == 0 ->
            fill_opacity svg = q)
        /\ (Template.watermarkOpacity t = None
            \/ (exists q, Template.watermarkOpacity t = Some q /\ q == 0) ->
            fill_opacity svg = (5 # 10)%Q)
        /\ (forall z, Template.watermarkSize t = Some z -> z <> 0%Z ->
            font_size svg = inject_Z z)
        /\ (Template.watermarkSize t = None \/ Template.watermarkSize t = Some 0%Z ->
            font_size svg
            = (inject_Z (Z.max (m_width md) (m_height md)) * (5 # 100))%Q)).
Proof.
  split.
  - unfold applyWatermark.
    intros [-> | [-> | ->]]; [reflexivity| |];
      destruct (Template.watermarkEnabled t); reflexivity.
  - intros result w'. unfold watermarkBody, chain. unfold_M.
    destruct (metadata image w) as [[md|e] w1] eqn:Hmd; [|intros [=]].
    pose proof (metadata_world _ _ _ _ Hmd) as ->.
    match goal with
    | |- context [sharp_validate env ?op] => destruct (sharp_validate env op)
    end; [intros [=]|].
    intros [= <- <-]. exists md. eexists.
    split; [reflexivity|]. split; [reflexivity|]. split; [reflexivity|].
    cbn [t_width t_height t_text fill_opacity font_size].
    split; [reflexivity|]. split; [reflexivity|].
    split; [reflexivity|].
    split.
    { intros q Hq Hnz. rewrite Hq. unfold truthyQ.
      destruct (Qeq_bool q 0) eqn:E; [|reflexivity].
      apply Qeq_bool_eq in E. contradiction. }
    split.
    { intros [->|(q & -> & Hz)]; [reflexivity|]. unfold truthyQ.
      destruct (Qeq_bool q 0) eqn:E; [reflexivity|].
      apply Qeq_bool_neq in E. contradiction. }
    split.
    { intros z Hz Hnz. rewrite Hz. unfold truthyZ.
      destruct (Z.eqb_spec z 0); [contradiction | reflexivity]. }
    intros [-> | ->]; reflexivity.
Qed.

(** On [ghostTemplate], which asks for opacity 0, the overlay is drawn at
    opacity 0.5 with a font of 5% of 500. *)
Lemma applyWatermark_overlay_witness :
  exists result svg,
    applyWatermark (sampleEnv cloudOk) (sharp "processed/p.png") ghostTemplate
      squareWorld = (Ok result, squareWorld)
    /\ ops result = [OpComposite [OverlayText svg]]
    /\ fill_opacity svg = (5 # 10)%Q
    /\ font_size svg = (inject_Z 500 * (5 # 100))%Q.
Proof.
  destruct (proj2 (applyWatermark_overlay (sampleEnv cloudOk)
                     (sharp "processed/p.png") ghostTemplate squareWorld)
              _ _ eq_refl)
    as (md & svg & Hmd & _ & Hops & _ & _ & _ & _ & Hop & _ & Hsz).
  injection Hmd as <-.
  eexists _, svg. split; [reflexivity|]. split; [exact Hops|].
  split.
  - apply Hop. right. exists 0%Q. split; reflexivity.
  - apply Hsz. left. reflexivity.
Defined.

(** X12. [getWatermarkPosition] for the five anchors: with a font size [f]
    that is not negative, at most twice the width and at most two thirds of
    the height, the anchor point lies within the image. *)
Theorem getWatermarkPosition_inside (position : string) (width height : Z)
    (fontSize : Q) :
  In position watermarkPositions ->
  (0 <= fontSize)%Q ->
  (fontSize * (5 # 10) <= inject_Z width)%Q ->
  (fontSize * (15 # 10) <= inject_Z height)%Q ->
  let p := getWatermarkPosition position width height fontSize in
  (0 <= pos_x p)%Q /\ (pos_x p <= inject_Z width)%Q
  /\ (0 <= pos_y p)%Q /\ (pos_y p <= inject_Z height)%Q.
Proof.
  intros Hin Hf Hw Hh.
  unfold watermarkPositions in Hin. simpl in Hin.
  destruct Hin as [<-|[<-|[<-|[<-|[<-|[]]]]]]; cbv zeta;
    unfold getWatermarkPosition; cbn [String.eqb Ascii.eqb Bool.eqb pos_x pos_y];
    repeat split; try lra.
  all: assert (forall x : Q, x / 2 == x * (1 # 2))%Q as Hhalf
         by (intros x; field).
  all: rewrite Hhalf; lra.
Qed.

(** With the default font size on an 800x600 image, 5% of 800, the
    top-left anchor is at (20, 60). *)
Lemma getWatermarkPosition_inside_witness :
  let p := getWatermarkPosition "top-left" 800 600 (40 # 1) in
  (0 <= pos_x p)%Q /\ (pos_x p <= inject_Z 800)%Q
  /\ (0 <= pos_y p)%Q /\ (pos_y p <= inject_Z 600)%Q.
Proof.
  apply (getWatermarkPosition_inside "top-left" 800 600 (40 # 1)).
  - left. reflexivity.
  - unfold Qle; simpl; lia.
  - unfold Qle; simpl; lia.
  - unfold Qle; simpl; lia.
Defined.

(** X13. The frame [applyBox] draws, for a padding, border width and shadow
    blur that are not negative: the box rectangle sits centred in the canvas
    with the shadow margin on each side, and the image the stage rendered is
    put at border plus padding from the left and from the top of the
    rectangle.  The room left at its right and at its bottom is border plus
    padding plus what the size [metadata()] reports exceeds the size of the
    rendered image: the image is centred in the rectangle exactly when the
    two sizes agree, which they need not once a resize is queued.  The
    drop-shadow filter is there exactly when the shadow is enabled. *)
Theorem applyBox_layout (env : Env) (image : Image) (t : Template.t)
    (w w' : World) (result : Image) :
  (0 <= numZ (Template.boxPadding t))%Z ->
  (0 <= numZ (Template.boxBorderWidth t))%Z ->
  (0 <= numZ (Template.boxShadowBlur t))%Z ->
  boxBody env image t w = (Ok result, w') ->
  exists md svg buf left top,
    metadata image w = (Ok md, w)
    /\ toBuffer env image w = (Ok buf, w)
    /\ input result = FromSvg svg
    /\ ops result = [OpComposite [OverlayImage buf left top]]
    /\ left = top
    /\ (0 <= rect_x svg /\ rect_x svg = rect_y svg)%Z
    /\ (svg_width svg = rect_x svg + rect_width svg + rect_x svg)%Z
    /\ (svg_height svg = rect_y svg + rect_height svg + rect_y svg)%Z
    /\ (left - rect_x svg
        = numZ (Template.boxBorderWidth t) + numZ (Template.boxPadding t))%Z
    /\ (forall bm, blob_meta buf = Some bm ->
        (rect_x svg + rect_width svg - (left + m_width bm)
         = left - rect_x svg + (m_width md - m_width bm))%Z
        /\ (rect_y svg + rect_height svg - (top + m_height bm)
            = top - rect_y svg + (m_height md - m_height bm))%Z
        /\ ((left - rect_x svg
             = rect_x svg + rect_width svg - (left + m_width bm))%Z
            <-> m_width bm = m_width md)
        /\ ((top - rect_y svg
             = rect_y svg + rect_height svg - (top + m_height bm))%Z
            <-> m_height bm = m_height md))
    /\ (shadowFilter svg = None <-> Template.boxShadowEnabled t = false).
Proof.
  intros Hp Hb Hs.
  unfold boxBody, toBuffer, chain. unfold_M.
  destruct (metadata image w) as [[md|e] w1] eqn:Hmd; [|intros [=]].
  pose proof (metadata_world _ _ _ _ Hmd) as ->.
  destruct (sharp_render env (fs w) image) as [buf|e]; [|intros [=]].
  match goal with
  | |- context [sharp_validate env ?op] => destruct (sharp_validate env op)
  end; [intros [=]|].
  intros [= <- <-]. exists md. eexists. exists buf. eexists _, _.
  split; [reflexivity|]. split; [reflexivity|]. split; [reflexivity|].
  split; [reflexivity|].
  unfold createBoxSvg; cbn.
  destruct (Template.boxShadowEnabled t); repeat split; intros; try lia;
    try discriminate; auto.
Qed.

(** The unprocessed 500x500 picture of [squareWorld] sits centred, 20 from
    each side of the rectangle. *)
Lemma applyBox_layout_witness :
  exists svg buf bm,
    input framedSquare = FromSvg svg
    /\ ops framedSquare = [OpComposite [OverlayImage buf 35 35]]
    /\ blob_meta buf = Some bm
    /\ rect_x svg = 15%Z /\ rect_width svg = 540%Z /\ svg_width svg = 570%Z
    /\ (35 - rect_x svg = 20)%Z
    /\ (rect_x svg + rect_width svg - (35 + m_width bm) = 20)%Z.
Proof.
  destruct (applyBox_layout (sampleEnv cloudOk) (sharp "processed/p.png")
              fullTemplate squareWorld squareWorld framedSquare)
    as (md & svg & buf & left & top & Hmd & Hbuf & Hin & Hops & _);
    try reflexivity; try (simpl; lia).
  injection Hin as <-. injection Hops as <- <- <-.
  eexists _, _, _. repeat split.
Defined.

(** With the resize to 500x500 queued on the 800x600 file, the picture
    sits 20 from the left of the rectangle and 320 from its right. *)
Example applyBox_layout_resized :
  exists svg buf bm,
    input framedResized = FromSvg svg
    /\ ops framedResized = [OpComposite [OverlayImage buf 35 35]]
    /\ blob_meta buf = Some bm
    /\ (35 - rect_x svg = 20)%Z
    /\ (rect_x svg + rect_width svg - (35 + m_width bm) = 320)%Z.
Proof. eexists _, _, _. repeat split. Qed.

(** X14. [processImage] changes the file system at [outputPath] only: every
    other file is as before, nothing is ever removed, and after a success
    the output file is there. *)
Theorem processImage_writes_output_only (env : Env) (inputPath : string)
    (template : Template.t) (outputPath : string) (w : World) :
  exists r w',
    processImage env inputPath template outputPath w = (Ok r, w')
    /\ (forall p, p <> outputPath -> fs w' !! p = fs w !! p)
    /\ (is_Some (fs w !! outputPath) -> is_Some (fs w' !! outputPath))
    /\ (forall d, r = Success d -> is_Some (fs w' !! outputPath))
    /\ (written w' = written w -> fs w' = fs w).
Proof.
  unfold processImage.
  unfold try_catch at 1. unfold bind at 1. unfold metadata at 1. simpl.
  destruct (fs w !! inputPath) as [b_in|];
    [|unfold ret; eexists _, _; split; [reflexivity|];
      repeat split; auto; intros; discriminate].
  destruct (blob_meta b_in) as [m_in|];
    [|unfold ret; eexists _, _; split; [reflexivity|];
      repeat split; auto; intros; discriminate].
  unfold bind at 1.
  destruct (applyDimensions_spec env (sharp inputPath) template m_in w)
    as (r & -> & _).
  destruct r as [image|e];
    [|unfold ret; eexists _, _; split; [reflexivity|];
      repeat split; auto; intros; discriminate].
  unfold bind at 1. unfold toFile.
  assert (forall l (x : Image * string), (l ++ [x])%list = l -> False) as Happ.
  { intros l x H. apply (f_equal (@length _)) in H.
    rewrite length_app in H. simpl in H. lia. }
  destruct (sharp_render env (fs w) image) as [b_out|e].
  2: { unfold ret; simpl; eexists _, _; split; [reflexivity|]. simpl.
       repeat split; auto; intros; try discriminate. }
  unfold bind at 1, metadata at 1. simpl. rewrite lookup_insert_eq.
  destruct (blob_meta b_out) as [m_out|].
  2: { unfold ret; simpl; eexists _, _; split; [reflexivity|]. simpl.
       repeat split; intros; try discriminate; try (eapply Happ; eassumption).
       - apply lookup_insert_ne. congruence.
       - rewrite lookup_insert_eq. eauto.
       - destruct (Happ _ _ H). }
  unfold bind at 1, stat_size. simpl. rewrite lookup_insert_eq.
  unfold ret. eexists _, _. split; [reflexivity|]. simpl.
  repeat split; intros.
  - apply lookup_insert_ne. congruence.
  - rewrite lookup_insert_eq. eauto.
  - rewrite lookup_insert_eq. eauto.
  - destruct (Happ _ _ H).
Qed.

End Stages.

(** ** UploadController: files, storage calls and responses *)

Section UploadFiles.
Import UploadController.

Lemma deleteFile_fs (env : Env) (p : string) (w w' : World) (r : Res bool) :
  FileUtils.deleteFile env p w = (r, w') ->
  (can_unlink env p -> fs w' !! p = None)
  /\ (forall q, fs w !! q = None -> fs w' !! q = None)
  /\ uploads w' = uploads w /\ upload_log w' = upload_log w
  /\ stored w' = stored w.
Proof.
  unfold FileUtils.deleteFile.
  destruct (fs w !! p) eqn:Hp.
  - destruct (unlink_ok env (fs w) p) eqn:Hok; intros [= <- <-]; simpl.
    + split; [intros _; apply lookup_delete_eq|]. split; [|auto].
      intros q Hq. apply lookup_delete_None. auto.
    + split; [intros Hc; rewrite Hc in Hok; discriminate | auto].
  - intros [= <- <-]. auto.
Qed.

(** Everything [storeAndComplete] does for a row that stands at [u]: one
    storage call, the staged and the processed file removed where unlink
    goes through, and the row completed exactly when Cloudinary answers
    with success. *)
Lemma storeAndComplete_spec (env : Env) (f : MulterFile.t) (u0 u : Upload.t)
    (p : option string) (d : option ProcessingData) (w w' : World)
    (r : Res Response) :
  uploads w !! Upload.id u0 = Some u ->
  storeAndComplete env f u0 p d w = (r, w') ->
  let vid := String.prefix "video/" (MulterFile.mimetype f) in
  let sp := default (MulterFile.path f) p in
  stored w' = (stored w ++ [(vid, sp)])%list
  /\ (can_unlink env (MulterFile.path f) -> fs w' !! MulterFile.path f = None)
  /\ (forall p0, p = Some p0 -> can_unlink env p0 -> fs w' !! p0 = None)
  /\ match r with
     | Ok resp =>
         exists cd,
           cloudinary_upload env vid sp (fs w !! sp) = Success cd
           /\ resp = RespSuccess 201
                       (Upload.with_cloudinary (public_id cd) (url cd) u) d
                       "File uploaded and processed successfully"
           /\ upload_log w'
              = (upload_log w
                 ++ [Upload.with_cloudinary (public_id cd) (url cd) u])%list
           /\ uploads w' !! Upload.id u0
              = Some (Upload.with_cloudinary (public_id cd) (url cd) u)
     | Throw e =>
         exists msg,
           cloudinary_upload env vid sp (fs w !! sp) = Failure msg
           /\ e = mkError ("Cloudinary upload failed: " +:+ msg)
           /\ upload_log w' = upload_log w
           /\ uploads w' !! Upload.id u0 = Some u
     end.
Proof.
  intros Hu. cbv zeta. unfold storeAndComplete.
  unfold bind at 1.
  set (vid := String.prefix "video/" (MulterFile.mimetype f)).
  set (sp := default (MulterFile.path f) p).
  set (c := cloudinary_upload env vid sp (fs w !! sp)).
  assert ((if vid then CloudinaryService.uploadVideo env sp
           else CloudinaryService.uploadImage env sp) w
          = (Ok c, log_store vid sp w)) as ->.
  { unfold c. destruct vid; reflexivity. }
  unfold bind at 1.
  destruct (deleteFile_frame env (MulterFile.path f) (log_store vid sp w))
    as (b1 & w1 & Hd1 & _).
  pose proof (deleteFile_fs _ _ _ _ _ Hd1) as (Hf1 & Hk1 & Hu1 & Hl1 & Hs1).
  rewrite Hd1.
  simpl in Hu1, Hl1, Hs1.
  unfold bind at 1.
  assert (exists w2,
    match p with
    | Some p0 => FileUtils.deleteFile env p0;;; ret ()
    | None => ret ()
    end w1 = (Ok tt, w2)
    /\ (can_unlink env (MulterFile.path f) -> fs w2 !! MulterFile.path f = None)
    /\ (forall p0, p = Some p0 -> can_unlink env p0 -> fs w2 !! p0 = None)
    /\ uploads w2 = uploads w1 /\ upload_log w2 = upload_log w1
    /\ stored w2 = stored w1) as (w2 & Hd2 & Hf2 & Hp2 & Hu2 & Hl2 & Hs2).
  { destruct p as [p0|].
    - unfold bind.
      destruct (deleteFile_frame env p0 w1) as (b2 & w2 & Hd2 & _).
      pose proof (deleteFile_fs _ _ _ _ _ Hd2) as (Hf2 & Hk2 & Hu2 & Hl2 & Hs2).
      rewrite Hd2.
      exists w2. unfold ret. split; [reflexivity|].
      split; [auto|]. split; [|auto].
      intros q [= <-]. exact Hf2.
    - exists w1. unfold ret. split; [reflexivity|].
      split; [exact Hf1|]. split; [intros q [=]|auto]. }
  rewrite Hd2; fold c;
    (destruct c as [cd|msg];
     [ unfold bind at 1;
       erewrite upload_update_hit by (rewrite Hu2, Hu1; exact Hu);
       unfold ret; intros [= <- <-]; cbn [stored fs upload_log uploads log_upload set_uploads];
       rewrite Hs2, Hs1, Hl2, Hl1, lookup_insert_eq;
       repeat split; auto; exists cd; auto
     | unfold throw; intros [= <- <-];
       rewrite Hs2, Hs1, Hl2, Hl1, Hu2, Hu1;
       repeat split; auto; exists msg; auto ]).
Qed.

Lemma onError_fs (env : Env) (f : MulterFile.t) (rec : option Upload.t)
    (e : Error) (w w' : World) (r : Res Response) :
  onError env f rec e w = (r, w') ->
  (MulterFile.path f <> "" -> can_unlink env (MulterFile.path f) ->
   fs w' !! MulterFile.path f = None)
  /\ (forall q, fs w !! q = None -> fs w' !! q = None).
Proof.
  unfold onError. unfold bind at 1.
  assert (exists w1,
    match rec with
    | Some uploadRecord =>
        try (Prisma.upload_update (Upload.id uploadRecord)
               (Upload.with_failure (message e));;; ret ())
        catch (fun _ : Error => ret ())
    | None => ret ()
    end w = (Ok tt, w1) /\ fs w1 = fs w) as (w1 & -> & Hfs1).
  { destruct rec as [u|]; [|eexists; split; reflexivity].
    unfold try_catch, bind, Prisma.upload_update, ret.
    destruct (uploads w !! Upload.id u); eexists; split; reflexivity. }
  unfold bind at 1.
  assert (exists w2,
    (if negb (MulterFile.path f =? "")
     then FileUtils.deleteFile env (MulterFile.path f);;; ret ()
     else ret ()) w1 = (Ok tt, w2)
    /\ (MulterFile.path f <> "" -> can_unlink env (MulterFile.path f) ->
        fs w2 !! MulterFile.path f = None)
    /\ (forall q, fs w1 !! q = None -> fs w2 !! q = None))
    as (w2 & -> & Hp2 & Hk2).
  { destruct (String.eqb_spec (MulterFile.path f) "") as [He|Hne]; cbn [negb].
    - exists w1. split; [reflexivity|]. split; [contradiction | auto].
    - unfold bind.
      destruct (deleteFile_frame env (MulterFile.path f) w1) as (b & w2 & Hd & _).
      pose proof (deleteFile_fs _ _ _ _ _ Hd) as (Hf & Hk & _).
      rewrite Hd. exists w2. split; [reflexivity|]. auto. }
  unfold ret. intros [= <- <-].
  split; [exact Hp2|]. intros q Hq. apply Hk2. rewrite Hfs1. exact Hq.
Qed.

Lemma truthyS_Some (v : option string) :
  truthyS v = true -> exists s, v = Some s /\ s <> "".
Proof.
  destruct v as [s|]; simpl; [|discriminate].
  intros H. exists s. split; [reflexivity|]. intros ->. discriminate.
Qed.

(** [processWithTemplate] does something only for a template and an
    image. *)
Lemma processWithTemplate_ran (env : Env) (file : MulterFile.t)
    (u0 : Upload.t) (ot : option Template.t) (w w' : World)
    (r : Res (option string * option ProcessingData)) :
  processWithTemplate env file u0 ot w = (r, w') ->
  (forall d, r <> Ok (None, d)) ->
  exists t, ot = Some t
            /\ String.prefix "image/" (MulterFile.mimetype file) = true.
Proof.
  unfold processWithTemplate.
  destruct ot as [t|];
    [destruct (String.prefix "image/" (MulterFile.mimetype file)) eqn:E|];
    [eauto| |];
    unfold ret; intros [= <- <-] H; destruct (H None eq_refl).
Qed.

Lemma In_cons_snoc {A} (x a b : A) (l : list A) :
  In x (a :: l ++ [b]) -> In x (a :: l) \/ x = b.
Proof.
  change (a :: l ++ [b])%list with ((a :: l) ++ [b])%list.
  intros H. apply in_app_or in H. destruct H as [H|[<-|[]]]; auto.
Qed.

(** One run of [uploadSingle] on a staged file, with everything it leaves
    behind: the files, the rows it logged, the storage call and the
    response. *)
Lemma uploadSingle_outcome (env : Env) (req : Request) (w : World)
    (f : MulterFile.t) :
  file req = Some f ->
  let vid := String.prefix "video/" (MulterFile.mimetype f) in
  exists r w' l,
    uploadSingle env req w = (Ok r, w')
    /\ upload_log w' = (upload_log w ++ l)%list
    /\ (MulterFile.path f <> "" -> can_unlink env (MulterFile.path f) ->
        fs w' !! MulterFile.path f = None)
    /\ (forall u p, In u l -> Upload.processedPath u = Some p ->
        can_unlink env p -> fs w' !! p = None)
    /\ (forall u, In u l -> Upload.status u = processing ->
        processed_request req w)
    /\ (forall u, In u l -> Upload.status u = completed ->
        exists code pd msg, r = RespSuccess code u pd msg)
    /\ match r with
       | RespSuccess code up pd msg =>
           code = 201%Z
           /\ exists sp b cd,
                stored w' = (stored w ++ [(vid, sp)])%list
                /\ cloudinary_upload env vid sp b = Success cd
                /\ Upload.cloudinaryId up = Some (public_id cd)
                /\ Upload.cloudinaryUrl up = Some (url cd)
                /\ Upload.status up = completed
                /\ last (upload_log w') = Some up
                /\ uploads w' !! Upload.id up = Some up
       | RespError code err det =>
           code = 500%Z
           /\ (stored w' = stored w
               \/ exists sp b msg,
                    stored w' = (stored w ++ [(vid, sp)])%list
                    /\ cloudinary_upload env vid sp b = Failure msg
                    /\ det = Some ("Cloudinary upload failed: " +:+ msg))
       end.
Proof.
  intros Hfile. cbv zeta. unfold uploadSingle. rewrite Hfile.
  unfold bind at 1, attempt.
  set (mk0 := fun id : string =>
    Upload.mk id (MulterFile.originalname f) (MulterFile.filename f)
      (MulterFile.path f) (MulterFile.mimetype f) (MulterFile.size f)
      None None None None None None None
      (if truthyS (body_templateId req) then body_templateId req else None)
      pending None).
  assert (forall id, truthyS (body_templateId req) = true ->
                     is_Some (Upload.templateId (mk0 id))) as Htid.
  { intros id Ht. unfold mk0. simpl. rewrite Ht.
    destruct (truthyS_Some _ Ht) as (s & -> & _). eauto. }
  assert (forall id, Upload.id (mk0 id) = id) as Hid by reflexivity.
  destruct (Prisma.upload_create env mk0 w) as [[u0|e] w1] eqn:Hc.
  2: { assert (w1 = w) as ->.
       { revert Hc. unfold Prisma.upload_create.
         repeat match goal with
           | |- context [match ?x with _ => _ end] => destruct x
           end; intros H; simplify_eq; reflexivity. }
       destruct (onError_none env f e w) as (w2 & Hrun & Hdb).
       pose proof (onError_fs _ _ _ _ _ _ _ Hrun) as (Hp & _).
       destruct Hdb as (_ & _ & Hl & Hs).
       rewrite Hrun. eexists _, _, []. split; [reflexivity|].
       rewrite app_nil_r. split; [exact Hl|]. split; [exact Hp|].
       split; [intros u p []|]. split; [intros u []|]. split; [intros u []|].
       split; [reflexivity|]. left. exact Hs. }
  assert (u0 = mk0 (Upload.id u0)
          /\ uploads w1 !! Upload.id u0 = Some u0
          /\ upload_log w1 = (upload_log w ++ [u0])%list
          /\ stored w1 = stored w
          /\ templates w1 = templates w) as (Hu0 & Hl0 & Hlog0 & Hst0 & Htpl).
  { revert Hc. unfold Prisma.upload_create.
    repeat match goal with
      | |- context [match ?x with _ => _ end] => destruct x
      end; intros H; simplify_eq; simpl; rewrite ?Hid, lookup_insert_eq;
      auto 10. }
  assert (Upload.processedPath u0 = None) as Hpp0 by (rewrite Hu0; reflexivity).
  assert (Upload.status u0 = pending) as Hpend by (rewrite Hu0; reflexivity).
  assert (truthyS (body_templateId req) = true ->
          is_Some (Upload.templateId u0)) as Htid0.
  { rewrite Hu0. apply Htid. }
  unfold try_catch, afterCreate. unfold bind at 1.
  destruct (lookupTemplate_spec (body_templateId req) w1) as (rt & Hrt & Hrt').
  rewrite Hrt.
  destruct rt as [ot|e].
  2: { destruct (onError_log env f u0 u0 e w1 Hl0) as (w2 & Hrun & Hl2 & _ & Hs2).
       pose proof (onError_fs _ _ _ _ _ _ _ Hrun) as (Hp & _).
       rewrite Hrun. eexists _, _, [u0; _]. split; [reflexivity|].
       rewrite Hl2, Hlog0, <- app_assoc. split; [reflexivity|].
       split; [exact Hp|]. split.
       { intros u p [<-|[<-|[]]]; simpl; congruence. }
       split. { intros u [<-|[<-|[]]]; simpl; congruence. }
       split. { intros u [<-|[<-|[]]]; simpl; congruence. }
       split; [reflexivity|]. left. congruence. }
  assert (forall t, ot = Some t ->
            String.prefix "image/" (MulterFile.mimetype f) = true ->
            processed_request req w) as Hreq.
  { intros t -> Himg. destruct (Hrt' t eq_refl) as [Htr Hlk].
    destruct (truthyS_Some _ Htr) as (tid & Hb & Hne).
    rewrite Hb in Hlk. simpl in Hlk. rewrite Htpl in Hlk.
    exists f, tid, t. auto. }
  unfold bind at 1.
  destruct (processWithTemplate_log env f u0 ot w1 Hl0)
    as (rp & w2 & l1 & u & Hrp & Hl1 & Hu1 & Hs1 & Hshape).
  { intros [t ->]. apply Htid0. apply (Hrt' t eq_refl). }
  pose proof (processWithTemplate_ran _ _ _ _ _ _ _ Hrp) as Hran.
  rewrite Hrp.
  destruct rp as [[p d]|e].
  2: { unfold processed_shape in Hshape. destruct Hshape as (-> & ->).
       destruct Hran as (t & Hot & Himg); [intros d; discriminate|].
       destruct (onError_log env f u0 _ e w2 Hu1) as (w3 & Hrun & Hl3 & _ & Hs3).
       pose proof (onError_fs _ _ _ _ _ _ _ Hrun) as (Hp & _).
       rewrite Hrun. eexists _, _, [u0; _; _]. split; [reflexivity|].
       rewrite Hl3, Hl1, Hlog0, <- !app_assoc. split; [reflexivity|].
       split; [exact Hp|]. split.
       { intros u p [<-|[<-|[<-|[]]]]; simpl; congruence. }
       split. { intros u _ _. exact (Hreq t Hot Himg). }
       split. { intros u [<-|[<-|[<-|[]]]]; simpl; congruence. }
       split; [reflexivity|]. left. congruence. }
  simpl fst. simpl snd.
  destruct (storeAndComplete env f u0 p d w2) as [rs w3] eqn:Hsc.
  pose proof (storeAndComplete_spec env f u0 u p d w2 w3 rs Hu1 Hsc)
    as (Hst3 & Hfp3 & Hfq3 & Hrs).
  assert (forall x q, In x (u0 :: l1) -> Upload.processedPath x = Some q ->
                      p = Some q) as Hrows.
  { unfold processed_shape in Hshape. cbv zeta in Hshape.
    destruct p as [p0|].
    - destruct Hshape as (_ & a & b & c & d' & -> & ->).
      intros x q [<-|[<-|[<-|[]]]]; simpl; congruence.
    - destruct Hshape as (-> & ->). intros x q [<-|[]]; congruence. }
  assert (forall x, In x (u0 :: l1) -> Upload.status x = processing ->
                    processed_request req w) as Hprows.
  { unfold processed_shape in Hshape. cbv zeta in Hshape.
    destruct p as [p0|].
    - destruct Hran as (t & Hot & Himg); [intros d'; discriminate|].
      intros x _ _. exact (Hreq t Hot Himg).
    - destruct Hshape as (-> & ->). intros x [<-|[]] Hx. congruence. }
  assert (forall x, In x (u0 :: l1) -> Upload.status x <> completed) as Hnc.
  { unfold processed_shape in Hshape. cbv zeta in Hshape.
    destruct p as [p0|].
    - destruct Hshape as (_ & a & b & c & d' & -> & ->).
      intros x [<-|[<-|[<-|[]]]]; simpl; congruence.
    - destruct Hshape as (-> & ->). intros x [<-|[]]; congruence. }
  assert (Upload.processedPath u = None \/ p = Upload.processedPath u) as Hup.
  { unfold processed_shape in Hshape. cbv zeta in Hshape.
    destruct p as [p0|].
    - destruct Hshape as (_ & a & b & c & d' & -> & ->). right. reflexivity.
    - destruct Hshape as (-> & ->). left. exact Hpp0. }
  assert (Upload.id u = Upload.id u0) as Hidu.
  { unfold processed_shape in Hshape. cbv zeta in Hshape.
    destruct p as [p0|].
    - destruct Hshape as (_ & a & b & c & d' & -> & ->). reflexivity.
    - destruct Hshape as (-> & ->). reflexivity. }
  destruct rs as [resp|e].
  - destruct Hrs as (cd & Hcd & -> & Hl3 & Hu3).
    eexists _, _, (u0 :: l1 ++ [_])%list. split; [reflexivity|].
    rewrite Hl3, Hl1, Hlog0, <- !app_assoc. split; [reflexivity|].
    split; [intros _; exact Hfp3|]. split.
    { intros x q Hin Hq. apply Hfq3.
      apply In_cons_snoc in Hin. destruct Hin as [Hin| ->].
      - exact (Hrows x q Hin Hq).
      - simpl in Hq. destruct Hup as [Hn|Hn]; congruence. }
    split.
    { intros x Hin Hx. apply In_cons_snoc in Hin. destruct Hin as [Hin| ->].
      - exact (Hprows x Hin Hx).
      - simpl in Hx. discriminate. }
    split.
    { intros x Hin Hx. apply In_cons_snoc in Hin. destruct Hin as [Hin| ->].
      - destruct (Hnc x Hin Hx).
      - eexists _, _, _. reflexivity. }
    split; [reflexivity|].
    eexists _, _, cd. split; [rewrite Hst3, Hs1, Hst0; reflexivity|].
    split; [exact Hcd|]. split; [reflexivity|]. split; [reflexivity|].
    split; [reflexivity|].
    split.
    { rewrite !app_assoc. apply last_snoc. }
    cbn [Upload.id Upload.with_cloudinary]. rewrite Hidu. exact Hu3.
  - destruct Hrs as (msg & Hcd & -> & Hl3 & Hu3).
    destruct (onError_log env f u0 u
                (mkError ("Cloudinary upload failed: " +:+ msg)) w3 Hu3)
      as (w4 & Hrun & Hl4 & _ & Hs4).
    pose proof (onError_fs _ _ _ _ _ _ _ Hrun) as (Hp & Hkeep).
    rewrite Hrun. eexists _, _, (u0 :: l1 ++ [_])%list. split; [reflexivity|].
    rewrite Hl4, Hl3, Hl1, Hlog0, <- !app_assoc. split; [reflexivity|].
    split; [exact Hp|]. split.
    { intros x q Hin Hq Hcan. apply Hkeep. apply Hfq3; [|exact Hcan].
      apply In_cons_snoc in Hin. destruct Hin as [Hin| ->].
      - exact (Hrows x q Hin Hq).
      - simpl in Hq. destruct Hup as [Hn|Hn]; congruence. }
    split.
    { intros x Hin Hx. apply In_cons_snoc in Hin. destruct Hin as [Hin| ->].
      - exact (Hprows x Hin Hx).
      - simpl in Hx. discriminate. }
    split.
    { intros x Hin Hx. apply In_cons_snoc in Hin. destruct Hin as [Hin| ->].
      - destruct (Hnc x Hin Hx).
      - simpl in Hx. discriminate. }
    split; [reflexivity|]. right.
    eexists _, _, msg. split; [rewrite Hs4, Hst3, Hs1, Hst0; reflexivity|].
    split; [exact Hcd|]. reflexivity.
Qed.

(** C2, as the code has it.  The rows one run writes start at [pending];
    every change of status is [pending] to [processing], [completed] or
    [failed], or [processing] to [completed] or [failed]; [completed] and
    [failed] have no step out.  A row is [processing] only in a run for a
    template that is in the table and a file that is an image; without
    such a row the run goes from [pending] straight to [completed] or
    [failed]; and a row is [completed] only after a storage call that
    Cloudinary accepted. *)
Theorem upload_status_transitions (env : Env) (req : Request) (w : World) :
  starts_pending (status_trace env req w) = true
  /\ follows designed_step (status_trace env req w) = true
  /\ (forall s, designed_step completed s = false)
  /\ (forall s, designed_step failed s = false)
  /\ (In processing (status_trace env req w) -> processed_request req w)
  /\ (~ In processing (status_trace env req w) ->
      status_trace env req w = []
      \/ status_trace env req w = [pending; failed]
      \/ status_trace env req w = [pending; completed])
  /\ (In completed (status_trace env req w) ->
      exists video path b cd,
        stored (snd (uploadSingle env req w))
        = (stored w ++ [(video, path)])%list
        /\ cloudinary_upload env video path b = Success cd).
Proof.
  assert (forall s,
            In s (status_trace env req w) ->
            exists u, In u (run_log env req w) /\ Upload.status u = s) as Hrow.
  { intros s Hs. unfold status_trace in Hs. apply in_map_iff in Hs.
    destruct Hs as (u & Hu & Hin). eauto. }
  assert (starts_pending (status_trace env req w) = true
          /\ follows designed_step (status_trace env req w) = true
          /\ (~ In processing (status_trace env req w) ->
              status_trace env req w = []
              \/ status_trace env req w = [pending; failed]
              \/ status_trace env req w = [pending; completed]))
    as (H1 & H2 & H3).
  { unfold status_trace.
    destruct (run_log_shape env req w) as [->|(u0 & Hf & Hs)];
      [repeat split; auto|].
    destruct Hf as (Hst & _).
    unfold run_shape in Hs. cbv zeta in Hs.
    destruct Hs as [(m & ->)|[(cid & curl & ->)|[(m & ->)|
      [(p & a & b & c & d & m & _ & ->)|(p & a & b & c & d & cid & curl & _ & ->)]]]];
      simpl; rewrite Hst; (split; [reflexivity|]); (split; [reflexivity|]);
      intros Hn; auto; exfalso; apply Hn; auto. }
  split; [exact H1|]. split; [exact H2|].
  split; [intros []; reflexivity|]. split; [intros []; reflexivity|].
  split; [|split; [exact H3|]].
  - intros Hp. destruct (Hrow _ Hp) as (u & Hin & Hu).
    unfold run_log in Hin.
    destruct (file req) as [f|] eqn:Hfile.
    + destruct (uploadSingle_outcome env req w f Hfile)
        as (r & w' & l & Hrun & Hl & _ & _ & Hproc & _).
      rewrite Hrun in Hin. simpl in Hin. rewrite Hl, drop_app_length in Hin.
      exact (Hproc u Hin Hu).
    + unfold uploadSingle in Hin. rewrite Hfile in Hin. simpl in Hin.
      rewrite drop_all in Hin. destruct Hin.
  - intros Hc. destruct (Hrow _ Hc) as (u & Hin & Hu).
    unfold run_log in Hin.
    destruct (file req) as [f|] eqn:Hfile.
    + destruct (uploadSingle_outcome env req w f Hfile)
        as (r & w' & l & Hrun & Hl & _ & _ & _ & Hdone & Hr).
      rewrite Hrun in Hin |- *. simpl in Hin |- *.
      rewrite Hl, drop_app_length in Hin.
      destruct (Hdone u Hin Hu) as (code & pd & msg & ->).
      destruct Hr as (_ & sp & b & cd & Hst & Hcd & _).
      eexists _, sp, b, cd. split; [exact Hst | exact Hcd].
    + unfold uploadSingle in Hin. rewrite Hfile in Hin. simpl in Hin.
      rewrite drop_all in Hin. destruct Hin.
Qed.

(** X15. Whatever happens to an upload with a staged file, [uploadSingle]
    never throws, and when it returns the staged file is gone from the file
    system if unlinking it goes through ([deleteFile] swallows the error of
    an unlink that fails and leaves the file). *)
Theorem uploadSingle_removes_staged_file (env : Env) (req : Request)
    (w : World) (f : MulterFile.t) :
  file req = Some f -> MulterFile.path f <> "" ->
  exists r w',
    uploadSingle env req w = (Ok r, w')
    /\ (can_unlink env (MulterFile.path f) ->
        fs w' !! MulterFile.path f = None).
Proof.
  intros Hfile Hpath.
  destruct (uploadSingle_outcome env req w f Hfile)
    as (r & w' & l & Hrun & _ & Hfs & _).
  exists r, w'. auto.
Qed.

Lemma uploadSingle_removes_staged_file_witness :
  is_Some (fs stagedWorld !! "uploads/cat-1.jpg")
  /\ exists r w',
       uploadSingle (sampleEnv cloudOk) (templateRequest "t2") stagedWorld
       = (Ok r, w')
       /\ fs w' !! "uploads/cat-1.jpg" = None.
Proof.
  split; [eexists; reflexivity|].
  destruct (uploadSingle_removes_staged_file (sampleEnv cloudOk)
              (templateRequest "t2") stagedWorld catFile)
    as (r & w' & Hrun & Hgone); [reflexivity | discriminate |].
  exists r, w'. split; [exact Hrun|]. apply Hgone. intros disk. reflexivity.
Defined.

(** On a disk where nothing can be unlinked the staged file stays, and the
    upload completes all the same. *)
Example staged_file_stays_when_unlink_fails :
  fs (snd (uploadSingle lockedDisk plainRequest stagedWorld))
    !! "uploads/cat-1.jpg"
  = Some (mkBlob (Some (mkMetadata 800 600 "jpeg")) 2048)
  /\ exists up,
       fst (uploadSingle lockedDisk plainRequest stagedWorld)
       = Ok (RespSuccess 201 up None "File uploaded and processed successfully").
Proof. split; [reflexivity | eexists; reflexivity]. Qed.

(** X16. Every [processedPath] that [uploadSingle] writes into a row names
    a file that no longer exists when the request ends, if unlinking it
    goes through: the processed file is removed right after the storage
    call, whether the row ends completed or failed. *)
Theorem uploadSingle_processedPath_is_gone (env : Env) (req : Request)
    (w : World) (u : Upload.t) (p : string) :
  In u (run_log env req w) -> Upload.processedPath u = Some p ->
  can_unlink env p ->
  fs (snd (uploadSingle env req w)) !! p = None.
Proof.
  unfold run_log.
  destruct (file req) as [f|] eqn:Hfile.
  - destruct (uploadSingle_outcome env req w f Hfile)
      as (r & w' & l & Hrun & Hl & _ & Hrows & _).
    rewrite Hrun. simpl. rewrite Hl, drop_app_length. apply Hrows.
  - unfold uploadSingle. rewrite Hfile. simpl. rewrite drop_all. intros [].
Qed.

Lemma uploadSingle_processedPath_is_gone_witness :
  In processedRow (run_log (sampleEnv cloudOk) (templateRequest "t2") stagedWorld)
  /\ Upload.processedPath processedRow = Some "processed/processed-up1.jpg"
  /\ fs (snd (uploadSingle (sampleEnv cloudOk) (templateRequest "t2") stagedWorld))
       !! "processed/processed-up1.jpg" = None.
Proof.
  assert (In processedRow
            (run_log (sampleEnv cloudOk) (templateRequest "t2") stagedWorld))
    as Hin by (right; right; left; reflexivity).
  split; [exact Hin|]. split; [reflexivity|].
  apply (uploadSingle_processedPath_is_gone (sampleEnv cloudOk)
           (templateRequest "t2") stagedWorld processedRow _ Hin).
  - reflexivity.
  - intros disk. reflexivity.
Defined.

(** X17. The response of [uploadSingle] and its storage call.  A 201 means
    exactly one file was handed to Cloudinary (as a video when the mimetype
    says so), Cloudinary accepted it, and the returned row is the last one
    written and the one in the table, completed, with the identifier and
    URL Cloudinary gave.  A 400 is the missing file and changes nothing.  A
    500 made either no storage call, or one that Cloudinary refused. *)
Theorem uploadSingle_response (env : Env) (req : Request) (w : World) :
  exists r w',
    uploadSingle env req w = (Ok r, w')
    /\ match r with
       | RespSuccess code up pd msg =>
           code = 201%Z
           /\ exists f sp b cd,
                file req = Some f
                /\ stored w'
                   = (stored w
                      ++ [(String.prefix "video/" (MulterFile.mimetype f), sp)])%list
                /\ cloudinary_upload env
                     (String.prefix "video/" (MulterFile.mimetype f)) sp b
                   = Success cd
                /\ Upload.cloudinaryId up = Some (public_id cd)
                /\ Upload.cloudinaryUrl up = Some (url cd)
                /\ Upload.status up = completed
                /\ last (upload_log w') = Some up
                /\ uploads w' !! Upload.id up = Some up
       | RespError code err det =>
           (code = 400%Z /\ file req = None /\ w' = w)
           \/ (code = 500%Z
               /\ exists f, file req = Some f
                  /\ (stored w' = stored w
                      \/ exists sp b msg,
                           stored w'
                           = (stored w
                              ++ [(String.prefix "video/" (MulterFile.mimetype f), sp)])%list
                           /\ cloudinary_upload env
                                (String.prefix "video/" (MulterFile.mimetype f)) sp b
                              = Failure msg
                           /\ det = Some ("Cloudinary upload failed: " +:+ msg)))
       end.
Proof.
  destruct (file req) as [f|] eqn:Hfile.
  - destruct (uploadSingle_outcome env req w f Hfile)
      as (r & w' & l & Hrun & _ & _ & _ & _ & _ & Hr).
    exists r, w'. split; [exact Hrun|].
    destruct r as [code up pd msg|code err det].
    + destruct Hr as (Hc & sp & b & cd & H). split; [exact Hc|].
      exists f, sp, b, cd. split; [reflexivity | exact H].
    + destruct Hr as (Hc & H). right. split; [exact Hc|]. exists f. auto.
  - unfold uploadSingle. rewrite Hfile. unfold ret.
    eexists _, _. split; [reflexivity|]. left. auto.
Qed.

(** X18. A request that names a template which is not in the table gets a
    500: the row cannot even be created (the foreign key of
    [uploads.templateId]), so no upload row is written and nothing is
    handed to Cloudinary; the staged file is removed if unlinking it goes
    through. *)
Theorem uploadSingle_unknown_template (env : Env) (req : Request) (w : World)
    (f : MulterFile.t) (tid : string) :
  file req = Some f -> body_templateId req = Some tid -> tid <> "" ->
  templates w !! tid = None ->
  exists details w',
    uploadSingle env req w
    = (Ok (RespError 500 "Upload failed" (Some details)), w')
    /\ uploads w' = uploads w /\ upload_log w' = upload_log w
    /\ stored w' = stored w
    /\ (MulterFile.path f <> "" -> can_unlink env (MulterFile.path f) ->
        fs w' !! MulterFile.path f = None).
Proof.
  intros Hfile Htid Hne Ht.
  unfold uploadSingle. rewrite Hfile, Htid.
  unfold bind at 1, attempt, Prisma.upload_create.
  assert (truthyS (Some tid) = true) as Htr.
  { simpl. destruct (String.eqb_spec tid ""); [contradiction | reflexivity]. }
  cbn [Upload.fileSize Upload.templateId]. rewrite Htr, Ht.
  destruct (negb (Prisma.fitsInt (MulterFile.size f)));
    [|destruct (uploads w !! new_upload_id env (uploads w))];
    match goal with
    | |- context [onError env f None ?e w] =>
        destruct (onError_none env f e w) as (w2 & Hrun & Hdb);
        pose proof (onError_fs _ _ _ _ _ _ _ Hrun) as (Hp & _);
        rewrite Hrun; destruct Hdb as (_ & Hu & Hl & Hs);
        eexists _, w2; split; [reflexivity|]; auto
    end.
Qed.

Lemma uploadSingle_unknown_template_witness :
  exists details w',
    uploadSingle (sampleEnv cloudOk) (templateRequest "nope") stagedWorld
    = (Ok (RespError 500 "Upload failed" (Some details)), w')
    /\ uploads w' = uploads stagedWorld
    /\ upload_log w' = upload_log stagedWorld
    /\ stored w' = stored stagedWorld
    /\ fs w' !! MulterFile.path catFile = None.
Proof.
  destruct (uploadSingle_unknown_template (sampleEnv cloudOk)
              (templateRequest "nope") stagedWorld catFile "nope")
    as (details & w' & Hrun & Hu & Hl & Hs & Hgone);
    try reflexivity; [discriminate|].
  exists details, w'. repeat (split; [assumption|]).
  apply Hgone; [discriminate | intros disk; reflexivity].
Defined.

End UploadFiles.

(** ** Several files at once: uploadMultiple and the file checks *)

Section MultipleUploads.
Import UploadController.
Variable env : Env.

Lemma uploadEach_spec (fl : list MulterFile.t) (w : World) :
  CloudinaryService.uploadEach env fl w
  = (Ok (map (storageResult env (fs w)) fl),
     mkWorld (fs w) (templates w) (uploads w) (written w) (upload_log w)
             (stored w ++ map storageCall fl)%list).
Proof.
  revert w. induction fl as [|f fl IH]; intros w; simpl.
  - unfold ret. destruct w; simpl. rewrite app_nil_r. reflexivity.
  - unfold bind at 1, storageResult at 1, storageCall at 1.
    destruct (String.prefix "video/" (MulterFile.mimetype f));
      unfold CloudinaryService.uploadVideo, CloudinaryService.uploadImage;
      unfold bind at 1; rewrite IH; simpl; unfold ret;
      rewrite <- app_assoc; reflexivity.
Qed.

Lemma deleteEach_spec (fl : list MulterFile.t) (w : World) :
  exists w',
    deleteEach env fl w = (Ok tt, w')
    /\ (forall f, In f fl -> can_unlink env (MulterFile.path f) ->
                  fs w' !! MulterFile.path f = None)
    /\ (forall q, fs w !! q = None -> fs w' !! q = None)
    /\ (forall q, (forall f, In f fl -> MulterFile.path f <> q) ->
                  fs w' !! q = fs w !! q)
    /\ templates w' = templates w /\ uploads w' = uploads w
    /\ written w' = written w /\ upload_log w' = upload_log w
    /\ stored w' = stored w.
Proof.
  revert w. induction fl as [|f fl IH]; intros w; simpl.
  - exists w. unfold ret. repeat split; auto. intros f [].
  - unfold bind at 1, FileUtils.deleteFile.
    destruct (fs w !! MulterFile.path f) eqn:Hp;
      [destruct (unlink_ok env (fs w) (MulterFile.path f)) eqn:Hok|].
    + destruct (IH (set_fs (delete (MulterFile.path f) (fs w)) w))
        as (w' & Hrun & Hgone & Hkeep & Hother & Ht & Hu & Hw & Hl & Hs).
      exists w'. split; [exact Hrun|]. simpl in *.
      split; [|split; [|split]].
      * intros g [<-|Hg] Hcan; [|auto].
        apply Hkeep. apply lookup_delete_eq.
      * intros q Hq. apply Hkeep. apply lookup_delete_None. auto.
      * intros q Hq. rewrite Hother by auto.
        apply lookup_delete_ne. apply Hq. auto.
      * auto.
    + destruct (IH w)
        as (w' & Hrun & Hgone & Hkeep & Hother & Hrest).
      exists w'. split; [exact Hrun|].
      split; [|split; [|split]]; auto.
      intros g [<-|Hg] Hcan; [|auto].
      rewrite Hcan in Hok. discriminate.
    + destruct (IH w)
        as (w' & Hrun & Hgone & Hkeep & Hother & Hrest).
      exists w'. split; [exact Hrun|].
      split; [|split; [|split]]; auto.
      intros g [<-|Hg] Hcan; auto.
Qed.

Lemma zip_map_self {A B} (g : A -> B) (l : list A) :
  zip (map g l) l = map (fun x => (g x, x)) l.
Proof. induction l as [|x l IH]; simpl; [|rewrite IH]; reflexivity. Qed.

Lemma successful_entries (g : MulterFile.t -> ServiceResult CloudData)
    (l : list MulterFile.t) (d : CloudData) (f : MulterFile.t) :
  In (d, f)
     (omap (fun rf : ServiceResult CloudData * MulterFile.t =>
              match fst rf with
              | Success data => Some (data, snd rf)
              | Failure _ => None
              end) (map (fun x => (g x, x)) l)) ->
  In f l /\ g f = Success d.
Proof.
  induction l as [|x l IH]; simpl; [intros []|].
  destruct (g x) eqn:Hg; simpl.
  - intros [[= <- <-]|Hin]; [auto|]. destruct (IH Hin). auto.
  - intros Hin. destruct (IH Hin). auto.
Qed.

Lemma failed_entries (g : MulterFile.t -> ServiceResult CloudData)
    (l : list MulterFile.t) (e n : string) :
  In (e, n)
     (omap (fun rf : ServiceResult CloudData * MulterFile.t =>
              match fst rf with
              | Success _ => None
              | Failure error => Some (error, MulterFile.originalname (snd rf))
              end) (map (fun x => (g x, x)) l)) ->
  exists f, In f l /\ n = MulterFile.originalname f /\ g f = Failure e.
Proof.
  induction l as [|x l IH]; simpl; [intros []|].
  destruct (g x) eqn:Hg; simpl.
  - intros Hin. destruct (IH Hin) as (f & ? & ? & ?). exists f. auto.
  - intros [[= <- <-]|Hin]; [exists x; auto|].
    destruct (IH Hin) as (f & ? & ? & ?). exists f. auto.
Qed.

Lemma entries_add_up (g : MulterFile.t -> ServiceResult CloudData)
    (l : list MulterFile.t) :
  (length
     (omap (fun rf : ServiceResult CloudData * MulterFile.t =>
              match fst rf with
              | Success data => Some (data, snd rf)
              | Failure _ => None
              end) (map (fun x => (g x, x)) l))
   + length
       (omap (fun rf : ServiceResult CloudData * MulterFile.t =>
                match fst rf with
                | Success _ => None
                | Failure error =>
                    Some (error, MulterFile.originalname (snd rf))
                end) (map (fun x => (g x, x)) l))
   = length l)%nat.
Proof.
  unfold omap. induction l as [|x l IH]; simpl; [reflexivity|].
  destruct (g x); simpl; lia.
Qed.

Lemma uploadMultiple_run (fl : list MulterFile.t) (w : World) :
  fl <> [] ->
  exists successful failed message w',
    uploadMultiple env (mkMultiRequest (Some fl)) w
    = (Ok (MultiSuccess 201 successful failed (length fl)
             (length successful) (length failed) message), w')
    /\ (length successful + length failed = length fl)%nat
    /\ (failed = [] -> message = "All files uploaded successfully")
    /\ (failed <> [] ->
        message = pretty (length successful)
                  +:+ " files uploaded successfully, "
                  +:+ pretty (length failed) +:+ " failed")
    /\ (forall d f, In (d, f) successful ->
          In f fl /\ storageResult env (fs w) f = Success d)
    /\ (forall e n, In (e, n) failed ->
          exists f, In f fl /\ n = MulterFile.originalname f
                    /\ storageResult env (fs w) f = Failure e)
    /\ stored w' = (stored w ++ map storageCall fl)%list
    /\ (forall f, In f fl -> can_unlink env (MulterFile.path f) ->
                  fs w' !! MulterFile.path f = None)
    /\ (forall q, (forall f, In f fl -> MulterFile.path f <> q) ->
                  fs w' !! q = fs w !! q)
    /\ templates w' = templates w /\ uploads w' = uploads w
    /\ written w' = written w /\ upload_log w' = upload_log w.
Proof.
  intros Hne. destruct fl as [|f0 fl0]; [contradiction|].
  unfold uploadMultiple. cbn [files].
  set (fl := f0 :: fl0) in *.
  unfold try_catch at 1. unfold bind at 1.
  unfold CloudinaryService.uploadMultiple, try_catch at 1.
  unfold bind at 1. rewrite uploadEach_spec.
  unfold ret at 1. unfold bind at 1.
  match goal with
  | |- context [deleteEach env fl ?w1] =>
      destruct (deleteEach_spec fl w1)
        as (w2 & Hdel & Hgone & _ & Hother & Ht & Hu & Hw & Hl & Hs);
      rewrite Hdel
  end.
  simpl in Hother, Ht, Hu, Hw, Hl, Hs.
  rewrite zip_map_self. unfold ret.
  eexists _, _, _, w2. split; [reflexivity|].
  split; [apply entries_add_up|].
  split.
  { intros ->. reflexivity. }
  split.
  { intros Hf.
    match goal with
    | |- (if (length ?l =? 0)%nat then _ else _) = _ =>
        destruct l; [contradiction | reflexivity]
    end. }
  split; [apply successful_entries|].
  split; [apply failed_entries|].
  auto 10.
Qed.

(** X19. What [uploadMultiple] answers for a request with at least one file:
    always a 201, whatever Cloudinary says about the single files.  Every
    file ends up in exactly one of the two lists: the counts of the summary
    add up to the number of files, a successful entry carries what
    Cloudinary returned for its own file, a failed entry the error and the
    original name of its file, and the message is the all-clear when the
    failed list is empty and gives the two counts otherwise. *)
Theorem uploadMultiple_summary (fl : list MulterFile.t) (w : World) :
  fl <> [] ->
  exists successful failed message w',
    uploadMultiple env (mkMultiRequest (Some fl)) w
    = (Ok (MultiSuccess 201 successful failed (length fl)
             (length successful) (length failed) message), w')
    /\ (length successful + length failed = length fl)%nat
    /\ (failed = [] -> message = "All files uploaded successfully")
    /\ (failed <> [] ->
        message = pretty (length successful)
                  +:+ " files uploaded successfully, "
                  +:+ pretty (length failed) +:+ " failed")
    /\ (forall d f, In (d, f) successful ->
          In f fl /\ storageResult env (fs w) f = Success d)
    /\ (forall e n, In (e, n) failed ->
          exists f, In f fl /\ n = MulterFile.originalname f
                    /\ storageResult env (fs w) f = Failure e).
Proof.
  intros Hne.
  destruct (uploadMultiple_run fl w Hne)
    as (s & f & m & w' & Hrun & Hsum & Hall & Hsome & Hs & Hf & _).
  exists s, f, m, w'. auto 10.
Qed.

(** X20. What [uploadMultiple] does to the world: one storage call per
    file, in the order of the request, a video through [uploadVideo]; every
    staged file whose unlink goes through is removed afterwards, also those
    Cloudinary refused, and no other file is touched; unlike [uploadSingle]
    it writes no upload row, and it never reads or writes a template. *)
Theorem uploadMultiple_effects (fl : list MulterFile.t) (w : World) :
  fl <> [] ->
  exists r w',
    uploadMultiple env (mkMultiRequest (Some fl)) w = (Ok r, w')
    /\ stored w' = (stored w ++ map storageCall fl)%list
    /\ (forall f, In f fl -> can_unlink env (MulterFile.path f) ->
                  fs w' !! MulterFile.path f = None)
    /\ (forall q, (forall f, In f fl -> MulterFile.path f <> q) ->
                  fs w' !! q = fs w !! q)
    /\ templates w' = templates w /\ uploads w' = uploads w
    /\ written w' = written w /\ upload_log w' = upload_log w.
Proof.
  intros Hne.
  destruct (uploadMultiple_run fl w Hne)
    as (s & f & m & w' & Hrun & _ & _ & _ & _ & _ & H).
  eexists _, w'. split; [exact Hrun | exact H].
Qed.

End MultipleUploads.

Lemma uploadMultiple_summary_witness :
  exists successful failed message w',
    UploadController.uploadMultiple picturesOnly
      (mkMultiRequest (Some [catFile; clipFile])) stagedWorld
    = (Ok (MultiSuccess 201 successful failed 2
             (length successful) (length failed) message), w')
    /\ (length successful + length failed = 2)%nat
    /\ (failed = [] -> message = "All files uploaded successfully")
    /\ (failed <> [] ->
        message = pretty (length successful)
                  +:+ " files uploaded successfully, "
                  +:+ pretty (length failed) +:+ " failed")
    /\ (forall d f, In (d, f) successful ->
          In f [catFile; clipFile]
          /\ storageResult picturesOnly (fs stagedWorld) f = Success d)
    /\ (forall e n, In (e, n) failed ->
          exists f, In f [catFile; clipFile]
                    /\ n = MulterFile.originalname f
                    /\ storageResult picturesOnly (fs stagedWorld) f
                       = Failure e).
Proof.
  apply (uploadMultiple_summary picturesOnly [catFile; clipFile] stagedWorld).
  discriminate.
Defined.

Lemma uploadMultiple_effects_witness :
  exists r w',
    UploadController.uploadMultiple picturesOnly
      (mkMultiRequest (Some [catFile; clipFile])) stagedWorld = (Ok r, w')
    /\ stored w'
       = (stored stagedWorld ++ map storageCall [catFile; clipFile])%list
    /\ (forall f, In f [catFile; clipFile] ->
                  can_unlink picturesOnly (MulterFile.path f) ->
                  fs w' !! MulterFile.path f = None)
    /\ can_unlink picturesOnly (MulterFile.path catFile)
    /\ (forall q, (forall f, In f [catFile; clipFile] ->
                             MulterFile.path f <> q) ->
                  fs w' !! q = fs stagedWorld !! q)
    /\ templates w' = templates stagedWorld
    /\ uploads w' = uploads stagedWorld
    /\ written w' = written stagedWorld
    /\ upload_log w' = upload_log stagedWorld.
Proof.
  destruct (uploadMultiple_effects picturesOnly [catFile; clipFile]
              stagedWorld) as (r & w' & H1 & H2 & H3 & H4);
    [discriminate|].
  exists r, w'. split; [exact H1|]. split; [exact H2|]. split; [exact H3|].
  split; [intros disk; reflexivity | exact H4].
Defined.

Section FileChecks.
Import Validation.
Variable maxSize : Z.
Variable maxSizeMB : string.

Lemma includes_In (l : list string) (x : string) :
  includes l x = true <-> In x l.
Proof.
  unfold includes. rewrite existsb_exists. split.
  - intros (y & Hy & Heq). apply String.eqb_eq in Heq. subst. exact Hy.
  - intros Hin. exists x. split; [exact Hin | apply String.eqb_refl].
Qed.

Lemma check_passes (f : MulterFile.t) :
  (maxSize <? MulterFile.size f)%Z = false
  /\ negb (includes allowedTypes (MulterFile.mimetype f)) = false
  <-> acceptable maxSize f.
Proof.
  unfold acceptable. rewrite Z.ltb_ge, negb_false_iff, includes_In.
  reflexivity.
Qed.

Lemma validateEach_Next (fl : list MulterFile.t) :
  validateEach maxSize maxSizeMB fl = Next
  <-> Forall (acceptable maxSize) fl.
Proof.
  induction fl as [|f fl IH]; cbn [validateEach].
  - split; [constructor | reflexivity].
  - rewrite Forall_cons_iff, <- IH, <- check_passes.
    destruct (maxSize <? MulterFile.size f)%Z;
      [split; [discriminate | intros [[? _] _]; discriminate]|].
    destruct (negb (includes allowedTypes (MulterFile.mimetype f)));
      [split; [discriminate | intros [[_ ?] _]; discriminate]|].
    tauto.
Qed.

Lemma allowed_image_or_video (m : string) :
  In m allowedTypes ->
  String.prefix "image/" m = negb (String.prefix "video/" m).
Proof.
  unfold allowedTypes. simpl.
  intros [<-|[<-|[<-|[<-|[<-|[<-|[<-|[<-|[]]]]]]]]]; reflexivity.
Qed.

(** X21. [validateMultipleFiles] lets a request through exactly when it
    carries between 1 and 10 files and every one of them is at most
    [maxSize] bytes and of one of the eight allowed types. *)
Theorem validateMultipleFiles_accepts (files : option (list MulterFile.t)) :
  validateMultipleFiles maxSize maxSizeMB files = Next
  <-> exists fl, files = Some fl
                 /\ (1 <= length fl <= 10)%nat
                 /\ Forall (acceptable maxSize) fl.
Proof.
  unfold validateMultipleFiles. destruct files as [[|f fl]|].
  - split; [discriminate|]. intros (l & [= <-] & Hlen & _). simpl in Hlen. lia.
  - destruct (Nat.ltb_spec 10 (length (f :: fl))) as [Hlt|Hle].
    + split; [discriminate|]. intros (l & [= <-] & Hlen & _). lia.
    + rewrite validateEach_Next. split.
      * intros Hall. exists (f :: fl). split; [reflexivity|].
        split; [simpl in *; lia | exact Hall].
      * intros (l & [= <-] & _ & Hall). exact Hall.
  - split; [discriminate|]. intros (l & [= ] & _).
Qed.

(** X22. A request of at most 10 files that is turned down names the first
    file, in the order of the request, that is too large or of a type that
    is not allowed; the size is checked before the type, and the files
    after the offending one are not looked at. *)
Theorem validateMultipleFiles_first_offender
    (good rest : list MulterFile.t) (f : MulterFile.t) :
  Forall (acceptable maxSize) good ->
  ~ acceptable maxSize f ->
  (length (good ++ f :: rest) <= 10)%nat ->
  validateMultipleFiles maxSize maxSizeMB (Some (good ++ f :: rest)%list)
  = Reject 400
      (if (maxSize <? MulterFile.size f)%Z
       then "File " +:+ MulterFile.originalname f
            +:+ " is too large. Maximum size is " +:+ maxSizeMB +:+ "MB"
       else "File " +:+ MulterFile.originalname f
            +:+ " has invalid type. Only images and videos are allowed").
Proof.
  intros Hgood Hbad Hlen. unfold validateMultipleFiles.
  destruct (good ++ f :: rest)%list as [|x l] eqn:Hl.
  { destruct good; discriminate. }
  destruct (Nat.ltb_spec 10 (length (x :: l))) as [Hlt|_]; [lia|].
  rewrite <- Hl. clear Hl Hlen x l.
  induction Hgood as [|g good Hg _ IH]; cbn [validateEach app].
  - destruct (maxSize <? MulterFile.size f)%Z eqn:Hsize; [reflexivity|].
    destruct (negb (includes allowedTypes (MulterFile.mimetype f))) eqn:Hty;
      [reflexivity|].
    exfalso. apply Hbad. apply check_passes. auto.
  - apply check_passes in Hg. destruct Hg as [-> ->]. exact IH.
Qed.

(** X23. [validateFileUpload] looks at [req.file], or at the first of
    [req.files] when there is no [req.file].  A request it lets through has
    such a file, of at most [maxSize] bytes, and that file is either an
    image or a video for the controller, never both or neither.  The
    middleware throws, instead of answering 400, exactly when [req.files]
    is an empty array and there is no [req.file]. *)
Theorem validateFileUpload_verdict (file : option MulterFile.t)
    (files : option (list MulterFile.t)) :
  (validateFileUpload maxSize maxSizeMB file files = Ok Next ->
   exists f,
     (file = Some f \/ (file = None /\ exists rest, files = Some (f :: rest)))
     /\ (MulterFile.size f <= maxSize)%Z
     /\ String.prefix "image/" (MulterFile.mimetype f)
        = negb (String.prefix "video/" (MulterFile.mimetype f)))
  /\ ((exists e, validateFileUpload maxSize maxSizeMB file files = Throw e)
      <-> file = None /\ files = Some []).
Proof.
  assert (forall f,
            (if (maxSize <? MulterFile.size f)%Z
             then Ok (Reject 400 ("File size too large. Maximum size is "
                                  +:+ maxSizeMB +:+ "MB"))
             else if negb (includes allowedTypes (MulterFile.mimetype f))
             then Ok (Reject 400 "Invalid file type. Only images (JPEG, PNG, GIF, WebP) and videos (MP4, AVI, MOV) are allowed")
             else Ok Next) = Ok Next ->
            acceptable maxSize f) as Hpass.
  { intros f Hf. apply check_passes.
    destruct (maxSize <? MulterFile.size f)%Z; [discriminate|].
    destruct (negb (includes allowedTypes (MulterFile.mimetype f)));
      [discriminate | auto]. }
  assert (forall f e,
            (if (maxSize <? MulterFile.size f)%Z
             then Ok (Reject 400 ("File size too large. Maximum size is "
                                  +:+ maxSizeMB +:+ "MB"))
             else if negb (includes allowedTypes (MulterFile.mimetype f))
             then Ok (Reject 400 "Invalid file type. Only images (JPEG, PNG, GIF, WebP) and videos (MP4, AVI, MOV) are allowed")
             else Ok Next) <> Throw e) as Hnothrow.
  { intros f e.
    destruct (maxSize <? MulterFile.size f)%Z; [discriminate|].
    destruct (negb (includes allowedTypes (MulterFile.mimetype f)));
      discriminate. }
  unfold validateFileUpload.
  destruct file as [f|]; [|destruct files as [[|f rest]|]]; simpl.
  - split.
    + destruct files; intros Hf; apply Hpass in Hf; destruct Hf as [Hs Ht];
        exists f; (split; [auto|]);
        (split; [exact Hs | apply allowed_image_or_video; exact Ht]).
    + split.
      * intros [e He]. destruct files; apply Hnothrow in He; contradiction.
      * intros [[=] _].
  - split; [discriminate|]. split; [auto | eauto].
  - split.
    + intros Hf. apply Hpass in Hf. destruct Hf as [Hs Ht].
      exists f. split; [right; eauto|].
      split; [exact Hs | apply allowed_image_or_video; exact Ht].
    + split.
      * intros [e He]. apply Hnothrow in He. contradiction.
      * intros [_ [=]].
  - split; [discriminate|]. split.
    + intros [e [=]].
    + intros [_ [=]].
Qed.

End FileChecks.

Lemma validateMultipleFiles_first_offender_witness :
  Validation.validateMultipleFiles 5242880 "5"
    (Some [catFile;
           MulterFile.mk "notes.pdf" "notes-3.pdf" "uploads/notes-3.pdf"
             "application/pdf" 1024;
           clipFile])
  = Validation.Reject 400
      "File notes.pdf has invalid type. Only images and videos are allowed".
Proof.
  apply (validateMultipleFiles_first_offender 5242880 "5"
           [catFile] [clipFile]
           (MulterFile.mk "notes.pdf" "notes-3.pdf" "uploads/notes-3.pdf"
              "application/pdf" 1024)).
  - constructor; [|constructor]. split; [vm_compute; discriminate|].
    simpl. auto.
  - intros [_ Hin]. simpl in Hin.
    repeat (destruct Hin as [Hin|Hin]; [discriminate|]). exact Hin.
  - simpl. lia.
Defined.

(** ** Helpers: pagination and HTML escaping *)

Lemma ceilDiv_bounds (a b : Z) :
  (0 < b)%Z -> ((ceilDiv a b - 1) * b < a <= ceilDiv a b * b)%Z.
Proof.
  intros Hb. unfold ceilDiv.
  pose proof (Z.div_mod (- a) b ltac:(lia)) as Hdm.
  pose proof (Z.mod_pos_bound (- a) b Hb) as Hmod.
  nia.
Qed.

(** X24. The page arithmetic of [ResponseUtils.paginated] for a positive
    page size: [totalPages] is the least number of pages that hold [total]
    items, a next page is announced exactly when items remain beyond the
    current page, and a previous one exactly from page 2 on. *)
Theorem paginated_pages (p : Pagination) :
  (0 < limit p)%Z ->
  ((totalPages (paginated p) - 1) * limit p < total p
   <= totalPages (paginated p) * limit p)%Z
  /\ (hasNextPage (paginated p) = true <-> (page p * limit p < total p)%Z)
  /\ (hasPrevPage (paginated p) = true <-> (1 < page p)%Z)
  /\ (totalPages (paginated p) = 0%Z <-> (- limit p < total p <= 0)%Z).
Proof.
  intros Hl. destruct p as [pg lim tot]. simpl in *.
  pose proof (ceilDiv_bounds tot lim Hl) as Hb.
  rewrite !Z.ltb_lt.
  split; [exact Hb|]. split; [|split]; [split; nia | reflexivity | split; nia].
Qed.

Lemma paginated_pages_witness :
  ((totalPages (paginated (mkPagination 2 10 25)) - 1) * 10 < 25
   <= totalPages (paginated (mkPagination 2 10 25)) * 10)%Z
  /\ (hasNextPage (paginated (mkPagination 2 10 25)) = true
      <-> (2 * 10 < 25)%Z)
  /\ (hasPrevPage (paginated (mkPagination 2 10 25)) = true <-> (1 < 2)%Z)
  /\ (totalPages (paginated (mkPagination 2 10 25)) = 0%Z
      <-> (- 10 < 25 <= 0)%Z).
Proof.
  apply (paginated_pages (mkPagination 2 10 25)). simpl. lia.
Defined.

Lemma occurs_app (c : ascii) (a b : string) :
  occurs c (a +:+ b) = occurs c a || occurs c b.
Proof.
  induction a as [|x a IH]; simpl; [reflexivity|].
  rewrite IH, orb_assoc. reflexivity.
Qed.

Lemma replaceAll_removes (c : ascii) (r str : string) :
  occurs c r = false -> occurs c (replaceAll c r str) = false.
Proof.
  intros Hr. induction str as [|a str IH]; simpl; [reflexivity|].
  destruct (Ascii.eqb a c) eqn:Hac.
  - rewrite occurs_app, Hr, IH. reflexivity.
  - simpl. rewrite Hac, IH. reflexivity.
Qed.

Lemma replaceAll_keeps_out (c d : ascii) (r str : string) :
  occurs d r = false -> occurs d str = false ->
  occurs d (replaceAll c r str) = false.
Proof.
  intros Hr. induction str as [|a str IH]; simpl; [reflexivity|].
  intros Hd. apply orb_false_iff in Hd. destruct Hd as [Had Hd].
  destruct (Ascii.eqb a c).
  - rewrite occurs_app, Hr, IH by exact Hd. reflexivity.
  - simpl. rewrite Had, IH by exact Hd. reflexivity.
Qed.

Lemma replaceAll_absent (c : ascii) (r str : string) :
  occurs c str = false -> replaceAll c r str = str.
Proof.
  induction str as [|a str IH]; simpl; [reflexivity|].
  intros Hc. apply orb_false_iff in Hc. destruct Hc as [-> Hc].
  rewrite IH by exact Hc. reflexivity.
Qed.

(** X25. The text [sanitizeHtml] returns contains none of the five
    characters it escapes, whatever the input; escaping it a second time
    changes nothing. *)
Theorem sanitizeHtml_clean (str : string) :
  occurs "<" (sanitizeHtml str) = false
  /\ occurs ">" (sanitizeHtml str) = false
  /\ occurs (ascii_of_nat 34) (sanitizeHtml str) = false
  /\ occurs "'" (sanitizeHtml str) = false
  /\ occurs "/" (sanitizeHtml str) = false
  /\ sanitizeHtml (sanitizeHtml str) = sanitizeHtml str.
Proof.
  assert (occurs "<" (sanitizeHtml str) = false
          /\ occurs ">" (sanitizeHtml str) = false
          /\ occurs (ascii_of_nat 34) (sanitizeHtml str) = false
          /\ occurs "'" (sanitizeHtml str) = false
          /\ occurs "/" (sanitizeHtml str) = false) as H.
  { unfold sanitizeHtml.
    repeat split;
      repeat first
        [ apply replaceAll_removes; reflexivity
        | apply replaceAll_keeps_out; [reflexivity|] ]. }
  destruct H as (H1 & H2 & H3 & H4 & H5).
  repeat (split; [assumption|]).
  unfold sanitizeHtml at 1.
  rewrite (replaceAll_absent "<") by exact H1.
  rewrite (replaceAll_absent ">") by exact H2.
  rewrite (replaceAll_absent (ascii_of_nat 34)) by exact H3.
  rewrite (replaceAll_absent "'") by exact H4.
  rewrite (replaceAll_absent "/") by exact H5.
  reflexivity.
Qed.
